(** * micropyGPS: a shallow embedding of the NMEA sentence parser

    The development follows [micropyGPS.py]: the class [MicropyGPS]
    becomes a record, every method a function that threads the record
    explicitly, and every Python exception an [outcome] constructor.  A
    method that raises leaves the object as mutated up to the [raise].

    Conventions of the embedding
    - Python [int] is [Z]; Python [str] is [string]; a character is an
      [ascii].  [update] drops every character whose code is outside
      20..126, so a character above 255 behaves as any character above 126
      does, and nothing above 126 ever reaches a field.
    - Python [float] is an IEEE-754 binary64 value, [spec_float] with
      [prec = 53] and [emax = 1024]; [float(s)] rounds the decimal to the
      nearest double, ties to even, as CPython does.
    - [int(s)], [int(s, 16)] and [float(s)] follow CPython 3 on ASCII
      input: surrounding white space is stripped, one sign is accepted,
      single underscores may separate digits.  The limit of 4300 digits
      that CPython 3.11 puts on [int(s)] is out of reach: [update] gives up
      on a sentence after [SENTENCE_LIMIT] characters.
    - [get_ticks()] is the clock collaborator; its reading is the
      argument [now] of every function that may call [new_fix_time], and
      [feed] takes one reading per call.
    - Logging is off ([log_en] is [False] after [__init__] and only
      [start_logging] turns it on); the log file is not part of the model.
      The presentation helpers that format or compute with floats
      ([latitude], [latitude_string], [speed_string], [compass_direction],
      [time_since_fix], ...) only read the object and are left out;
      [date_string], which formats integers only, is embedded, its
      [century] argument being a string as its default is.
*)

From Stdlib Require Import ZArith String Ascii List Bool Lia.
From Stdlib Require Import Floats.SpecFloat.
From Stdlib Require DecimalString.
From stdpp Require Import base option list strings gmap.
Import ListNotations.

Local Open Scope string_scope.
Local Open Scope list_scope.
Local Open Scope Z_scope.

(** ** Exceptions *)

Inductive exn : Type := ValueError | IndexError.

Inductive outcome (A : Type) : Type :=
| Ret (a : A)
| Raise (e : exn).
Arguments Ret {A} a.
Arguments Raise {A} e.

#[global] Instance outcome_ret : MRet outcome := fun _ a => Ret a.
#[global] Instance outcome_bind : MBind outcome := fun _ _ f m =>
  match m with
  | Ret a => f a
  | Raise e => Raise e
  end.

(** ** Python strings *)

Module PyStr.

Fixpoint drop (n : nat) (s : string) : string :=
  match n, s with
  | O, _ => s
  | S n', EmptyString => EmptyString
  | S n', String _ t => drop n' t
  end.

Fixpoint take (n : nat) (s : string) : string :=
  match n, s with
  | O, _ => EmptyString
  | S n', EmptyString => EmptyString
  | S n', String c t => String c (take n' t)
  end.

(** [s[i:j]] for [0 <= i <= j]; out-of-range bounds are clamped. *)
Definition slice (i j : nat) (s : string) : string := take (j - i) (drop i s).

(** [s[i:]] *)
Definition from (i : nat) (s : string) : string := drop i s.

(** [bool(s)]: a string is true when it is not empty. *)
Definition truthy (s : string) : bool :=
  match s with
  | EmptyString => false
  | String _ _ => true
  end.

(** [''.join(buf)] for a list of one-character strings. *)
Definition join (buf : list ascii) : string := string_of_list_ascii buf.

Definition ord (c : ascii) : Z := Z.of_nat (nat_of_ascii c).

End PyStr.

(** ** [int()] and [float()] *)

Module PyNum.

Definition code (c : ascii) : Z := PyStr.ord c.

(** White space stripped by [int] and [float] on ASCII input:
    tab, LF, VT, FF, CR and the space. *)
Definition is_space (c : ascii) : bool :=
  ((9 <=? code c) && (code c <=? 13)) || (code c =? 32).

Fixpoint lstrip (s : list ascii) : list ascii :=
  match s with
  | c :: t => if is_space c then lstrip t else s
  | [] => []
  end.

Definition strip (s : list ascii) : list ascii :=
  rev (lstrip (rev (lstrip s))).

(** Value of a digit in a base up to 36. *)
Definition digit_value (base : Z) (c : ascii) : option Z :=
  let n := code c in
  let v := if (48 <=? n) && (n <=? 57) then n - 48
           else if (97 <=? n) && (n <=? 122) then n - 87
           else if (65 <=? n) && (n <=? 90) then n - 55
           else 36 in
  if v <? base then Some v else None.

Definition is_underscore (c : ascii) : bool := code c =? 95.

(** The rest of a digit run, after a digit: digits, each optionally
    preceded by one underscore. *)
Fixpoint digits_rest (base acc : Z) (s : list ascii) {struct s} : option Z :=
  match s with
  | [] => Some acc
  | c :: t =>
      if is_underscore c then
        match t with
        | d :: t' =>
            match digit_value base d with
            | Some v => digits_rest base (acc * base + v) t'
            | None => None
            end
        | [] => None
        end
      else
        match digit_value base c with
        | Some v => digits_rest base (acc * base + v) t
        | None => None
        end
  end.

(** A whole digit run: it starts and ends with a digit. *)
Definition digit_run (base : Z) (s : list ascii) : option Z :=
  match s with
  | c :: t =>
      match digit_value base c with
      | Some v => digits_rest base v t
      | None => None
      end
  | [] => None
  end.

Definition split_sign (s : list ascii) : bool * list ascii :=
  match s with
  | c :: t =>
      if code c =? 43 then (false, t)
      else if code c =? 45 then (true, t)
      else (false, s)
  | [] => (false, [])
  end.

(** The [0x] / [0X] prefix that base 16 accepts, with the one
    underscore allowed right after it. *)
Definition skip_hex_prefix (s : list ascii) : list ascii :=
  match s with
  | z :: x :: t =>
      if (code z =? 48) && ((code x =? 120) || (code x =? 88)) then
        match t with
        | u :: t' => if is_underscore u then t' else t
        | [] => t
        end
      else s
  | _ => s
  end.

Definition parse_int (base : Z) (s : string) : option Z :=
  let '(neg, body) := split_sign (strip (list_ascii_of_string s)) in
  let body := if base =? 16 then skip_hex_prefix body else body in
  match digit_run base body with
  | Some v => Some (if neg then - v else v)
  | None => None
  end.

(** [int(s)] *)
Definition int (s : string) : outcome Z :=
  match parse_int 10 s with
  | Some v => Ret v
  | None => Raise ValueError
  end.

(** [int(s, 16)] *)
Definition int16 (s : string) : outcome Z :=
  match parse_int 16 s with
  | Some v => Ret v
  | None => Raise ValueError
  end.

(** *** Floating point *)

Definition prec : Z := 53.
Definition emax : Z := 1024.

(** The double nearest to [m * 10 ^ e] for [m >= 0], with sign [neg];
    overflow gives an infinity.  Integers are rounded directly, proper
    fractions through the quotient and its remainder. *)
Definition of_decimal (neg : bool) (m e : Z) : spec_float :=
  match m with
  | Zpos _ =>
      if 0 <=? e then
        let f := binary_normalize prec emax (m * 10 ^ e) 0 false in
        if neg then SFopp f else f
      else
        let '(q, eq, loc) := SFdiv_core_binary prec emax m 0 (10 ^ (- e)) 0 in
        binary_round_aux prec emax neg q eq loc
  | _ => S754_zero neg
  end.

(** Float literals of the source. *)
Definition f0_0 : spec_float := S754_zero false.
Definition f60_0 : spec_float := of_decimal false 60 0.

(** [x >= y] on floats: false as soon as one side is a NaN. *)
Definition float_ge (x y : spec_float) : bool := SFleb y x.

Definition is_digit (c : ascii) : bool := (48 <=? code c) && (code c <=? 57).

(** Underscores are accepted only between two digits; they are removed
    before the number is read. *)
Fixpoint drop_underscores (prev : option ascii) (s : list ascii)
  : option (list ascii) :=
  match s with
  | [] =>
      match prev with
      | Some p => if is_underscore p then None else Some []
      | None => Some []
      end
  | c :: t =>
      if is_underscore c then
        match prev with
        | Some p => if is_digit p then drop_underscores (Some c) t else None
        | None => None
        end
      else
        match prev with
        | Some p =>
            if is_underscore p && negb (is_digit c) then None
            else cons c <$> drop_underscores (Some c) t
        | None => cons c <$> drop_underscores (Some c) t
        end
  end.

Fixpoint span_digits (s : list ascii) : list ascii * list ascii :=
  match s with
  | c :: t =>
      if is_digit c then let '(d, r) := span_digits t in (c :: d, r)
      else ([], s)
  | [] => ([], [])
  end.

Definition digits_value (d : list ascii) : Z :=
  fold_left (fun acc c => acc * 10 + (code c - 48)) d 0.

Definition lower (c : ascii) : ascii :=
  if (65 <=? code c) && (code c <=? 90)
  then ascii_of_nat (Z.to_nat (code c + 32)) else c.

Definition is_word (w : string) (s : list ascii) : bool :=
  if decide (map lower s = list_ascii_of_string w) then true else false.

(** The exponent part: nothing, or [e] / [E], an optional sign and at
    least one digit. *)
Definition parse_exponent (s : list ascii) : option Z :=
  match s with
  | [] => Some 0
  | c :: t =>
      if code (lower c) =? 101 then
        let '(neg, ds) := split_sign t in
        match span_digits ds with
        | (d :: ds', []) =>
            let v := digits_value (d :: ds') in
            Some (if neg then - v else v)
        | _ => None
        end
      else None
  end.

Definition parse_float (s : string) : option spec_float :=
  match drop_underscores None (strip (list_ascii_of_string s)) with
  | None => None
  | Some s =>
      let '(neg, body) := split_sign s in
      if is_word "inf" body || is_word "infinity" body then
        Some (S754_infinity neg)
      else if is_word "nan" body then Some S754_nan
      else
        let '(ip, r1) := span_digits body in
        let '(fp, r2) :=
          match r1 with
          | c :: t => if code c =? 46 then span_digits t else ([], r1)
          | [] => ([], [])
          end in
        match (ip ++ fp)%list with
        | [] => None
        | m =>
            match parse_exponent r2 with
            | Some e =>
                Some (of_decimal neg (digits_value m)
                        (e - Z.of_nat (List.length fp)))
            | None => None
            end
        end
  end.

(** [float(s)] *)
Definition float (s : string) : outcome spec_float :=
  match parse_float s with
  | Some v => Ret v
  | None => Raise ValueError
  end.

End PyNum.

(** ** The parser object *)

(** Telemetry of one satellite: elevation, azimuth and SNR, each [None]
    when the receiver gave no value. *)
Definition sat_info : Type := option Z * option Z * option Z.

(** The attributes that [__init__] creates, in its order; [__buf] is the
    character buffer of [update].  [log_handle], [log_en] and
    [coord_format] belong to logging and presentation and are left out. *)
Record MicropyGPS : Type := {
  sentence_active : bool;
  active_segment : nat;
  process_crc : bool;
  gps_segments : list string;
  crc_xor : Z;
  char_count : Z;
  fix_time : Z;
  crc_fails : Z;
  clean_sentences : Z;
  parsed_sentences : Z;
  timestamp : Z * Z * spec_float;
  date : Z * Z * Z;
  local_offset : Z;
  _latitude : Z * spec_float * string;
  _longitude : Z * spec_float * string;
  speed : spec_float;
  course : spec_float;
  altitude : spec_float;
  geoid_height : spec_float;
  satellites_in_view : Z;
  satellites_in_use : Z;
  satellites_used : list Z;
  last_sv_sentence : Z;
  total_sv_sentences : Z;
  satellite_data : gmap Z sat_info;
  hdop : spec_float;
  pdop : spec_float;
  vdop : spec_float;
  valid : bool;
  fix_stat : Z;
  fix_type : Z;
  __buf : list ascii
}.

(** Attribute assignment, [self.f = v]. *)
Definition set_sentence_active (v : bool) (self : MicropyGPS) : MicropyGPS :=
  {| sentence_active := v;  active_segment := active_segment self;
     process_crc := process_crc self;  gps_segments := gps_segments self;
     crc_xor := crc_xor self;  char_count := char_count self;
     fix_time := fix_time self;  crc_fails := crc_fails self;
     clean_sentences := clean_sentences self;
     parsed_sentences := parsed_sentences self;
     timestamp := timestamp self;  date := date self;
     local_offset := local_offset self;  _latitude := _latitude self;
     _longitude := _longitude self;  speed := speed self;
     course := course self;  altitude := altitude self;
     geoid_height := geoid_height self;
     satellites_in_view := satellites_in_view self;
     satellites_in_use := satellites_in_use self;
     satellites_used := satellites_used self;
     last_sv_sentence := last_sv_sentence self;
     total_sv_sentences := total_sv_sentences self;
     satellite_data := satellite_data self;  hdop := hdop self;
     pdop := pdop self;  vdop := vdop self;  valid := valid self;
     fix_stat := fix_stat self;  fix_type := fix_type self;
     __buf := __buf self |}.

Definition set_active_segment (v : nat) (self : MicropyGPS) : MicropyGPS :=
  {| sentence_active := sentence_active self;  active_segment := v;
     process_crc := process_crc self;  gps_segments := gps_segments self;
     crc_xor := crc_xor self;  char_count := char_count self;
     fix_time := fix_time self;  crc_fails := crc_fails self;
     clean_sentences := clean_sentences self;
     parsed_sentences := parsed_sentences self;
     timestamp := timestamp self;  date := date self;
     local_offset := local_offset self;  _latitude := _latitude self;
     _longitude := _longitude self;  speed := speed self;
     course := course self;  altitude := altitude self;
     geoid_height := geoid_height self;
     satellites_in_view := satellites_in_view self;
     satellites_in_use := satellites_in_use self;
     satellites_used := satellites_used self;
     last_sv_sentence := last_sv_sentence self;
     total_sv_sentences := total_sv_sentences self;
     satellite_data := satellite_data self;  hdop := hdop self;
     pdop := pdop self;  vdop := vdop self;  valid := valid self;
     fix_stat := fix_stat self;  fix_type := fix_type self;
     __buf := __buf self |}.

Definition set_process_crc (v : bool) (self : MicropyGPS) : MicropyGPS :=
  {| sentence_active := sentence_active self;
     active_segment := active_segment self;  process_crc := v;
     gps_segments := gps_segments self;  crc_xor := crc_xor self;
     char_count := char_count self;  fix_time := fix_time self;
     crc_fails := crc_fails self;  clean_sentences := clean_sentences self;
     parsed_sentences := parsed_sentences self;
     timestamp := timestamp self;  date := date self;
     local_offset := local_offset self;  _latitude := _latitude self;
     _longitude := _longitude self;  speed := speed self;
     course := course self;  altitude := altitude self;
     geoid_height := geoid_height self;
     satellites_in_view := satellites_in_view self;
     satellites_in_use := satellites_in_use self;
     satellites_used := satellites_used self;
     last_sv_sentence := last_sv_sentence self;
     total_sv_sentences := total_sv_sentences self;
     satellite_data := satellite_data self;  hdop := hdop self;
     pdop := pdop self;  vdop := vdop self;  valid := valid self;
     fix_stat := fix_stat self;  fix_type := fix_type self;
     __buf := __buf self |}.

Definition set_gps_segments (v : list string) (self : MicropyGPS) : MicropyGPS :=
  {| sentence_active := sentence_active self;
     active_segment := active_segment self;
     process_crc := process_crc self;  gps_segments := v;
     crc_xor := crc_xor self;  char_count := char_count self;
     fix_time := fix_time self;  crc_fails := crc_fails self;
     clean_sentences := clean_sentences self;
     parsed_sentences := parsed_sentences self;
     timestamp := timestamp self;  date := date self;
     local_offset := local_offset self;  _latitude := _latitude self;
     _longitude := _longitude self;  speed := speed self;
     course := course self;  altitude := altitude self;
     geoid_height := geoid_height self;
     satellites_in_view := satellites_in_view self;
     satellites_in_use := satellites_in_use self;
     satellites_used := satellites_used self;
     last_sv_sentence := last_sv_sentence self;
     total_sv_sentences := total_sv_sentences self;
     satellite_data := satellite_data self;  hdop := hdop self;
     pdop := pdop self;  vdop := vdop self;  valid := valid self;
     fix_stat := fix_stat self;  fix_type := fix_type self;
     __buf := __buf self |}.

Definition set_crc_xor (v : Z) (self : MicropyGPS) : MicropyGPS :=
  {| sentence_active := sentence_active self;
     active_segment := active_segment self;
     process_crc := process_crc self;  gps_segments := gps_segments self;
     crc_xor := v;  char_count := char_count self;
     fix_time := fix_time self;  crc_fails := crc_fails self;
     clean_sentences := clean_sentences self;
     parsed_sentences := parsed_sentences self;
     timestamp := timestamp self;  date := date self;
     local_offset := local_offset self;  _latitude := _latitude self;
     _longitude := _longitude self;  speed := speed self;
     course := course self;  altitude := altitude self;
     geoid_height := geoid_height self;
     satellites_in_view := satellites_in_view self;
     satellites_in_use := satellites_in_use self;
     satellites_used := satellites_used self;
     last_sv_sentence := last_sv_sentence self;
     total_sv_sentences := total_sv_sentences self;
     satellite_data := satellite_data self;  hdop := hdop self;
     pdop := pdop self;  vdop := vdop self;  valid := valid self;
     fix_stat := fix_stat self;  fix_type := fix_type self;
     __buf := __buf self |}.

Definition set_char_count (v : Z) (self : MicropyGPS) : MicropyGPS :=
  {| sentence_active := sentence_active self;
     active_segment := active_segment self;
     process_crc := process_crc self;  gps_segments := gps_segments self;
     crc_xor := crc_xor self;  char_count := v;  fix_time := fix_time self;
     crc_fails := crc_fails self;  clean_sentences := clean_sentences self;
     parsed_sentences := parsed_sentences self;
     timestamp := timestamp self;  date := date self;
     local_offset := local_offset self;  _latitude := _latitude self;
     _longitude := _longitude self;  speed := speed self;
     course := course self;  altitude := altitude self;
     geoid_height := geoid_height self;
     satellites_in_view := satellites_in_view self;
     satellites_in_use := satellites_in_use self;
     satellites_used := satellites_used self;
     last_sv_sentence := last_sv_sentence self;
     total_sv_sentences := total_sv_sentences self;
     satellite_data := satellite_data self;  hdop := hdop self;
     pdop := pdop self;  vdop := vdop self;  valid := valid self;
     fix_stat := fix_stat self;  fix_type := fix_type self;
     __buf := __buf self |}.

Definition set_fix_time (v : Z) (self : MicropyGPS) : MicropyGPS :=
  {| sentence_active := sentence_active self;
     active_segment := active_segment self;
     process_crc := process_crc self;  gps_segments := gps_segments self;
     crc_xor := crc_xor self;  char_count := char_count self;
     fix_time := v;  crc_fails := crc_fails self;
     clean_sentences := clean_sentences self;
     parsed_sentences := parsed_sentences self;
     timestamp := timestamp self;  date := date self;
     local_offset := local_offset self;  _latitude := _latitude self;
     _longitude := _longitude self;  speed := speed self;
     course := course self;  altitude := altitude self;
     geoid_height := geoid_height self;
     satellites_in_view := satellites_in_view self;
     satellites_in_use := satellites_in_use self;
     satellites_used := satellites_used self;
     last_sv_sentence := last_sv_sentence self;
     total_sv_sentences := total_sv_sentences self;
     satellite_data := satellite_data self;  hdop := hdop self;
     pdop := pdop self;  vdop := vdop self;  valid := valid self;
     fix_stat := fix_stat self;  fix_type := fix_type self;
     __buf := __buf self |}.

Definition set_crc_fails (v : Z) (self : MicropyGPS) : MicropyGPS :=
  {| sentence_active := sentence_active self;
     active_segment := active_segment self;
     process_crc := process_crc self;  gps_segments := gps_segments self;
     crc_xor := crc_xor self;  char_count := char_count self;
     fix_time := fix_time self;  crc_fails := v;
     clean_sentences := clean_sentences self;
     parsed_sentences := parsed_sentences self;
     timestamp := timestamp self;  date := date self;
     local_offset := local_offset self;  _latitude := _latitude self;
     _longitude := _longitude self;  speed := speed self;
     course := course self;  altitude := altitude self;
     geoid_height := geoid_height self;
     satellites_in_view := satellites_in_view self;
     satellites_in_use := satellites_in_use self;
     satellites_used := satellites_used self;
     last_sv_sentence := last_sv_sentence self;
     total_sv_sentences := total_sv_sentences self;
     satellite_data := satellite_data self;  hdop := hdop self;
     pdop := pdop self;  vdop := vdop self;  valid := valid self;
     fix_stat := fix_stat self;  fix_type := fix_type self;
     __buf := __buf self |}.

Definition set_clean_sentences (v : Z) (self : MicropyGPS) : MicropyGPS :=
  {| sentence_active := sentence_active self;
     active_segment := active_segment self;
     process_crc := process_crc self;  gps_segments := gps_segments self;
     crc_xor := crc_xor self;  char_count := char_count self;
     fix_time := fix_time self;  crc_fails := crc_fails self;
     clean_sentences := v;  parsed_sentences := parsed_sentences self;
     timestamp := timestamp self;  date := date self;
     local_offset := local_offset self;  _latitude := _latitude self;
     _longitude := _longitude self;  speed := speed self;
     course := course self;  altitude := altitude self;
     geoid_height := geoid_height self;
     satellites_in_view := satellites_in_view self;
     satellites_in_use := satellites_in_use self;
     satellites_used := satellites_used self;
     last_sv_sentence := last_sv_sentence self;
     total_sv_sentences := total_sv_sentences self;
     satellite_data := satellite_data self;  hdop := hdop self;
     pdop := pdop self;  vdop := vdop self;  valid := valid self;
     fix_stat := fix_stat self;  fix_type := fix_type self;
     __buf := __buf self |}.

Definition set_parsed_sentences (v : Z) (self : MicropyGPS) : MicropyGPS :=
  {| sentence_active := sentence_active self;
     active_segment := active_segment self;
     process_crc := process_crc self;  gps_segments := gps_segments self;
     crc_xor := crc_xor self;  char_count := char_count self;
     fix_time := fix_time self;  crc_fails := crc_fails self;
     clean_sentences := clean_sentences self;  parsed_sentences := v;
     timestamp := timestamp self;  date := date self;
     local_offset := local_offset self;  _latitude := _latitude self;
     _longitude := _longitude self;  speed := speed self;
     course := course self;  altitude := altitude self;
     geoid_height := geoid_height self;
     satellites_in_view := satellites_in_view self;
     satellites_in_use := satellites_in_use self;
     satellites_used := satellites_used self;
     last_sv_sentence := last_sv_sentence self;
     total_sv_sentences := total_sv_sentences self;
     satellite_data := satellite_data self;  hdop := hdop self;
     pdop := pdop self;  vdop := vdop self;  valid := valid self;
     fix_stat := fix_stat self;  fix_type := fix_type self;
     __buf := __buf self |}.

Definition set_timestamp (v : Z * Z * spec_float) (self : MicropyGPS) : MicropyGPS :=
  {| sentence_active := sentence_active self;
     active_segment := active_segment self;
     process_crc := process_crc self;  gps_segments := gps_segments self;
     crc_xor := crc_xor self;  char_count := char_count self;
     fix_time := fix_time self;  crc_fails := crc_fails self;
     clean_sentences := clean_sentences self;
     parsed_sentences := parsed_sentences self;  timestamp := v;
     date := date self;  local_offset := local_offset self;
     _latitude := _latitude self;  _longitude := _longitude self;
     speed := speed self;  course := course self;
     altitude := altitude self;  geoid_height := geoid_height self;
     satellites_in_view := satellites_in_view self;
     satellites_in_use := satellites_in_use self;
     satellites_used := satellites_used self;
     last_sv_sentence := last_sv_sentence self;
     total_sv_sentences := total_sv_sentences self;
     satellite_data := satellite_data self;  hdop := hdop self;
     pdop := pdop self;  vdop := vdop self;  valid := valid self;
     fix_stat := fix_stat self;  fix_type := fix_type self;
     __buf := __buf self |}.

Definition set_date (v : Z * Z * Z) (self : MicropyGPS) : MicropyGPS :=
  {| sentence_active := sentence_active self;
     active_segment := active_segment self;
     process_crc := process_crc self;  gps_segments := gps_segments self;
     crc_xor := crc_xor self;  char_count := char_count self;
     fix_time := fix_time self;  crc_fails := crc_fails self;
     clean_sentences := clean_sentences self;
     parsed_sentences := parsed_sentences self;
     timestamp := timestamp self;  date := v;
     local_offset := local_offset self;  _latitude := _latitude self;
     _longitude := _longitude self;  speed := speed self;
     course := course self;  altitude := altitude self;
     geoid_height := geoid_height self;
     satellites_in_view := satellites_in_view self;
     satellites_in_use := satellites_in_use self;
     satellites_used := satellites_used self;
     last_sv_sentence := last_sv_sentence self;
     total_sv_sentences := total_sv_sentences self;
     satellite_data := satellite_data self;  hdop := hdop self;
     pdop := pdop self;  vdop := vdop self;  valid := valid self;
     fix_stat := fix_stat self;  fix_type := fix_type self;
     __buf := __buf self |}.

Definition set_latitude (v : Z * spec_float * string) (self : MicropyGPS) : MicropyGPS :=
  {| sentence_active := sentence_active self;
     active_segment := active_segment self;
     process_crc := process_crc self;  gps_segments := gps_segments self;
     crc_xor := crc_xor self;  char_count := char_count self;
     fix_time := fix_time self;  crc_fails := crc_fails self;
     clean_sentences := clean_sentences self;
     parsed_sentences := parsed_sentences self;
     timestamp := timestamp self;  date := date self;
     local_offset := local_offset self;  _latitude := v;
     _longitude := _longitude self;  speed := speed self;
     course := course self;  altitude := altitude self;
     geoid_height := geoid_height self;
     satellites_in_view := satellites_in_view self;
     satellites_in_use := satellites_in_use self;
     satellites_used := satellites_used self;
     last_sv_sentence := last_sv_sentence self;
     total_sv_sentences := total_sv_sentences self;
     satellite_data := satellite_data self;  hdop := hdop self;
     pdop := pdop self;  vdop := vdop self;  valid := valid self;
     fix_stat := fix_stat self;  fix_type := fix_type self;
     __buf := __buf self |}.

Definition set_longitude (v : Z * spec_float * string) (self : MicropyGPS) : MicropyGPS :=
  {| sentence_active := sentence_active self;
     active_segment := active_segment self;
     process_crc := process_crc self;  gps_segments := gps_segments self;
     crc_xor := crc_xor self;  char_count := char_count self;
     fix_time := fix_time self;  crc_fails := crc_fails self;
     clean_sentences := clean_sentences self;
     parsed_sentences := parsed_sentences self;
     timestamp := timestamp self;  date := date self;
     local_offset := local_offset self;  _latitude := _latitude self;
     _longitude := v;  speed := speed self;  course := course self;
     altitude := altitude self;  geoid_height := geoid_height self;
     satellites_in_view := satellites_in_view self;
     satellites_in_use := satellites_in_use self;
     satellites_used := satellites_used self;
     last_sv_sentence := last_sv_sentence self;
     total_sv_sentences := total_sv_sentences self;
     satellite_data := satellite_data self;  hdop := hdop self;
     pdop := pdop self;  vdop := vdop self;  valid := valid self;
     fix_stat := fix_stat self;  fix_type := fix_type self;
     __buf := __buf self |}.

Definition set_speed (v : spec_float) (self : MicropyGPS) : MicropyGPS :=
  {| sentence_active := sentence_active self;
     active_segment := active_segment self;
     process_crc := process_crc self;  gps_segments := gps_segments self;
     crc_xor := crc_xor self;  char_count := char_count self;
     fix_time := fix_time self;  crc_fails := crc_fails self;
     clean_sentences := clean_sentences self;
     parsed_sentences := parsed_sentences self;
     timestamp := timestamp self;  date := date self;
     local_offset := local_offset self;  _latitude := _latitude self;
     _longitude := _longitude self;  speed := v;  course := course self;
     altitude := altitude self;  geoid_height := geoid_height self;
     satellites_in_view := satellites_in_view self;
     satellites_in_use := satellites_in_use self;
     satellites_used := satellites_used self;
     last_sv_sentence := last_sv_sentence self;
     total_sv_sentences := total_sv_sentences self;
     satellite_data := satellite_data self;  hdop := hdop self;
     pdop := pdop self;  vdop := vdop self;  valid := valid self;
     fix_stat := fix_stat self;  fix_type := fix_type self;
     __buf := __buf self |}.

Definition set_course (v : spec_float) (self : MicropyGPS) : MicropyGPS :=
  {| sentence_active := sentence_active self;
     active_segment := active_segment self;
     process_crc := process_crc self;  gps_segments := gps_segments self;
     crc_xor := crc_xor self;  char_count := char_count self;
     fix_time := fix_time self;  crc_fails := crc_fails self;
     clean_sentences := clean_sentences self;
     parsed_sentences := parsed_sentences self;
     timestamp := timestamp self;  date := date self;
     local_offset := local_offset self;  _latitude := _latitude self;
     _longitude := _longitude self;  speed := speed self;  course := v;
     altitude := altitude self;  geoid_height := geoid_height self;
     satellites_in_view := satellites_in_view self;
     satellites_in_use := satellites_in_use self;
     satellites_used := satellites_used self;
     last_sv_sentence := last_sv_sentence self;
     total_sv_sentences := total_sv_sentences self;
     satellite_data := satellite_data self;  hdop := hdop self;
     pdop := pdop self;  vdop := vdop self;  valid := valid self;
     fix_stat := fix_stat self;  fix_type := fix_type self;
     __buf := __buf self |}.

Definition set_altitude (v : spec_float) (self : MicropyGPS) : MicropyGPS :=
  {| sentence_active := sentence_active self;
     active_segment := active_segment self;
     process_crc := process_crc self;  gps_segments := gps_segments self;
     crc_xor := crc_xor self;  char_count := char_count self;
     fix_time := fix_time self;  crc_fails := crc_fails self;
     clean_sentences := clean_sentences self;
     parsed_sentences := parsed_sentences self;
     timestamp := timestamp self;  date := date self;
     local_offset := local_offset self;  _latitude := _latitude self;
     _longitude := _longitude self;  speed := speed self;
     course := course self;  altitude := v;
     geoid_height := geoid_height self;
     satellites_in_view := satellites_in_view self;
     satellites_in_use := satellites_in_use self;
     satellites_used := satellites_used self;
     last_sv_sentence := last_sv_sentence self;
     total_sv_sentences := total_sv_sentences self;
     satellite_data := satellite_data self;  hdop := hdop self;
     pdop := pdop self;  vdop := vdop self;  valid := valid self;
     fix_stat := fix_stat self;  fix_type := fix_type self;
     __buf := __buf self |}.

Definition set_geoid_height (v : spec_float) (self : MicropyGPS) : MicropyGPS :=
  {| sentence_active := sentence_active self;
     active_segment := active_segment self;
     process_crc := process_crc self;  gps_segments := gps_segments self;
     crc_xor := crc_xor self;  char_count := char_count self;
     fix_time := fix_time self;  crc_fails := crc_fails self;
     clean_sentences := clean_sentences self;
     parsed_sentences := parsed_sentences self;
     timestamp := timestamp self;  date := date self;
     local_offset := local_offset self;  _latitude := _latitude self;
     _longitude := _longitude self;  speed := speed self;
     course := course self;  altitude := altitude self;  geoid_height := v;
     satellites_in_view := satellites_in_view self;
     satellites_in_use := satellites_in_use self;
     satellites_used := satellites_used self;
     last_sv_sentence := last_sv_sentence self;
     total_sv_sentences := total_sv_sentences self;
     satellite_data := satellite_data self;  hdop := hdop self;
     pdop := pdop self;  vdop := vdop self;  valid := valid self;
     fix_stat := fix_stat self;  fix_type := fix_type self;
     __buf := __buf self |}.

Definition set_satellites_in_view (v : Z) (self : MicropyGPS) : MicropyGPS :=
  {| sentence_active := sentence_active self;
     active_segment := active_segment self;
     process_crc := process_crc self;  gps_segments := gps_segments self;
     crc_xor := crc_xor self;  char_count := char_count self;
     fix_time := fix_time self;  crc_fails := crc_fails self;
     clean_sentences := clean_sentences self;
     parsed_sentences := parsed_sentences self;
     timestamp := timestamp self;  date := date self;
     local_offset := local_offset self;  _latitude := _latitude self;
     _longitude := _longitude self;  speed := speed self;
     course := course self;  altitude := altitude self;
     geoid_height := geoid_height self;  satellites_in_view := v;
     satellites_in_use := satellites_in_use self;
     satellites_used := satellites_used self;
     last_sv_sentence := last_sv_sentence self;
     total_sv_sentences := total_sv_sentences self;
     satellite_data := satellite_data self;  hdop := hdop self;
     pdop := pdop self;  vdop := vdop self;  valid := valid self;
     fix_stat := fix_stat self;  fix_type := fix_type self;
     __buf := __buf self |}.

Definition set_satellites_in_use (v : Z) (self : MicropyGPS) : MicropyGPS :=
  {| sentence_active := sentence_active self;
     active_segment := active_segment self;
     process_crc := process_crc self;  gps_segments := gps_segments self;
     crc_xor := crc_xor self;  char_count := char_count self;
     fix_time := fix_time self;  crc_fails := crc_fails self;
     clean_sentences := clean_sentences self;
     parsed_sentences := parsed_sentences self;
     timestamp := timestamp self;  date := date self;
     local_offset := local_offset self;  _latitude := _latitude self;
     _longitude := _longitude self;  speed := speed self;
     course := course self;  altitude := altitude self;
     geoid_height := geoid_height self;
     satellites_in_view := satellites_in_view self;  satellites_in_use := v;
     satellites_used := satellites_used self;
     last_sv_sentence := last_sv_sentence self;
     total_sv_sentences := total_sv_sentences self;
     satellite_data := satellite_data self;  hdop := hdop self;
     pdop := pdop self;  vdop := vdop self;  valid := valid self;
     fix_stat := fix_stat self;  fix_type := fix_type self;
     __buf := __buf self |}.

Definition set_satellites_used (v : list Z) (self : MicropyGPS) : MicropyGPS :=
  {| sentence_active := sentence_active self;
     active_segment := active_segment self;
     process_crc := process_crc self;  gps_segments := gps_segments self;
     crc_xor := crc_xor self;  char_count := char_count self;
     fix_time := fix_time self;  crc_fails := crc_fails self;
     clean_sentences := clean_sentences self;
     parsed_sentences := parsed_sentences self;
     timestamp := timestamp self;  date := date self;
     local_offset := local_offset self;  _latitude := _latitude self;
     _longitude := _longitude self;  speed := speed self;
     course := course self;  altitude := altitude self;
     geoid_height := geoid_height self;
     satellites_in_view := satellites_in_view self;
     satellites_in_use := satellites_in_use self;  satellites_used := v;
     last_sv_sentence := last_sv_sentence self;
     total_sv_sentences := total_sv_sentences self;
     satellite_data := satellite_data self;  hdop := hdop self;
     pdop := pdop self;  vdop := vdop self;  valid := valid self;
     fix_stat := fix_stat self;  fix_type := fix_type self;
     __buf := __buf self |}.

Definition set_last_sv_sentence (v : Z) (self : MicropyGPS) : MicropyGPS :=
  {| sentence_active := sentence_active self;
     active_segment := active_segment self;
     process_crc := process_crc self;  gps_segments := gps_segments self;
     crc_xor := crc_xor self;  char_count := char_count self;
     fix_time := fix_time self;  crc_fails := crc_fails self;
     clean_sentences := clean_sentences self;
     parsed_sentences := parsed_sentences self;
     timestamp := timestamp self;  date := date self;
     local_offset := local_offset self;  _latitude := _latitude self;
     _longitude := _longitude self;  speed := speed self;
     course := course self;  altitude := altitude self;
     geoid_height := geoid_height self;
     satellites_in_view := satellites_in_view self;
     satellites_in_use := satellites_in_use self;
     satellites_used := satellites_used self;  last_sv_sentence := v;
     total_sv_sentences := total_sv_sentences self;
     satellite_data := satellite_data self;  hdop := hdop self;
     pdop := pdop self;  vdop := vdop self;  valid := valid self;
     fix_stat := fix_stat self;  fix_type := fix_type self;
     __buf := __buf self |}.

Definition set_total_sv_sentences (v : Z) (self : MicropyGPS) : MicropyGPS :=
  {| sentence_active := sentence_active self;
     active_segment := active_segment self;
     process_crc := process_crc self;  gps_segments := gps_segments self;
     crc_xor := crc_xor self;  char_count := char_count self;
     fix_time := fix_time self;  crc_fails := crc_fails self;
     clean_sentences := clean_sentences self;
     parsed_sentences := parsed_sentences self;
     timestamp := timestamp self;  date := date self;
     local_offset := local_offset self;  _latitude := _latitude self;
     _longitude := _longitude self;  speed := speed self;
     course := course self;  altitude := altitude self;
     geoid_height := geoid_height self;
     satellites_in_view := satellites_in_view self;
     satellites_in_use := satellites_in_use self;
     satellites_used := satellites_used self;
     last_sv_sentence := last_sv_sentence self;  total_sv_sentences := v;
     satellite_data := satellite_data self;  hdop := hdop self;
     pdop := pdop self;  vdop := vdop self;  valid := valid self;
     fix_stat := fix_stat self;  fix_type := fix_type self;
     __buf := __buf self |}.

Definition set_satellite_data (v : gmap Z sat_info) (self : MicropyGPS) : MicropyGPS :=
  {| sentence_active := sentence_active self;
     active_segment := active_segment self;
     process_crc := process_crc self;  gps_segments := gps_segments self;
     crc_xor := crc_xor self;  char_count := char_count self;
     fix_time := fix_time self;  crc_fails := crc_fails self;
     clean_sentences := clean_sentences self;
     parsed_sentences := parsed_sentences self;
     timestamp := timestamp self;  date := date self;
     local_offset := local_offset self;  _latitude := _latitude self;
     _longitude := _longitude self;  speed := speed self;
     course := course self;  altitude := altitude self;
     geoid_height := geoid_height self;
     satellites_in_view := satellites_in_view self;
     satellites_in_use := satellites_in_use self;
     satellites_used := satellites_used self;
     last_sv_sentence := last_sv_sentence self;
     total_sv_sentences := total_sv_sentences self;  satellite_data := v;
     hdop := hdop self;  pdop := pdop self;  vdop := vdop self;
     valid := valid self;  fix_stat := fix_stat self;
     fix_type := fix_type self;  __buf := __buf self |}.

Definition set_hdop (v : spec_float) (self : MicropyGPS) : MicropyGPS :=
  {| sentence_active := sentence_active self;
     active_segment := active_segment self;
     process_crc := process_crc self;  gps_segments := gps_segments self;
     crc_xor := crc_xor self;  char_count := char_count self;
     fix_time := fix_time self;  crc_fails := crc_fails self;
     clean_sentences := clean_sentences self;
     parsed_sentences := parsed_sentences self;
     timestamp := timestamp self;  date := date self;
     local_offset := local_offset self;  _latitude := _latitude self;
     _longitude := _longitude self;  speed := speed self;
     course := course self;  altitude := altitude self;
     geoid_height := geoid_height self;
     satellites_in_view := satellites_in_view self;
     satellites_in_use := satellites_in_use self;
     satellites_used := satellites_used self;
     last_sv_sentence := last_sv_sentence self;
     total_sv_sentences := total_sv_sentences self;
     satellite_data := satellite_data self;  hdop := v;  pdop := pdop self;
     vdop := vdop self;  valid := valid self;  fix_stat := fix_stat self;
     fix_type := fix_type self;  __buf := __buf self |}.

Definition set_pdop (v : spec_float) (self : MicropyGPS) : MicropyGPS :=
  {| sentence_active := sentence_active self;
     active_segment := active_segment self;
     process_crc := process_crc self;  gps_segments := gps_segments self;
     crc_xor := crc_xor self;  char_count := char_count self;
     fix_time := fix_time self;  crc_fails := crc_fails self;
     clean_sentences := clean_sentences self;
     parsed_sentences := parsed_sentences self;
     timestamp := timestamp self;  date := date self;
     local_offset := local_offset self;  _latitude := _latitude self;
     _longitude := _longitude self;  speed := speed self;
     course := course self;  altitude := altitude self;
     geoid_height := geoid_height self;
     satellites_in_view := satellites_in_view self;
     satellites_in_use := satellites_in_use self;
     satellites_used := satellites_used self;
     last_sv_sentence := last_sv_sentence self;
     total_sv_sentences := total_sv_sentences self;
     satellite_data := satellite_data self;  hdop := hdop self;  pdop := v;
     vdop := vdop self;  valid := valid self;  fix_stat := fix_stat self;
     fix_type := fix_type self;  __buf := __buf self |}.

Definition set_vdop (v : spec_float) (self : MicropyGPS) : MicropyGPS :=
  {| sentence_active := sentence_active self;
     active_segment := active_segment self;
     process_crc := process_crc self;  gps_segments := gps_segments self;
     crc_xor := crc_xor self;  char_count := char_count self;
     fix_time := fix_time self;  crc_fails := crc_fails self;
     clean_sentences := clean_sentences self;
     parsed_sentences := parsed_sentences self;
     timestamp := timestamp self;  date := date self;
     local_offset := local_offset self;  _latitude := _latitude self;
     _longitude := _longitude self;  speed := speed self;
     course := course self;  altitude := altitude self;
     geoid_height := geoid_height self;
     satellites_in_view := satellites_in_view self;
     satellites_in_use := satellites_in_use self;
     satellites_used := satellites_used self;
     last_sv_sentence := last_sv_sentence self;
     total_sv_sentences := total_sv_sentences self;
     satellite_data := satellite_data self;  hdop := hdop self;
     pdop := pdop self;  vdop := v;  valid := valid self;
     fix_stat := fix_stat self;  fix_type := fix_type self;
     __buf := __buf self |}.

Definition set_valid (v : bool) (self : MicropyGPS) : MicropyGPS :=
  {| sentence_active := sentence_active self;
     active_segment := active_segment self;
     process_crc := process_crc self;  gps_segments := gps_segments self;
     crc_xor := crc_xor self;  char_count := char_count self;
     fix_time := fix_time self;  crc_fails := crc_fails self;
     clean_sentences := clean_sentences self;
     parsed_sentences := parsed_sentences self;
     timestamp := timestamp self;  date := date self;
     local_offset := local_offset self;  _latitude := _latitude self;
     _longitude := _longitude self;  speed := speed self;
     course := course self;  altitude := altitude self;
     geoid_height := geoid_height self;
     satellites_in_view := satellites_in_view self;
     satellites_in_use := satellites_in_use self;
     satellites_used := satellites_used self;
     last_sv_sentence := last_sv_sentence self;
     total_sv_sentences := total_sv_sentences self;
     satellite_data := satellite_data self;  hdop := hdop self;
     pdop := pdop self;  vdop := vdop self;  valid := v;
     fix_stat := fix_stat self;  fix_type := fix_type self;
     __buf := __buf self |}.

Definition set_fix_stat (v : Z) (self : MicropyGPS) : MicropyGPS :=
  {| sentence_active := sentence_active self;
     active_segment := active_segment self;
     process_crc := process_crc self;  gps_segments := gps_segments self;
     crc_xor := crc_xor self;  char_count := char_count self;
     fix_time := fix_time self;  crc_fails := crc_fails self;
     clean_sentences := clean_sentences self;
     parsed_sentences := parsed_sentences self;
     timestamp := timestamp self;  date := date self;
     local_offset := local_offset self;  _latitude := _latitude self;
     _longitude := _longitude self;  speed := speed self;
     course := course self;  altitude := altitude self;
     geoid_height := geoid_height self;
     satellites_in_view := satellites_in_view self;
     satellites_in_use := satellites_in_use self;
     satellites_used := satellites_used self;
     last_sv_sentence := last_sv_sentence self;
     total_sv_sentences := total_sv_sentences self;
     satellite_data := satellite_data self;  hdop := hdop self;
     pdop := pdop self;  vdop := vdop self;  valid := valid self;
     fix_stat := v;  fix_type := fix_type self;  __buf := __buf self |}.

Definition set_fix_type (v : Z) (self : MicropyGPS) : MicropyGPS :=
  {| sentence_active := sentence_active self;
     active_segment := active_segment self;
     process_crc := process_crc self;  gps_segments := gps_segments self;
     crc_xor := crc_xor self;  char_count := char_count self;
     fix_time := fix_time self;  crc_fails := crc_fails self;
     clean_sentences := clean_sentences self;
     parsed_sentences := parsed_sentences self;
     timestamp := timestamp self;  date := date self;
     local_offset := local_offset self;  _latitude := _latitude self;
     _longitude := _longitude self;  speed := speed self;
     course := course self;  altitude := altitude self;
     geoid_height := geoid_height self;
     satellites_in_view := satellites_in_view self;
     satellites_in_use := satellites_in_use self;
     satellites_used := satellites_used self;
     last_sv_sentence := last_sv_sentence self;
     total_sv_sentences := total_sv_sentences self;
     satellite_data := satellite_data self;  hdop := hdop self;
     pdop := pdop self;  vdop := vdop self;  valid := valid self;
     fix_stat := fix_stat self;  fix_type := v;  __buf := __buf self |}.

Definition set_buf (v : list ascii) (self : MicropyGPS) : MicropyGPS :=
  {| sentence_active := sentence_active self;
     active_segment := active_segment self;
     process_crc := process_crc self;  gps_segments := gps_segments self;
     crc_xor := crc_xor self;  char_count := char_count self;
     fix_time := fix_time self;  crc_fails := crc_fails self;
     clean_sentences := clean_sentences self;
     parsed_sentences := parsed_sentences self;
     timestamp := timestamp self;  date := date self;
     local_offset := local_offset self;  _latitude := _latitude self;
     _longitude := _longitude self;  speed := speed self;
     course := course self;  altitude := altitude self;
     geoid_height := geoid_height self;
     satellites_in_view := satellites_in_view self;
     satellites_in_use := satellites_in_use self;
     satellites_used := satellites_used self;
     last_sv_sentence := last_sv_sentence self;
     total_sv_sentences := total_sv_sentences self;
     satellite_data := satellite_data self;  hdop := hdop self;
     pdop := pdop self;  vdop := vdop self;  valid := valid self;
     fix_stat := fix_stat self;  fix_type := fix_type self;  __buf := v |}.

(** ** Class constants and [__init__] *)

Definition SENTENCE_LIMIT : Z := 90.
Definition __HEMISPHERES : gset string := {[ "N"; "S"; "E"; "W" ]}.
Definition __NO_FIX : Z := 1.
Definition CLEAR_DATE : Z * Z * Z := (0, 0, 0).
Definition CLEAR_TIME : Z * Z * spec_float := (0, 0, PyNum.f0_0).
Definition CLEAR_LAT : Z * spec_float * string := (0, PyNum.f0_0, "N").
Definition CLEAR_LON : Z * spec_float * string := (0, PyNum.f0_0, "W").

(** [MicropyGPS(local_offset)] *)
Definition __init__ (offset : Z) : MicropyGPS :=
  {| sentence_active := false;
     active_segment := 0%nat;
     process_crc := false;
     gps_segments := [];
     crc_xor := 0;
     char_count := 0;
     fix_time := 0;
     crc_fails := 0;
     clean_sentences := 0;
     parsed_sentences := 0;
     timestamp := CLEAR_TIME;
     date := CLEAR_DATE;
     local_offset := offset;
     _latitude := CLEAR_LAT;
     _longitude := CLEAR_LON;
     speed := PyNum.f0_0;
     course := PyNum.f0_0;
     altitude := PyNum.f0_0;
     geoid_height := PyNum.f0_0;
     satellites_in_view := 0;
     satellites_in_use := 0;
     satellites_used := [];
     last_sv_sentence := 0;
     total_sv_sentences := 0;
     satellite_data := ∅;
     hdop := PyNum.f0_0;
     pdop := PyNum.f0_0;
     vdop := PyNum.f0_0;
     valid := false;
     fix_stat := 0;
     fix_type := 1;
     __buf := [] |}.

(** ** Sentence parsers *)

(** What a method call leaves behind: its result, or the exception that
    escaped it, and the object as mutated up to that point. *)
Definition run (A : Type) : Type := outcome A * MicropyGPS.

(** [self.gps_segments[i]] *)
Definition segment (self : MicropyGPS) (i : nat) : outcome string :=
  match gps_segments self !! i with
  | Some s => Ret s
  | None => Raise IndexError
  end.

(** [self.fix_time = get_ticks()] *)
Definition new_fix_time (now : Z) (self : MicropyGPS) : MicropyGPS :=
  set_fix_time now self.

Definition __parse_time (utc_string : string) (self : MicropyGPS) : run bool :=
  if PyStr.truthy utc_string then
    match
      hours ← PyNum.int (PyStr.slice 0 2 utc_string);
      minutes ← PyNum.int (PyStr.slice 2 4 utc_string);
      seconds ← PyNum.float (PyStr.from 4 utc_string);
      mret ((hours + local_offset self) `mod` 24, minutes, seconds)
    with
    | Ret (hours, minutes, seconds) =>
        if PyNum.float_ge seconds PyNum.f60_0 || (60 <=? minutes)
        then (Ret false, self)
        else (Ret true, set_timestamp (hours, minutes, seconds) self)
    | Raise ValueError => (Ret false, self)
    | Raise e => (Raise e, self)
    end
  else (Ret true, set_timestamp CLEAR_TIME self).

Definition __parse_lat_lon (lat lon : string * string) (self : MicropyGPS)
  : run bool :=
  let '(lat_str, lat_hemi) := lat in
  if negb (bool_decide (lat_hemi ∈ __HEMISPHERES)) then (Ret false, self) else
  match
    lat_degs ← PyNum.int (PyStr.slice 0 2 lat_str);
    lat_mins ← PyNum.float (PyStr.from 2 lat_str);
    mret (lat_degs, lat_mins)
  with
  | Raise ValueError => (Ret false, self)
  | Raise e => (Raise e, self)
  | Ret (lat_degs, lat_mins) =>
      let '(lon_str, lon_hemi) := lon in
      if negb (bool_decide (lon_hemi ∈ __HEMISPHERES)) then (Ret false, self) else
      match
        lon_degs ← PyNum.int (PyStr.slice 0 3 lon_str);
        lon_mins ← PyNum.float (PyStr.from 3 lon_str);
        mret (lon_degs, lon_mins)
      with
      | Raise ValueError => (Ret false, self)
      | Raise e => (Raise e, self)
      | Ret (lon_degs, lon_mins) =>
          (Ret true,
           set_longitude (lon_degs, lon_mins, lon_hemi)
             (set_latitude (lat_degs, lat_mins, lat_hemi) self))
      end
  end.

(** The two (string, hemisphere) pairs that RMC, GLL and GGA read before
    [__parse_lat_lon]; [i] is the index of the latitude string. *)
Definition lat_lon_fields (self : MicropyGPS) (i : nat)
  : outcome ((string * string) * (string * string)) :=
  lat_hemi ← segment self (i + 1);
  lat_str ← segment self i;
  lon_hemi ← segment self (i + 3);
  lon_str ← segment self (i + 2);
  mret ((lat_str, lat_hemi), (lon_str, lon_hemi)).

(** The date stamp of RMC: [ddmmyy], or [CLEAR_DATE] when the field is empty. *)
Definition rmc_date (self : MicropyGPS) : outcome (Z * Z * Z) :=
  date_string ← segment self 9;
  if PyStr.truthy date_string then
    day ← PyNum.int (PyStr.slice 0 2 date_string);
    month ← PyNum.int (PyStr.slice 2 4 date_string);
    year ← PyNum.int (PyStr.slice 4 6 date_string);
    mret (day, month, year)
  else mret CLEAR_DATE.

Definition gprmc (now : Z) (self : MicropyGPS) : run bool :=
  (* UTC Timestamp *)
  match segment self 1 with
  | Raise IndexError => (Ret false, self)
  | Raise e => (Raise e, self)
  | Ret utc_string =>
  match __parse_time utc_string self with
  | (Raise e, self) => (Raise e, self)
  | (Ret false, self) => (Ret false, self)
  | (Ret true, self) =>
  (* Date stamp *)
  match rmc_date self with
  | Raise _ => (Ret false, self)
  | Ret d =>
  let self := set_date d self in
  (* Check Receiver Data Valid Flag *)
  match segment self 2 with
  | Raise e => (Raise e, self)
  | Ret flag =>
  if String.eqb flag "A" then
    (* Longitude / Latitude *)
    match lat_lon_fields self 3 with
    | Raise IndexError => (Ret false, self)
    | Raise e => (Raise e, self)
    | Ret (lat, lon) =>
    match __parse_lat_lon lat lon self with
    | (Raise e, self) => (Raise e, self)
    | (Ret false, self) => (Ret false, self)
    | (Ret true, self) =>
    (* Speed *)
    match s ← segment self 7; PyNum.float s with
    | Raise ValueError => (Ret false, self)
    | Raise e => (Raise e, self)
    | Ret spd_knt =>
    (* Course *)
    match
      s ← segment self 8;
      if PyStr.truthy s then PyNum.float s else mret PyNum.f0_0
    with
    | Raise ValueError => (Ret false, self)
    | Raise e => (Raise e, self)
    | Ret crs =>
        (* Update Object Data *)
        (Ret true,
         new_fix_time now
           (set_valid true (set_course crs (set_speed spd_knt self))))
    end end end end
  else
    (* Clear Position Data if Sentence is 'Invalid' *)
    (Ret true,
     set_valid false
       (set_course PyNum.f0_0
          (set_speed PyNum.f0_0
             (set_longitude CLEAR_LON (set_latitude CLEAR_LAT self)))))
  end end end end.

Definition gpgll (now : Z) (self : MicropyGPS) : run bool :=
  (* UTC Timestamp *)
  match segment self 5 with
  | Raise IndexError => (Ret false, self)
  | Raise e => (Raise e, self)
  | Ret utc_string =>
  match __parse_time utc_string self with
  | (Raise e, self) => (Raise e, self)
  | (Ret false, self) => (Ret false, self)
  | (Ret true, self) =>
  (* Check Receiver Data Valid Flag *)
  match segment self 6 with
  | Raise e => (Raise e, self)
  | Ret flag =>
  if String.eqb flag "A" then
    match lat_lon_fields self 1 with
    | Raise IndexError => (Ret false, self)
    | Raise e => (Raise e, self)
    | Ret (lat, lon) =>
    match __parse_lat_lon lat lon self with
    | (Raise e, self) => (Raise e, self)
    | (Ret false, self) => (Ret false, self)
    | (Ret true, self) =>
        (Ret true, new_fix_time now (set_valid true self))
    end end
  else
    (Ret true,
     set_valid false (set_longitude CLEAR_LON (set_latitude CLEAR_LAT self)))
  end end end.

Definition gpvtg (self : MicropyGPS) : run bool :=
  match
    s1 ← segment self 1;
    crs ← (if PyStr.truthy s1 then PyNum.float s1 else mret PyNum.f0_0);
    s5 ← segment self 5;
    spd_knt ← (if PyStr.truthy s5 then PyNum.float s5 else mret PyNum.f0_0);
    mret (crs, spd_knt)
  with
  | Raise _ => (Ret false, self)
  | Ret (crs, spd_knt) =>
      (Ret true, set_course crs (set_speed spd_knt self))
  end.

Definition gpgga (now : Z) (self : MicropyGPS) : run bool :=
  (* UTC Timestamp *)
  match segment self 1 with
  | Raise IndexError => (Ret false, self)
  | Raise e => (Raise e, self)
  | Ret utc_string =>
  match __parse_time utc_string self with
  | (Raise e, self) => (Raise e, self)
  | (Ret false, self) => (Ret false, self)
  | (Ret true, self) =>
  (* Number of Satellites in Use, Fix Status *)
  match
    s7 ← segment self 7;
    in_use ← PyNum.int s7;
    s6 ← segment self 6;
    stat ← PyNum.int s6;
    mret (in_use, stat)
  with
  | Raise _ => (Ret false, self)
  | Ret (in_use, stat) =>
  (* Horizontal Dilution of Precision *)
  let hdop_v :=
    match s ← segment self 8; PyNum.float s with
    | Ret h => h
    | Raise _ => PyNum.f0_0
    end in
  let commit (self : MicropyGPS) : MicropyGPS :=
    set_fix_stat stat (set_hdop hdop_v (set_satellites_in_use in_use self)) in
  (* Process Location Data if Fix is GOOD *)
  if negb (stat =? 0) then
    match lat_lon_fields self 2 with
    | Raise IndexError => (Ret false, self)
    | Raise e => (Raise e, self)
    | Ret (lat, lon) =>
    match __parse_lat_lon lat lon self with
    | (Raise e, self) => (Raise e, self)
    | (Ret false, self) => (Ret false, self)
    | (Ret true, self) =>
    (* Altitude / Height Above Geoid *)
    match
      s9 ← segment self 9;
      alt ← PyNum.float s9;
      s11 ← segment self 11;
      geoid ← PyNum.float s11;
      mret (alt, geoid)
    with
    | Raise IndexError => (Raise IndexError, self)
    | Raise ValueError =>
        (Ret true,
         new_fix_time now
           (commit (set_geoid_height PyNum.f0_0 (set_altitude PyNum.f0_0 self))))
    | Ret (alt, geoid) =>
        (Ret true,
         new_fix_time now
           (commit (set_geoid_height geoid (set_altitude alt self))))
    end end end
  else (Ret true, commit self)
  end end end.

(** The loop of [gpgsa] over [range(12)]: [Ret None] is the [return False]
    inside the loop, [Ret (Some l)] the list after the loop or a [break]. *)
Fixpoint gsa_sats (self : MicropyGPS) (idxs : list nat) (sats_used : list Z)
  : outcome (option (list Z)) :=
  match idxs with
  | [] => Ret (Some sats_used)
  | sats :: rest =>
      match segment self (3 + sats) with
      | Raise e => Raise e
      | Ret sat_number_str =>
          if PyStr.truthy sat_number_str then
            match PyNum.int sat_number_str with
            | Ret sat_number => gsa_sats self rest (sats_used ++ [sat_number])
            | Raise ValueError => Ret None
            | Raise e => Raise e
            end
          else Ret (Some sats_used)
      end
  end.

Definition gpgsa (now : Z) (self : MicropyGPS) : run bool :=
  (* Fix Type (None, 2D or 3D) *)
  match s ← segment self 2; PyNum.int s with
  | Raise ValueError => (Ret false, self)
  | Raise e => (Raise e, self)
  | Ret ftype =>
  (* Read All (up to 12) Available PRN Satellite Numbers *)
  match gsa_sats self (seq 0 12) [] with
  | Raise e => (Raise e, self)
  | Ret None => (Ret false, self)
  | Ret (Some sats_used) =>
  (* PDOP, HDOP, VDOP *)
  match
    s15 ← segment self 15;
    p ← PyNum.float s15;
    s16 ← segment self 16;
    h ← PyNum.float s16;
    s17 ← segment self 17;
    v ← PyNum.float s17;
    mret (p, h, v)
  with
  | Raise ValueError => (Ret false, self)
  | Raise e => (Raise e, self)
  | Ret (p, h, v) =>
      (* Update Object Data *)
      let self := set_fix_type ftype self in
      let self := if __NO_FIX <? ftype then new_fix_time now self else self in
      (Ret true,
       set_pdop p (set_vdop v (set_hdop h (set_satellites_used sats_used self))))
  end end end.

(** [int(self.gps_segments[i])] under [except (ValueError, IndexError)]
    with [None] as the fallback. *)
Definition optional_int (self : MicropyGPS) (i : nat) : option Z :=
  match s ← segment self i; PyNum.int s with
  | Ret v => Some v
  | Raise _ => None
  end.

(** The loop of [gpgsv] over [range(4, sat_segment_limit, 4)]: [n] indices
    are left, [sats] is the current one.  [None] is the [return False]
    inside the loop, [Some d] the dictionary after the loop or a [break]. *)
Fixpoint gsv_loop (self : MicropyGPS) (n : nat) (sats : nat)
  (satellite_dict : gmap Z sat_info) : option (gmap Z sat_info) :=
  match n with
  | O => Some satellite_dict
  | S n' =>
      match segment self sats with
      | Raise _ => None
      | Ret prn =>
          if negb (PyStr.truthy prn) then Some satellite_dict
          else
            match PyNum.int prn with
            | Raise _ => None
            | Ret sat_id =>
                let elevation := optional_int self (sats + 1) in
                let azimuth := optional_int self (sats + 2) in
                let snr := optional_int self (sats + 3) in
                gsv_loop self n' (sats + 4)
                  (<[sat_id := (elevation, azimuth, snr)]> satellite_dict)
            end
      end
  end.

(** [len(range(4, stop, 4))] *)
Definition range4_len (stop : Z) : nat := Z.to_nat ((stop - 4 + 3) `div` 4).

(** The three counts every GSV sentence starts with. *)
Definition gsv_header (self : MicropyGPS) : outcome (Z * Z * Z) :=
  s1 ← segment self 1;
  num_sv_sentences ← PyNum.int s1;
  s2 ← segment self 2;
  current_sv_sentence ← PyNum.int s2;
  s3 ← segment self 3;
  sats_in_view ← PyNum.int s3;
  mret (num_sv_sentences, current_sv_sentence, sats_in_view).

(** Number of segment positions to read: the last sentence may have 1-4
    satellites, the others have 4 and are read up to position 20. *)
Definition sat_segment_limit (num_sv_sentences current_sv_sentence sats_in_view : Z)
  : Z :=
  if num_sv_sentences =? current_sv_sentence
  then (sats_in_view - (num_sv_sentences - 1) * 4) * 5
  else 20.

Definition gpgsv (self : MicropyGPS) : run bool :=
  match gsv_header self with
  | Raise ValueError => (Ret false, self)
  | Raise e => (Raise e, self)
  | Ret (num_sv_sentences, current_sv_sentence, sats_in_view) =>
  let limit :=
    sat_segment_limit num_sv_sentences current_sv_sentence sats_in_view in
  (* Try to recover data for up to 4 satellites in sentence *)
  match gsv_loop self (range4_len limit) 4 ∅ with
  | None => (Ret false, self)
  | Some satellite_dict =>
      (* Update Object Data *)
      let self :=
        set_satellites_in_view sats_in_view
          (set_last_sv_sentence current_sv_sentence
             (set_total_sv_sentences num_sv_sentences self)) in
      (* A new set of sentences clears the existing sat data, a further
         sentence updates it *)
      if current_sv_sentence =? 1
      then (Ret true, set_satellite_data satellite_dict self)
      else (Ret true,
            set_satellite_data (satellite_dict ∪ satellite_data self) self)
  end end.

(** ** Data stream handler *)

(** All the currently supported NMEA sentences. *)
Definition supported_sentences
  : gmap string (Z → MicropyGPS → run bool) :=
  list_to_map
    [ ("GPRMC", gprmc); ("GLRMC", gprmc);
      ("GPGGA", gpgga); ("GLGGA", gpgga);
      ("GPVTG", λ _, gpvtg); ("GLVTG", λ _, gpvtg);
      ("GPGSA", gpgsa); ("GLGSA", gpgsa);
      ("GPGSV", λ _, gpgsv); ("GLGSV", λ _, gpgsv);
      ("GPGLL", gpgll); ("GLGLL", gpgll);
      ("GNGGA", gpgga); ("GNRMC", gprmc);
      ("GNVTG", λ _, gpvtg); ("GNGLL", gpgll);
      ("GNGSA", gpgsa) ].

(** Adjust Object Flags in Preparation for a New Sentence *)
Definition new_sentence (self : MicropyGPS) : MicropyGPS :=
  set_buf []
    (set_char_count 0
       (set_process_crc true
          (set_sentence_active true
             (set_crc_xor 0
                (set_active_segment 0%nat (set_gps_segments [""] self)))))).

(** [self.gps_segments[self.active_segment] = ''.join(self.__buf)], then
    the buffer is emptied.  The assignment raises [IndexError] when the
    index is not an index of the list. *)
Definition __update_segment (self : MicropyGPS) : run unit :=
  if bool_decide (active_segment self < length (gps_segments self))%nat then
    (Ret (),
     set_buf []
       (set_gps_segments
          (<[active_segment self := PyStr.join (__buf self)]> (gps_segments self))
          self))
  else (Raise IndexError, self).

(** [self.active_segment += 1; self.gps_segments.append('')] *)
Definition next_segment (self : MicropyGPS) : MicropyGPS :=
  set_gps_segments (gps_segments self ++ [""])
    (set_active_segment (S (active_segment self)) self).

(** The [try] block that compares the two trailer characters with the
    running XOR; the result is the new value of [valid_sentence]. *)
Definition check_crc (self : MicropyGPS) : run bool :=
  match segment self (active_segment self) with
  | Raise e => (Raise e, self)
  | Ret trailer =>
      match PyNum.int16 trailer with
      | Ret final_crc =>
          if crc_xor self =? final_crc then (Ret true, self)
          else (Ret false, set_crc_fails (crc_fails self + 1) self)
      | Raise ValueError => (Ret false, self)
      | Raise e => (Raise e, self)
      end
  end.

(** The branches of [update] for [','] and for any other character, up to
    the CRC update; the result is [valid_sentence]. *)
Definition store_char (new_char : ascii) (self : MicropyGPS) : run bool :=
  if Ascii.eqb new_char "," then
    match __update_segment self with
    | (Raise e, self) => (Raise e, self)
    | (Ret _, self) => (Ret false, next_segment self)
    end
  else
    let self := set_buf (__buf self ++ [new_char]) self in
    if negb (process_crc self) then
      if (length (__buf self) =? 2)%nat then
        match __update_segment self with
        | (Raise e, self) => (Raise e, self)
        | (Ret _, self) => check_crc self
        end
      else (Ret false, self)
    else (Ret false, self).

(** The sentence buffer must not fill up with garbage. *)
Definition char_limit (self : MicropyGPS) : MicropyGPS :=
  if SENTENCE_LIMIT <? char_count self
  then set_sentence_active false self else self.

(** The end of [update]: parse a valid, supported sentence, then check
    the length, then tell the host that nothing was parsed. *)
Definition finish (now : Z) (valid_sentence : bool) (self : MicropyGPS)
  : run (option string) :=
  if valid_sentence then
    let self :=
      set_sentence_active false
        (set_clean_sentences (clean_sentences self + 1) self) in
    match segment self 0 with
    | Raise e => (Raise e, self)
    | Ret name =>
        match supported_sentences !! name with
        | Some parser =>
            match parser now self with
            | (Raise e, self) => (Raise e, self)
            | (Ret true, self) =>
                let self :=
                  set_parsed_sentences (parsed_sentences self + 1) self in
                match segment self 0 with
                | Raise e => (Raise e, self)
                | Ret name => (Ret (Some name), self)
                end
            | (Ret false, self) => (Ret None, char_limit self)
            end
        | None => (Ret None, char_limit self)
        end
    end
  else (Ret None, char_limit self).

(** [update(new_char)]: [Ret (Some s)] is the returned sentence type,
    [Ret None] is Python's [None]. *)
Definition update (now : Z) (new_char : ascii) (self : MicropyGPS)
  : run (option string) :=
  let ascii_char := PyStr.ord new_char in
  if (20 <=? ascii_char) && (ascii_char <=? 126) then
    let self := set_char_count (char_count self + 1) self in
    (* Check if a new string is starting ($) *)
    if Ascii.eqb new_char "$" then (Ret None, new_sentence self)
    else if sentence_active self then
      (* Check if sentence is ending ( * ) *)
      if Ascii.eqb new_char "*" then
        match __update_segment (set_process_crc false self) with
        | (Raise e, self) => (Raise e, self)
        | (Ret _, self) => (Ret None, next_segment self)
        end
      else
        match store_char new_char self with
        | (Raise e, self) => (Raise e, self)
        | (Ret valid_sentence, self) =>
            (* Update CRC *)
            let self :=
              if process_crc self
              then set_crc_xor (Z.lxor (crc_xor self) ascii_char) self
              else self in
            finish now valid_sentence self
        end
    else (Ret None, self)
  else (Ret None, self).

(** Feeding a stream, one [update] per character; [clock i] is what
    [get_ticks()] reads during the call for the character at position [i].
    The list holds what each call returned; the stream stops at the first
    exception, as the caller's loop would. *)
Fixpoint feed (clock : nat → Z) (chars : list ascii) (self : MicropyGPS)
  : run (list (option string)) :=
  match chars with
  | [] => (Ret [], self)
  | c :: rest =>
      match update (clock 0%nat) c self with
      | (Raise e, self) => (Raise e, self)
      | (Ret r, self) =>
          match feed (λ i, clock (S i)) rest self with
          | (Raise e, self) => (Raise e, self)
          | (Ret rs, self) => (Ret (r :: rs), self)
          end
      end
  end.

(** A clock that stands still. *)
Definition at_tick (t : Z) : nat → Z := λ _, t.

(** The stream of a string literal. *)
Definition stream (s : string) : list ascii := list_ascii_of_string s.

(** What the last call of a stream returned. *)
Definition last_event (r : run (list (option string))) : outcome (option string) :=
  match fst r with
  | Ret rs => Ret (List.last rs None)
  | Raise e => Raise e
  end.

(** ** Views of the object used in the statements *)

(** The navigation data: every attribute that holds data from sentences. *)
Definition navigation (self : MicropyGPS) :=
  (timestamp self, date self, _latitude self, _longitude self,
   (speed self, course self, altitude self, geoid_height self),
   (satellites_in_view self, satellites_in_use self, satellites_used self),
   (last_sv_sentence self, total_sv_sentences self, satellite_data self),
   (hdop self, pdop self, vdop self),
   (valid self, fix_stat self, fix_type self, fix_time self)).

(** The sentence statistics. *)
Definition statistics (self : MicropyGPS) : Z * Z * Z :=
  (crc_fails self, clean_sentences self, parsed_sentences self).

(** The float literal [m * 10 ^ e], [m >= 0]. *)
Definition lit (m e : Z) : spec_float := PyNum.of_decimal false m e.

Definition hemisphere (lat_lon : Z * spec_float * string) : string := snd lat_lon.

(** Both hemisphere letters are members of [__HEMISPHERES]. *)
Definition hemi_ok (self : MicropyGPS) : Prop :=
  hemisphere (_latitude self) ∈ __HEMISPHERES ∧
  hemisphere (_longitude self) ∈ __HEMISPHERES.

(** The bounds that [__parse_time] checks before it stores a time. *)
Definition time_ok (self : MicropyGPS) : Prop :=
  let '(hours, minutes, seconds) := timestamp self in
  0 ≤ hours < 24 ∧ minutes < 60 ∧ PyNum.float_ge seconds PyNum.f60_0 = false.

(** ** The framer's view of a stream *)

(** Characters [update] looks at: the others are dropped. *)
Definition accepted (c : ascii) : bool :=
  (20 <=? PyStr.ord c) && (PyStr.ord c <=? 126).

(** Characters that neither start nor end a sentence. *)
Definition body_char (c : ascii) : bool :=
  negb (Ascii.eqb c "$") && negb (Ascii.eqb c "*").

(** Characters that [update] appends to [__buf]. *)
Definition stored_char (c : ascii) : bool :=
  accepted c && body_char c && negb (Ascii.eqb c ",").

(** The XOR of the character codes, folded from the left as the framer does. *)
Definition xor_fold (cs : list ascii) : Z :=
  fold_left (λ x c, Z.lxor x (PyStr.ord c)) cs 0.

(** The checksum of a sentence body: the fold over the characters that
    [update] looks at. *)
Definition checksum (body : list ascii) : Z := xor_fold (List.filter accepted body).

(** A sentence is being collected and its checksum accumulated;
    [active_segment] is the index of the last segment. *)
Definition collecting (self : MicropyGPS) : Prop :=
  sentence_active self = true ∧
  process_crc self = true ∧
  S (active_segment self) = length (gps_segments self).

(** After the star: the trailer is being collected in [__buf]. *)
Definition in_trailer (buf : list ascii) (self : MicropyGPS) : Prop :=
  sentence_active self = true ∧ process_crc self = false ∧
  __buf self = buf ∧
  S (active_segment self) = length (gps_segments self).

(** ** Sample streams *)

Definition CR : ascii := ascii_of_nat 13.
Definition LF : ascii := ascii_of_nat 10.

Definition gga_sentence : string :=
  "$GPGGA,123519,4807.038,N,01131.000,E,1,08,0.9,545.4,M,46.9,M,,*47".

Definition rmc_bad_speed : string :=
  "$GPRMC,123519,A,4807.038,N,01131.000,E,x,084.4,230394,003.1,W*38".

Definition vtg_body : string := "GPVTG,054.7,T,034.4,M,005.5,N,010.2,K".

Definition vtg_sentence : string := "$GPVTG,054.7,T,034.4,M,005.5,N,010.2,K*48".

Definition gll_invalid : string := "$GPGLL,4916.45,N,12311.12,W,225444,V*26".

Definition gll_swapped_hemispheres : string :=
  "$GPGLL,4916.45,E,12311.12,N,225444,A*23".

(** Two streams that differ in one bit of one character between the
    dollar and the star: the percent sign, code 37, against the dollar,
    code 36. *)
Definition percent_stream : string :=
  "$%%GPVTG,054.7,T,034.4,M,005.5,N,010.2,K*48".
Definition flipped_stream : string :=
  "$%$GPVTG,054.7,T,034.4,M,005.5,N,010.2,K*48".

(** The second GSV sentence of a group of three, as [update] has split
    it, in an object that already holds two satellites. *)
Definition gsv_second : MicropyGPS :=
  set_satellite_data
    {[ 3 := (Some 3, Some 111, Some 0); 14 := (None, None, None) ]}
    (set_gps_segments
       ["GPGSV"; "3"; "2"; "11"; "14"; "25"; "170"; "00"; "16"; "57"; "208";
        "39"; "18"; "67"; "296"; "40"; "19"; "40"; "246"; ""; "74"]
       (__init__ 0)).

(** RMC and GLL sentences with the flag [V], as [update] has split them,
    in an object that holds a speed and a course. *)
Definition moving : MicropyGPS :=
  set_course (lit 547 (-1)) (set_speed (lit 55 (-1)) (__init__ 0)).

Definition rmc_invalid : MicropyGPS :=
  set_gps_segments
    ["GPRMC"; "123519"; "V"; "4807.038"; "N"; "01131.000"; "E"; "022.4";
     "084.4"; "230394"; "003.1"; "W"; "7D"]
    moving.

Definition gll_invalid_split : MicropyGPS :=
  set_gps_segments
    ["GPGLL"; "4916.45"; "N"; "12311.12"; "W"; "225444"; "V"; "26"]
    moving.

(** ** Helper methods *)

(** Checks if all the GSV sentences in a group have been read. *)
Definition satellite_data_updated (self : MicropyGPS) : bool :=
  (0 <? total_sv_sentences self) &&
  (total_sv_sentences self =? last_sv_sentence self).

(** Mark GSV sentences as read. *)
Definition unset_satellite_data_updated (self : MicropyGPS) : MicropyGPS :=
  set_last_sv_sentence 0 self.

(** *** Formatting an [int] *)

Module PyFmt.

(** [str(n)], which is also what [f'{n}'] gives for an [int]. *)
Definition str (n : Z) : string :=
  DecimalString.NilZero.string_of_int (Z.to_int n).

(** [f'{n:02d}']: the digits of [n] padded with zeros to a width of two,
    the minus sign counted in the width. *)
Definition fmt_02d (n : Z) : string :=
  if n <? 0 then str n
  else if n <? 10 then String "0" (str n)
  else str n.

End PyFmt.

(** *** [date_string] *)

Definition __MONTHS : list string :=
  ["January"; "February"; "March"; "April"; "May"; "June"; "July";
   "August"; "September"; "October"; "November"; "December"].

(** [t[i]] on a tuple: a negative index counts from the end. *)
Definition tuple_index {A : Type} (t : list A) (i : Z) : outcome A :=
  let n := Z.of_nat (length t) in
  let at_ (k : Z) : outcome A :=
    match t !! Z.to_nat k with
    | Some x => Ret x
    | None => Raise IndexError
    end in
  if 0 <=? i then at_ i
  else if - n <=? i then at_ (n + i)
  else Raise IndexError.

Definition st_nd_rd : gmap Z string :=
  list_to_map
    [(1, "st"); (21, "st"); (31, "st"); (2, "nd"); (22, "nd"); (3, "rd");
     (23, "rd")].

(** [date_string(formatting, century)] with [century] a string, as its
    default ['20'] is. *)
Definition date_string (formatting century : string) (self : MicropyGPS)
  : outcome string :=
  let '(d, m, y) := date self in
  if String.eqb formatting "long" then
    (* Retrieve Month string from private set *)
    month ← tuple_index __MONTHS (m - 1);
    (* Determine Date Suffix *)
    let suffix :=
      match st_nd_rd !! d with
      | Some sfx => sfx
      | None => "th"
      end in
    let day := PyFmt.str d +:+ suffix in
    let year := century +:+ PyFmt.str y in
    mret (month +:+ " " +:+ day +:+ ", " +:+ year)
  else
    let day := PyFmt.fmt_02d d in
    let month := PyFmt.fmt_02d m in
    let year := century +:+ PyFmt.fmt_02d y in
    if String.eqb formatting "s_dmy"
    then mret (day +:+ "/" +:+ month +:+ "/" +:+ year)
    else mret (month +:+ "/" +:+ day +:+ "/" +:+ year).

(** ** Further views used in the statements *)

(** The in-flight sentence buffer: everything [new_sentence] resets. *)
Definition framing (self : MicropyGPS) :=
  (sentence_active self, active_segment self, process_crc self,
   gps_segments self, crc_xor self, char_count self, __buf self).

(** What [body.split(',')] gives in Python: the fields of a sentence
    body, [cur] being the characters of the field under way. *)
Fixpoint fields_from (cur : list ascii) (body : list ascii) : list string :=
  match body with
  | [] => [PyStr.join cur]
  | c :: rest =>
      if Ascii.eqb c ","
      then PyStr.join cur :: fields_from [] rest
      else fields_from (cur ++ [c]) rest
  end.

Definition fields (body : list ascii) : list string := fields_from [] body.

(** The clock readings that the characters [update] looks at receive,
    when the whole stream [chars] is fed under [clock]. *)
Fixpoint keep_clock (clock : nat → Z) (chars : list ascii) : nat → Z :=
  match chars with
  | [] => clock
  | c :: rest =>
      if accepted c then
        λ i, match i with
             | O => clock 0%nat
             | S j => keep_clock (λ k, clock (S k)) rest j
             end
      else keep_clock (λ k, clock (S k)) rest
  end.

(** [s'] differs from [s] in navigation data only. *)
Definition same_frame (s s' : MicropyGPS) : Prop :=
  framing s' = framing s ∧ statistics s' = statistics s ∧
  local_offset s' = local_offset s.

(** The decimal digit [n], [n < 10], as a character. *)
Definition digit (n : nat) : ascii := ascii_of_nat (48 + n).

(** ** The satellites of a GSV sentence, field by field

    What the fields of a sentence say, without the loop of [gpgsv]:
    block [k] of a GSV sentence is the four fields from position
    [4 + 4 * k] on. *)

(** The number in field [i], when there is such a field and [int] reads it. *)
Definition field_int (segs : list string) (i : nat) : option Z :=
  match segs !! i with
  | Some s =>
      match PyNum.int s with
      | Ret v => Some v
      | Raise _ => None
      end
  | None => None
  end.

(** Block [k] is read: its position is below the limit and no block up to
    it has an empty or missing PRN field. *)
Definition block_read (segs : list string) (limit : Z) (k : nat) : Prop :=
  Z.of_nat (4 + 4 * k) < limit ∧
  ∀ j, (j ≤ k)%nat → ∃ s, segs !! (4 + 4 * j)%nat = Some s ∧ s ≠ "".

(** Block [k] is read and is about satellite [prn], with entry [info]. *)
Definition decoded_in_block (segs : list string) (limit : Z) (k : nat)
  (prn : Z) (info : sat_info) : Prop :=
  block_read segs limit k ∧
  field_int segs (4 + 4 * k) = Some prn ∧
  info = (field_int segs (4 + 4 * k + 1), field_int segs (4 + 4 * k + 2),
          field_int segs (4 + 4 * k + 3)).

(** The sentence gives satellite [prn] the entry [info]: the last block
    about [prn] that is read. *)
Definition decoded (segs : list string) (limit : Z) (prn : Z) (info : sat_info)
  : Prop :=
  ∃ k, decoded_in_block segs limit k prn info ∧
       ∀ k' info', (k < k')%nat → ¬ decoded_in_block segs limit k' prn info'.

(** The sentence has no block about [prn]. *)
Definition not_decoded (segs : list string) (limit : Z) (prn : Z) : Prop :=
  ∀ k info, ¬ decoded_in_block segs limit k prn info.

(** ** The sentence types and what their parsers never assign *)

Definition RMC : list string := ["GPRMC"; "GLRMC"; "GNRMC"].
Definition GLL : list string := ["GPGLL"; "GLGLL"; "GNGLL"].
Definition VTG : list string := ["GPVTG"; "GLVTG"; "GNVTG"].
Definition GGA : list string := ["GPGGA"; "GLGGA"; "GNGGA"].
Definition GSA : list string := ["GPGSA"; "GLGSA"; "GNGSA"].
Definition GSV : list string := ["GPGSV"; "GLGSV"].

(** The attributes that hold data from GSV sentences. *)
Definition sky (self : MicropyGPS) :=
  (satellites_in_view self, last_sv_sentence self, total_sv_sentences self,
   satellite_data self).

(** The navigation data without the attributes that [gprmc] and the
    helpers it calls assign. *)
Definition outside_rmc (self : MicropyGPS) :=
  (altitude self, geoid_height self, satellites_in_use self,
   satellites_used self, hdop self, pdop self, vdop self,
   fix_stat self, fix_type self, sky self).

Definition outside_gll (self : MicropyGPS) :=
  (date self, speed self, course self, outside_rmc self).

Definition outside_vtg (self : MicropyGPS) :=
  (timestamp self, date self, _latitude self, _longitude self,
   altitude self, geoid_height self, satellites_in_use self,
   satellites_used self, hdop self, pdop self, vdop self,
   valid self, fix_stat self, fix_type self, fix_time self, sky self).

Definition outside_gga (self : MicropyGPS) :=
  (date self, speed self, course self, satellites_used self,
   pdop self, vdop self, valid self, fix_type self, sky self).

Definition outside_gsa (self : MicropyGPS) :=
  (timestamp self, date self, _latitude self, _longitude self,
   speed self, course self, altitude self, geoid_height self,
   satellites_in_use self, valid self, fix_stat self, sky self).

Definition outside_gsv (self : MicropyGPS) :=
  (timestamp self, date self, _latitude self, _longitude self,
   (speed self, course self, altitude self, geoid_height self),
   (satellites_in_use self, satellites_used self),
   (hdop self, pdop self, vdop self),
   (valid self, fix_stat self, fix_type self, fix_time self)).

(** ** Sentences of each type and the object one character before their end *)

Definition rmc_sentence : string :=
  "$GPRMC,123519,A,4807.038,N,01131.000,E,022.4,084.4,230394,003.1,W*6A".

Definition gsv_sentence : string :=
  "$GPGSV,3,1,11,03,03,111,00,04,15,270,00,06,01,010,00,13,06,292,00*74".

Definition gsa_sentence : string :=
  "$GPGSA,A,3,04,05,,09,12,,,24,,,,,2.5,1.3,2.1*39".

Definition vtg_rejected : string := "$GPVTG,x,T,,M,1,N*4C".

(** A fresh object that has received all of [sentence] but its last
    character, and that character. *)
Definition all_but_last (sentence : string) : MicropyGPS :=
  snd (feed (at_tick 0) (removelast (stream sentence)) (__init__ 0)).

Definition final_char (sentence : string) : ascii :=
  List.last (stream sentence) "$"%char.

(** The two-character string of the decimal digits [a] and [b]. *)
Definition two_digits (a b : nat) : string :=
  String (digit a) (String (digit b) "").

(** A sentence that has grown too long to be completed: it is closed
    already, or it holds 89 characters or more and is either still in
    its body or right behind a star. *)
Definition overlong (self : MicropyGPS) : Prop :=
  sentence_active self = false ∨
  88 < char_count self ∧
  S (active_segment self) = length (gps_segments self) ∧
  (process_crc self = true ∨ __buf self = [] ∧ 89 < char_count self).

(** The sentence types that a stream reported, in order. *)
Definition reported (events : list (option string)) : list string :=
  omap id events.

(** A sentence body of 89 characters. *)
Definition long_body : list ascii := stream vtg_body ++ replicate 52 "0"%char.

(** * Properties *)

(** ** Runs on concrete streams *)

(** C3. Feeding the GGA example, CR and LF included, to a fresh parser with
    local offset 0: the 65th call, the one that receives the last checksum
    character, returns [GPGGA]; every other call returns [None]; the time is
    12:35:19.0, the fix status 1, eight satellites are in use, the altitude
    is 545.4, the geoid height 46.9, the latitude (48, 7.038, N) and the
    longitude (11, 31.0, E).  CR and LF change nothing.  (With the default
    format [ddm] the properties [latitude] and [longitude] return
    [_latitude] and [_longitude] as they are stored.) *)
Theorem C3_gga_example (clock : nat → Z) :
  let at_checksum := feed clock (stream gga_sentence) (__init__ 0) in
  let r := feed clock (stream gga_sentence ++ [CR; LF]) (__init__ 0) in
  fst at_checksum = Ret (replicate 64 None ++ [Some "GPGGA"]) ∧
  fst r = Ret (replicate 64 None ++ [Some "GPGGA"; None; None]) ∧
  snd r = snd at_checksum ∧
  timestamp (snd r) = (12, 35, lit 190 (-1)) ∧
  fix_stat (snd r) = 1 ∧
  satellites_in_use (snd r) = 8 ∧
  altitude (snd r) = lit 5454 (-1) ∧
  geoid_height (snd r) = lit 469 (-1) ∧
  _latitude (snd r) = (48, lit 7038 (-3), "N") ∧
  _longitude (snd r) = (11, lit 31000 (-3), "E").
Proof.
  vm_compute. repeat split; reflexivity.
Qed.

(** C1. An RMC sentence with a clean checksum whose speed field is [x]:
    [gprmc] fails, [update] returns [None] and the sentence is not counted
    as parsed, yet the time, the date, the latitude and the longitude of
    the sentence have been stored. *)
Theorem C1_rmc_failure_keeps_updates :
  let r := feed (at_tick 0) (stream rmc_bad_speed) (__init__ 0) in
  last_event r = Ret None ∧
  statistics (snd r) = (0, 1, 0) ∧
  timestamp (snd r) = (12, 35, lit 19 0) ∧
  date (snd r) = (23, 3, 94) ∧
  _latitude (snd r) = (48, lit 7038 (-3), "N") ∧
  _longitude (snd r) = (11, lit 31 0, "E") ∧
  navigation (snd r) ≠ navigation (__init__ 0) ∧
  fst (gprmc 0 (set_gps_segments (gps_segments (snd r)) (__init__ 0))) = Ret false.
Proof.
  vm_compute. repeat split; try reflexivity. intros H. discriminate H.
Qed.

(** C2. The five characters [GPGSA] with their checksum: the sentence is
    clean, [gpgsa] reads [gps_segments[2]] of a two-element list, and the
    [IndexError] leaves [update]. *)
Theorem C2_gsa_index_error_escapes :
  let r := feed (at_tick 0) (stream "$GPGSA*4") (__init__ 0) in
  fst r = Ret (replicate 8 None) ∧
  gps_segments (snd r) = ["GPGSA"; ""] ∧
  fst (update 0 "2" (snd r)) = Raise IndexError ∧
  fst (feed (at_tick 0) (stream "$GPGSA*42") (__init__ 0)) = Raise IndexError.
Proof.
  vm_compute. repeat split; reflexivity.
Qed.

(** C5. The VTG sentence with the trailer [00] instead of [48]: the
    mismatch is counted and nothing is returned.  The sentence stays
    active, so the next two characters, [48], are compared as a trailer
    again: the call that receives the [8] runs [gpvtg] and returns [GPVTG],
    with no [$] in between. *)
Theorem C5_mismatch_then_match :
  let rejected := feed (at_tick 0) (stream ("$" ++ vtg_body ++ "*00")%string) (__init__ 0) in
  let r := feed (at_tick 0) (stream "48") (snd rejected) in
  last_event rejected = Ret None ∧
  statistics (snd rejected) = (1, 0, 0) ∧
  sentence_active (snd rejected) = true ∧
  fst r = Ret [None; Some "GPVTG"] ∧
  statistics (snd r) = (1, 1, 1) ∧
  speed (snd r) = lit 55 (-1) ∧
  course (snd r) = lit 547 (-1).
Proof.
  vm_compute. repeat split; reflexivity.
Qed.

(** C10. A GLL sentence whose time field is [12-105]: [int] reads the
    minutes [-1], the check [minutes >= 60] lets them through, and the
    stored timestamp is (12, -1, 5.0). *)
Theorem C10_negative_minute_stored :
  let r := feed (at_tick 0) (stream "$GPGLL,,,,,12-105,V*1C") (__init__ 0) in
  last_event r = Ret (Some "GPGLL") ∧
  timestamp (snd r) = (12, -1, lit 5 0) ∧
  timestamp (snd r) ≠ CLEAR_TIME.
Proof.
  vm_compute. repeat split; try reflexivity. intros H. discriminate H.
Qed.

(** The claim C4 fails for GLL: after a VTG sentence has set speed and
    course, a GLL sentence with the flag [V] decodes, is returned, clears
    the position and [valid], and leaves speed 5.5 and course 54.7. *)
Lemma C4_gll_keeps_speed_and_course :
  let r := feed (at_tick 0) (stream (vtg_sentence ++ gll_invalid)%string) (__init__ 0) in
  last_event r = Ret (Some "GPGLL") ∧
  gps_segments (snd r) !! 6%nat = Some "V" ∧
  valid (snd r) = false ∧
  _latitude (snd r) = CLEAR_LAT ∧ _longitude (snd r) = CLEAR_LON ∧
  speed (snd r) = lit 55 (-1) ∧ speed (snd r) ≠ PyNum.f0_0 ∧
  course (snd r) = lit 547 (-1) ∧ course (snd r) ≠ PyNum.f0_0.
Proof.
  vm_compute. repeat split; try reflexivity; intros H; discriminate H.
Qed.


(** The claim C7 fails: a GLL sentence that gives the latitude the letter
    [E] and the longitude the letter [N] decodes, and both letters are
    stored as they came. *)
Lemma C7_swapped_hemispheres_stored :
  let r := feed (at_tick 0) (stream gll_swapped_hemispheres) (__init__ 0) in
  last_event r = Ret (Some "GPGLL") ∧
  hemisphere (_latitude (snd r)) = "E" ∧
  hemisphere (_longitude (snd r)) = "N".
Proof.
  vm_compute. repeat split; reflexivity.
Qed.

(** The claim C9 fails when the flipped bit turns a character into the
    dollar sign: the two streams differ in the lowest bit of their third
    character, the running XOR at the trailer is 0x48 for both, and the
    corrupted stream is accepted with its original trailer and returned
    as [GPVTG]. *)
Lemma C9_flip_into_dollar_accepted :
  let good := feed (at_tick 0) (stream percent_stream) (__init__ 0) in
  let bad := feed (at_tick 0) (stream flipped_stream) (__init__ 0) in
  stream flipped_stream
    = <[2%nat := "$"%char]> (stream percent_stream) ∧
  Z.lxor (PyStr.ord "%") (PyStr.ord "$") = 1 ∧
  crc_xor (snd good) = 72 ∧ crc_xor (snd bad) = 72 ∧
  last_event bad = Ret (Some "GPVTG") ∧
  statistics (snd bad) = (0, 1, 1).
Proof.
  vm_compute. repeat split; reflexivity.
Qed.

(** ** What the shared helpers change *)

Lemma parse_time_frame u self r s' :
  __parse_time u self = (r, s') →
  s' = self ∨ ∃ ts, s' = set_timestamp ts self.
Proof.
  unfold __parse_time. intros H.
  repeat case_match; simplify_eq; eauto.
Qed.

Lemma parse_lat_lon_frame lat lon self r s' :
  __parse_lat_lon lat lon self = (r, s') →
  s' = self ∨
  ∃ la lo, snd lat ∈ __HEMISPHERES ∧ snd lon ∈ __HEMISPHERES ∧
    s' = set_longitude (lo, snd lon) (set_latitude (la, snd lat) self).
Proof.
  unfold __parse_lat_lon. intros H.
  repeat case_match; simplify_eq; eauto.
  right.
  repeat match goal with
  | H : negb (bool_decide _) = false |- _ =>
      apply negb_false_iff, bool_decide_eq_true in H
  end.
  eexists _, _. simpl. eauto.
Qed.

(** The decoders that read every field before they store one: when they
    return [False] the object is as it was. *)
Lemma gpvtg_failure_atomic self self' :
  gpvtg self = (Ret false, self') → self' = self.
Proof. unfold gpvtg. intros H. by repeat case_match; simplify_eq. Qed.

Lemma gpgsa_failure_atomic now self self' :
  gpgsa now self = (Ret false, self') → self' = self.
Proof. unfold gpgsa. intros H. by repeat case_match; simplify_eq. Qed.

Lemma gpgsv_failure_atomic self self' :
  gpgsv self = (Ret false, self') → self' = self.
Proof. unfold gpgsv. intros H. by repeat case_match; simplify_eq. Qed.

(** ** The data-valid flag *)

(** C4, amended. A successful RMC decode whose flag is not [A] clears
    latitude and longitude, sets speed and course to 0.0 and [valid] to
    false, whatever the position fields hold.  A successful GLL decode
    whose flag is not [A] clears latitude and longitude and sets [valid]
    to false; it leaves speed and course as they were. *)
Theorem C4_invalid_flag now self self' flag :
  flag ≠ "A" →
  (gps_segments self !! 2%nat = Some flag →
   gprmc now self = (Ret true, self') →
   _latitude self' = CLEAR_LAT ∧ _longitude self' = CLEAR_LON ∧
   speed self' = PyNum.f0_0 ∧ course self' = PyNum.f0_0 ∧ valid self' = false)
  ∧
  (gps_segments self !! 6%nat = Some flag →
   gpgll now self = (Ret true, self') →
   _latitude self' = CLEAR_LAT ∧ _longitude self' = CLEAR_LON ∧
   valid self' = false ∧
   speed self' = speed self ∧ course self' = course self).
Proof.
  intros Hflag. split; intros Hseg Hrun.
  - unfold gprmc in Hrun.
    destruct (segment self 1) as [u|[]]; try discriminate.
    destruct (__parse_time u self) as [[[]|] s1] eqn:Et; try discriminate.
    apply parse_time_frame in Et.
    destruct (rmc_date s1) as [d|]; try discriminate.
    assert (Hs : segment (set_date d s1) 2 = Ret flag).
    { unfold segment. simpl. destruct Et as [->|[ts ->]]; simpl; by rewrite Hseg. }
    rewrite Hs in Hrun.
    apply String.eqb_neq in Hflag. rewrite Hflag in Hrun.
    by simplify_eq.
  - unfold gpgll in Hrun.
    destruct (segment self 5) as [u|[]]; try discriminate.
    destruct (__parse_time u self) as [[[]|] s1] eqn:Et; try discriminate.
    apply parse_time_frame in Et.
    assert (Hs : segment s1 6 = Ret flag).
    { unfold segment. destruct Et as [->|[ts ->]]; simpl; by rewrite Hseg. }
    rewrite Hs in Hrun.
    apply String.eqb_neq in Hflag. rewrite Hflag in Hrun.
    simplify_eq. simpl.
    destruct Et as [->|[ts ->]]; done.
Qed.

Lemma C4_invalid_flag_witness :
  "V" ≠ "A" ∧
  gps_segments rmc_invalid !! 2%nat = Some "V" ∧
  fst (gprmc 0 rmc_invalid) = Ret true ∧
  (let self' := snd (gprmc 0 rmc_invalid) in
   _latitude self' = CLEAR_LAT ∧ _longitude self' = CLEAR_LON ∧
   speed self' = PyNum.f0_0 ∧ course self' = PyNum.f0_0 ∧ valid self' = false) ∧
  gps_segments gll_invalid_split !! 6%nat = Some "V" ∧
  fst (gpgll 0 gll_invalid_split) = Ret true ∧
  (let self' := snd (gpgll 0 gll_invalid_split) in
   _latitude self' = CLEAR_LAT ∧ _longitude self' = CLEAR_LON ∧
   valid self' = false ∧
   speed self' = lit 55 (-1) ∧ course self' = lit 547 (-1)).
Proof.
  assert (Hflag : "V" ≠ "A") by discriminate.
  split; [exact Hflag|].
  split; [reflexivity|]. split; [vm_compute; reflexivity|].
  split.
  { apply (proj1 (C4_invalid_flag 0 rmc_invalid _ "V" Hflag));
      [reflexivity | vm_compute; reflexivity]. }
  split; [reflexivity|]. split; [vm_compute; reflexivity|].
  apply (proj2 (C4_invalid_flag 0 gll_invalid_split _ "V" Hflag));
    [reflexivity | vm_compute; reflexivity].
Defined.

Lemma optional_int_field self i :
  optional_int self i = field_int (gps_segments self) i.
Proof.
  unfold optional_int, field_int, segment.
  destruct (gps_segments self !! i) as [s|]; [|done].
  cbn [mbind outcome_bind]. by destruct (PyNum.int s).
Qed.

(** The loop of [gpgsv], started at position [p] with [n] positions to
    go: it reads [m] blocks, stops early only at an empty PRN field, and
    the dictionary it returns has, for every PRN, the entry of the last
    block about it, or else the entry it started with. *)
Lemma gsv_loop_spec self : ∀ n p d d',
  gsv_loop self n p d = Some d' →
  let segs := gps_segments self in
  ∃ m, (m ≤ n)%nat ∧
    (∀ j, (j < m)%nat →
       ∃ s, segs !! (p + 4 * j)%nat = Some s ∧ s ≠ "") ∧
    ((m < n)%nat → segs !! (p + 4 * m)%nat = Some "") ∧
    (∀ prn info,
       d' !! prn = Some info ↔
       (∃ j, (j < m)%nat ∧ field_int segs (p + 4 * j) = Some prn ∧
             info = (field_int segs (p + 4 * j + 1),
                     field_int segs (p + 4 * j + 2),
                     field_int segs (p + 4 * j + 3)) ∧
             ∀ j', (j < j' < m)%nat → field_int segs (p + 4 * j') ≠ Some prn)
       ∨ ((∀ j, (j < m)%nat → field_int segs (p + 4 * j) ≠ Some prn) ∧
          d !! prn = Some info)) ∧
    (∀ prn,
       d' !! prn = None ↔
       (∀ j, (j < m)%nat → field_int segs (p + 4 * j) ≠ Some prn) ∧
       d !! prn = None).
Proof.
  induction n as [|n IH]; intros p d d' H; cbn [gsv_loop] in H; cbv zeta.
  { injection H as <-. exists 0%nat. split; [done|]. split; [intros; lia|].
    split; [intros; lia|]. split.
    - intros prn info. split; [intros Hd; right; split; [intros; lia|done]|].
      intros [(j & Hj & _)|[_ Hd]]; [lia|done].
    - intros prn. split; [intros Hd; split; [intros; lia|done]|]. by intros [_ ?]. }
  unfold segment in H.
  destruct (gps_segments self !! p) as [s|] eqn:Hs; [|discriminate].
  destruct s as [|ch s'].
  { cbn [PyStr.truthy negb] in H. injection H as <-. exists 0%nat.
    split; [lia|]. split; [intros; lia|].
    split; [intros _; by rewrite Nat.mul_0_r, Nat.add_0_r|]. split.
    - intros prn info. split; [intros Hd; right; split; [intros; lia|done]|].
      intros [(j & Hj & _)|[_ Hd]]; [lia|done].
    - intros prn. split; [intros Hd; split; [intros; lia|done]|]. by intros [_ ?]. }
  cbn [PyStr.truthy negb] in H.
  destruct (PyNum.int (String ch s')) as [sat_id|e] eqn:Hint; [|discriminate].
  rewrite !optional_int_field in H.
  set (segs := gps_segments self) in *.
  set (info0 := (field_int segs (p + 1), field_int segs (p + 2),
                 field_int segs (p + 3))) in H.
  assert (Hf0 : field_int segs p = Some sat_id)
    by (unfold field_int; by rewrite Hs, Hint).
  apply IH in H as (m & Hm & Hall & Hend & Hsome & Hnone). cbv zeta in *.
  fold segs in Hall, Hend, Hsome, Hnone.
  assert (Hshift : ∀ j, (p + 4 + 4 * j = p + 4 * S j)%nat) by (intros; lia).
  assert (Hp0 : (p + 4 * 0 = p)%nat) by lia.
  exists (S m). split; [lia|]. split.
  { intros [|j] Hj.
    - rewrite Hp0. by exists (String ch s').
    - rewrite <- Hshift. apply Hall. lia. }
  split.
  { intros Hlt. rewrite <- Hshift. apply Hend. lia. }
  assert (Hno : ∀ prn,
            (∀ j, (j < m)%nat → field_int segs (p + 4 + 4 * j) ≠ Some prn) ∧
            prn ≠ sat_id ↔
            (∀ j, (j < S m)%nat → field_int segs (p + 4 * j) ≠ Some prn)).
  { intros prn. split.
    - intros [Hn Hne] [|j] Hj.
      + rewrite Hp0, Hf0. congruence.
      + rewrite <- Hshift. apply Hn. lia.
    - intros Hn. split.
      + intros j Hj. rewrite Hshift. apply Hn. lia.
      + intros ->. apply (Hn 0%nat); [lia|]. by rewrite Hp0. }
  split.
  - intros prn info. rewrite Hsome. split.
    + intros [(j & Hj & Hf & Hi & Hlast)|[Hn Hd]].
      * left. exists (S j). rewrite <- !Hshift.
        split; [lia|]. split; [done|]. split; [done|].
        intros [|j'] Hj'; [lia|]. rewrite <- Hshift. apply Hlast. lia.
      * destruct (decide (prn = sat_id)) as [->|Hne].
        -- rewrite lookup_insert_eq in Hd. injection Hd as <-.
           left. exists 0%nat. rewrite !Hp0.
           split; [lia|]. split; [done|]. split; [done|].
           intros [|j'] Hj'; [lia|]. rewrite <- Hshift. apply Hn. lia.
        -- rewrite lookup_insert_ne in Hd by done.
           right. split; [|done]. by apply Hno.
    + intros [(j & Hj & Hf & Hi & Hlast)|[Hn Hd]].
      * destruct j as [|j].
        -- rewrite !Hp0 in Hf, Hi. rewrite Hf0 in Hf. injection Hf as <-.
           right. split.
           ++ intros j Hj'. rewrite Hshift. apply Hlast. lia.
           ++ rewrite lookup_insert_eq. by rewrite Hi.
        -- left. exists j. rewrite <- !Hshift in Hf, Hi.
           split; [lia|]. split; [done|]. split; [done|].
           intros j' Hj'. rewrite Hshift. apply Hlast. lia.
      * apply Hno in Hn as [Hn Hne]. right. split; [done|].
        by rewrite lookup_insert_ne.
  - intros prn. rewrite Hnone, lookup_insert_None, <- Hno. split.
    + intros (Hn & Hd & Hne). by repeat split.
    + intros ((Hn & Hne) & Hd). by repeat split.
Qed.

(** The positions of [range(4, limit, 4)] are those of the blocks whose
    first field is below the limit. *)
Lemma range4_len_spec limit k :
  (k < range4_len limit)%nat ↔ Z.of_nat (4 + 4 * k) < limit.
Proof.
  unfold range4_len. replace (limit - 4 + 3) with (limit - 1) by lia.
  split; intros H.
  - assert (Z.of_nat k + 1 ≤ (limit - 1) `div` 4) by lia.
    pose proof (Z.mul_div_le (limit - 1) 4). lia.
  - assert (Z.of_nat k + 1 ≤ (limit - 1) `div` 4)
      by (apply Z.div_le_lower_bound; lia).
    lia.
Qed.

(** ** Satellites in view *)

(** C8. A GSV sentence that [gpgsv] decodes, with sentence index [cur] in
    field 2: afterwards [satellite_data] has an entry for a PRN exactly
    when the sentence gives that PRN this entry (its last block about the
    PRN that is read), or when the index is not 1, the sentence has no
    block about the PRN and the entry was there before.  So with index 1
    the dictionary is that of the sentence alone, and otherwise the
    sentence is merged into it, overwriting the PRNs it is about. *)
Theorem C8_gsv_replace_or_merge self self' f1 f2 f3 num cur view :
  gpgsv self = (Ret true, self') →
  gps_segments self !! 1%nat = Some f1 → PyNum.int f1 = Ret num →
  gps_segments self !! 2%nat = Some f2 → PyNum.int f2 = Ret cur →
  gps_segments self !! 3%nat = Some f3 → PyNum.int f3 = Ret view →
  let segs := gps_segments self in
  let limit := if num =? cur then (view - (num - 1) * 4) * 5 else 20 in
  ∀ prn info,
    satellite_data self' !! prn = Some info ↔
    decoded segs limit prn info ∨
    (cur ≠ 1 ∧ not_decoded segs limit prn ∧
     satellite_data self !! prn = Some info).
Proof.
  unfold gpgsv, gsv_header, segment. intros H H1 Hn H2 Hc H3 Hv.
  rewrite H1, H2, H3 in H. cbn [mbind outcome_bind] in H.
  rewrite Hn, Hc, Hv in H. cbn [mbind outcome_bind mret outcome_ret] in H.
  unfold sat_segment_limit in H. cbv zeta.
  set (segs := gps_segments self).
  set (limit := if num =? cur then _ else 20) in *.
  destruct (gsv_loop self (range4_len limit) 4 ∅) as [d|] eqn:Hloop;
    [|discriminate].
  apply gsv_loop_spec in Hloop as (m & Hm & Hall & Hend & Hsome & Hnone).
  cbv zeta in *. fold segs in Hall, Hend, Hsome, Hnone.
  assert (Hread : ∀ k, (k < m)%nat ↔ block_read segs limit k).
  { intros k. unfold block_read. split.
    - intros Hk. split; [apply range4_len_spec; lia|].
      intros j Hj. apply Hall. lia.
    - intros [Hlim Hne]. apply range4_len_spec in Hlim.
      destruct (decide (k < m)%nat) as [|Hge]; [done|].
      destruct (Hne m ltac:(lia)) as (s & Hs & Hs').
      rewrite Hend in Hs by lia. congruence. }
  assert (Hdec : ∀ prn info,
            decoded segs limit prn info ↔
            ∃ j, (j < m)%nat ∧ field_int segs (4 + 4 * j) = Some prn ∧
                 info = (field_int segs (4 + 4 * j + 1),
                         field_int segs (4 + 4 * j + 2),
                         field_int segs (4 + 4 * j + 3)) ∧
                 ∀ j', (j < j' < m)%nat →
                       field_int segs (4 + 4 * j') ≠ Some prn).
  { intros prn info. unfold decoded, decoded_in_block. split.
    - intros (k & (Hk & Hf & Hi) & Hlast). exists k.
      split; [by apply Hread|]. split; [done|]. split; [done|].
      intros j' Hj' Hf'.
      apply (Hlast j' (field_int segs (4 + 4 * j' + 1),
                       field_int segs (4 + 4 * j' + 2),
                       field_int segs (4 + 4 * j' + 3)) ltac:(lia)).
      split; [apply Hread; lia|]. split; [exact Hf'|reflexivity].
    - intros (j & Hj & Hf & Hi & Hlast). exists j.
      split; [by rewrite <- Hread|].
      intros k' info' Hk' (Hr & Hf' & _). apply Hread in Hr.
      by apply (Hlast k' ltac:(lia)). }
  assert (Hnot : ∀ prn,
            not_decoded segs limit prn ↔
            ∀ j, (j < m)%nat → field_int segs (4 + 4 * j) ≠ Some prn).
  { intros prn. unfold not_decoded, decoded_in_block. split.
    - intros Hn' j Hj Hf. apply (Hn' j (field_int segs (4 + 4 * j + 1),
                                        field_int segs (4 + 4 * j + 2),
                                        field_int segs (4 + 4 * j + 3))).
      split; [by apply Hread|]. by split.
    - intros Hn' k info (Hr & Hf & _). apply Hread in Hr. by apply (Hn' k). }
  intros prn info. rewrite Hdec, Hnot.
  destruct (cur =? 1) eqn:Hcur; injection H as <-; simpl.
  - apply Z.eqb_eq in Hcur. rewrite Hsome. split.
    + intros [Hl|[_ Hd]]; [by left|done].
    + intros [Hl|[Hne _]]; [by left|lia].
  - apply Z.eqb_neq in Hcur. rewrite lookup_union_Some_raw, Hsome, Hnone.
    split.
    + intros [[Hl|[_ Hd]]|[[Hn' _] Hold]]; [by left|done|].
      right. by repeat split.
    + intros [Hl|(_ & Hn' & Hold)]; [left; by left|].
      right. by repeat split.
Qed.

Lemma C8_gsv_replace_or_merge_witness :
  let segs := gps_segments gsv_second in
  gpgsv gsv_second = (Ret true, snd (gpgsv gsv_second)) ∧
  segs !! 1%nat = Some "3" ∧ PyNum.int "3" = Ret 3 ∧
  segs !! 2%nat = Some "2" ∧ PyNum.int "2" = Ret 2 ∧
  segs !! 3%nat = Some "11" ∧ PyNum.int "11" = Ret 11 ∧
  ∀ prn info,
    satellite_data (snd (gpgsv gsv_second)) !! prn = Some info ↔
    decoded segs 20 prn info ∨
    (2 ≠ 1 ∧ not_decoded segs 20 prn ∧
     satellite_data gsv_second !! prn = Some info).
Proof.
  intros segs.
  assert (H : gpgsv gsv_second = (Ret true, snd (gpgsv gsv_second)))
    by (vm_compute; reflexivity).
  assert (H1 : segs !! 1%nat = Some "3") by reflexivity.
  assert (Hn : PyNum.int "3" = Ret 3) by reflexivity.
  assert (H2 : segs !! 2%nat = Some "2") by reflexivity.
  assert (Hc : PyNum.int "2" = Ret 2) by reflexivity.
  assert (H3 : segs !! 3%nat = Some "11") by reflexivity.
  assert (Hv : PyNum.int "11" = Ret 11) by reflexivity.
  repeat (split; [assumption|]).
  exact (C8_gsv_replace_or_merge gsv_second _ "3" "2" "11" 3 2 11
           H H1 Hn H2 Hc H3 Hv).
Defined.

Lemma supported_cases name parser :
  supported_sentences !! name = Some parser →
  parser = gprmc ∨ parser = gpgga ∨ parser = gpgll ∨ parser = gpgsa ∨
  parser = (λ _, gpvtg) ∨ parser = (λ _, gpgsv).
Proof.
  unfold supported_sentences. intros H.
  apply elem_of_list_to_map_2 in H.
  repeat (apply elem_of_cons in H as [H|H]; [simplify_eq; tauto|]).
  by apply elem_of_nil in H.
Qed.

(** ** Invariants of the navigation data

    A property of the navigation data that every sentence parser keeps is
    kept by [update], whether the call returns or raises, and so by every
    stream. *)

Section Invariant.
Variable P : MicropyGPS → Prop.
Hypothesis P_navigation :
  ∀ s s', navigation s' = navigation s → P s → P s'.
Hypothesis P_parser :
  ∀ name parser now s,
    supported_sentences !! name = Some parser → P s → P (snd (parser now s)).

Lemma update_segment_nav s : navigation (snd (__update_segment s)) = navigation s.
Proof. unfold __update_segment. by case_match. Qed.

Lemma store_char_nav c s : navigation (snd (store_char c s)) = navigation s.
Proof.
  unfold store_char, check_crc.
  repeat case_match; simplify_eq; simpl;
    try match goal with
    | H : __update_segment ?x = _ |- _ =>
        pose proof (update_segment_nav x) as Hn; rewrite H in Hn; simpl in Hn
    end; try done.
Qed.

Lemma char_limit_nav s : navigation (char_limit s) = navigation s.
Proof. unfold char_limit. by case_match. Qed.

Lemma finish_preserves now v s : P s → P (snd (finish now v s)).
Proof.
  intros HP. unfold finish.
  destruct v; [|exact (P_navigation s _ (char_limit_nav s) HP)].
  set (s1 := set_sentence_active false _).
  assert (HP1 : P s1) by (refine (P_navigation s _ _ HP); reflexivity).
  destruct (segment s1 0) as [name|e]; [|done].
  destruct (supported_sentences !! name) as [parser|] eqn:Hsup;
    [|exact (P_navigation s1 _ (char_limit_nav s1) HP1)].
  pose proof (P_parser name parser now s1 Hsup HP1) as HP2.
  destruct (parser now s1) as [[[]|e] s2]; simpl in *.
  - destruct (segment _ 0); refine (P_navigation s2 _ _ HP2); reflexivity.
  - exact (P_navigation s2 _ (char_limit_nav s2) HP2).
  - done.
Qed.

Lemma update_preserves now c s : P s → P (snd (update now c s)).
Proof.
  intros HP. unfold update.
  destruct (_ && _); [|done].
  destruct (Ascii.eqb c "$"); [refine (P_navigation s _ _ HP); reflexivity|].
  destruct (sentence_active _);
    [|refine (P_navigation s _ _ HP); reflexivity].
  destruct (Ascii.eqb c "*").
  - match goal with |- context [__update_segment ?x] =>
      pose proof (update_segment_nav x) as Hn;
      destruct (__update_segment x) as [[[]|e] s1] end;
    simpl in *; refine (P_navigation s _ _ HP); exact Hn.
  - match goal with |- context [store_char c ?x] =>
      pose proof (store_char_nav c x) as Hn;
      destruct (store_char c x) as [[v|e] s1] end; simpl in *.
    + apply finish_preserves. refine (P_navigation s _ _ HP).
      case_match; exact Hn.
    + refine (P_navigation s _ _ HP). exact Hn.
Qed.

Lemma feed_preserves clock chars s : P s → P (snd (feed clock chars s)).
Proof.
  revert clock s. induction chars as [|c rest IH]; intros clock s HP; [done|].
  simpl. pose proof (update_preserves (clock 0%nat) c s HP) as H1.
  destruct (update (clock 0%nat) c s) as [[r|e] s1]; [|done]. simpl in H1.
  specialize (IH (λ i, clock (S i)) s1 H1).
  by destruct (feed _ rest s1) as [[rs|e] s2].
Qed.
End Invariant.

(** ** Hemisphere letters *)

Lemma hemi_ok_navigation s s' : navigation s' = navigation s → hemi_ok s → hemi_ok s'.
Proof.
  unfold navigation, hemi_ok. intros H [Hlat Hlon].
  inversion H as [[Ht Hd Hla Hlo]]. by rewrite Hla, Hlo.
Qed.

Lemma hemi_ok_parse_time u s : hemi_ok s → hemi_ok (snd (__parse_time u s)).
Proof.
  intros H. destruct (__parse_time u s) as [r s'] eqn:E.
  by apply parse_time_frame in E as [->|[ts ->]].
Qed.

Lemma hemi_ok_parse_lat_lon lat lon s :
  hemi_ok s → hemi_ok (snd (__parse_lat_lon lat lon s)).
Proof.
  intros H. destruct (__parse_lat_lon lat lon s) as [r s'] eqn:E.
  apply parse_lat_lon_frame in E as [->|(la & lo & Hla & Hlo & ->)]; [done|].
  by split.
Qed.

Lemma hemi_ok_clear : "N" ∈ __HEMISPHERES ∧ "W" ∈ __HEMISPHERES.
Proof. unfold __HEMISPHERES. set_solver. Qed.

Lemma hemi_ok_gprmc now s : hemi_ok s → hemi_ok (snd (gprmc now s)).
Proof.
  intros H. unfold gprmc.
  destruct (segment s 1) as [u|[]]; try done.
  pose proof (hemi_ok_parse_time u s H) as H1.
  destruct (__parse_time u s) as [[[]|e] s1]; simpl in H1; try done.
  destruct (rmc_date s1) as [d|]; try done.
  set (s2 := set_date d s1). assert (H2 : hemi_ok s2) by done.
  destruct (segment s2 2) as [flag|]; try done.
  destruct (String.eqb flag "A"); [|split; apply hemi_ok_clear].
  destruct (lat_lon_fields s2 3) as [[lat lon]|[]]; try done.
  pose proof (hemi_ok_parse_lat_lon lat lon s2 H2) as H3.
  destruct (__parse_lat_lon lat lon s2) as [[[]|e] s3]; simpl in H3; try done.
  repeat case_match; done.
Qed.

Lemma hemi_ok_gpgll now s : hemi_ok s → hemi_ok (snd (gpgll now s)).
Proof.
  intros H. unfold gpgll.
  destruct (segment s 5) as [u|[]]; try done.
  pose proof (hemi_ok_parse_time u s H) as H1.
  destruct (__parse_time u s) as [[[]|e] s1]; simpl in H1; try done.
  destruct (segment s1 6) as [flag|]; try done.
  destruct (String.eqb flag "A"); [|split; apply hemi_ok_clear].
  destruct (lat_lon_fields s1 1) as [[lat lon]|[]]; try done.
  pose proof (hemi_ok_parse_lat_lon lat lon s1 H1) as H3.
  by destruct (__parse_lat_lon lat lon s1) as [[[]|e] s3].
Qed.

Lemma hemi_ok_gpgga now s : hemi_ok s → hemi_ok (snd (gpgga now s)).
Proof.
  intros H. unfold gpgga.
  destruct (segment s 1) as [u|[]]; try done.
  pose proof (hemi_ok_parse_time u s H) as H1.
  destruct (__parse_time u s) as [[[]|e] s1]; simpl in H1; try done.
  match goal with |- context [match ?x with Ret _ => _ | Raise _ => (Ret false, s1) end] =>
    destruct x as [[in_use stat]|]; try done end.
  destruct (negb (stat =? 0)); [|done].
  destruct (lat_lon_fields s1 2) as [[lat lon]|[]]; try done.
  pose proof (hemi_ok_parse_lat_lon lat lon s1 H1) as H3.
  destruct (__parse_lat_lon lat lon s1) as [[[]|e] s3]; simpl in H3; try done.
  repeat case_match; done.
Qed.

Lemma hemi_ok_gpgsa now s : hemi_ok s → hemi_ok (snd (gpgsa now s)).
Proof. intros H. unfold gpgsa. repeat case_match; done. Qed.

Lemma hemi_ok_gpvtg s : hemi_ok s → hemi_ok (snd (gpvtg s)).
Proof. intros H. unfold gpvtg. repeat case_match; done. Qed.

Lemma hemi_ok_gpgsv s : hemi_ok s → hemi_ok (snd (gpgsv s)).
Proof. intros H. unfold gpgsv. repeat case_match; done. Qed.

Lemma hemi_ok_parser name parser now s :
  supported_sentences !! name = Some parser → hemi_ok s → hemi_ok (snd (parser now s)).
Proof.
  intros Hsup H.
  destruct (supported_cases name parser Hsup) as [->|[->|[->|[->|[->| ->]]]]];
    eauto using hemi_ok_gprmc, hemi_ok_gpgga, hemi_ok_gpgll, hemi_ok_gpgsa,
      hemi_ok_gpvtg, hemi_ok_gpgsv.
Qed.

(** C7, amended. Whatever characters are fed to a fresh parser, and even
    when a call raises, the hemisphere letter of the latitude and the
    hemisphere letter of the longitude are each one of N, S, E and W. *)
Theorem C7_hemisphere_letters clock chars offset :
  let self := snd (feed clock chars (__init__ offset)) in
  hemisphere (_latitude self) ∈ __HEMISPHERES ∧
  hemisphere (_longitude self) ∈ __HEMISPHERES.
Proof.
  apply (feed_preserves hemi_ok hemi_ok_navigation hemi_ok_parser).
  split; apply hemi_ok_clear.
Qed.

(** ** The stored time *)

Lemma time_ok_navigation s s' : navigation s' = navigation s → time_ok s → time_ok s'.
Proof.
  unfold navigation, time_ok. intros H.
  inversion H as [[Ht]]. by rewrite Ht.
Qed.

Lemma time_ok_parse_time u s : time_ok s → time_ok (snd (__parse_time u s)).
Proof.
  intros H. unfold __parse_time.
  destruct (PyStr.truthy u); [|by vm_compute].
  destruct (PyNum.int (PyStr.slice 0 2 u)) as [h|[]];
    destruct (PyNum.int (PyStr.slice 2 4 u)) as [m|[]];
    destruct (PyNum.float (PyStr.from 4 u)) as [sec|[]];
    cbn [mbind outcome_bind mret outcome_ret snd]; try done.
  destruct (PyNum.float_ge sec PyNum.f60_0) eqn:Hs; simpl; [done|].
  destruct (60 <=? m) eqn:Hm; simpl; [done|].
  apply Z.leb_gt in Hm. unfold time_ok. simpl.
  split; [apply Z.mod_pos_bound; lia|]. done.
Qed.

Lemma time_ok_parse_lat_lon lat lon s :
  time_ok s → time_ok (snd (__parse_lat_lon lat lon s)).
Proof.
  intros H. destruct (__parse_lat_lon lat lon s) as [r s'] eqn:E.
  by apply parse_lat_lon_frame in E as [->|(la & lo & _ & _ & ->)].
Qed.

Lemma time_ok_gprmc now s : time_ok s → time_ok (snd (gprmc now s)).
Proof.
  intros H. unfold gprmc.
  destruct (segment s 1) as [u|[]]; try done.
  pose proof (time_ok_parse_time u s H) as H1.
  destruct (__parse_time u s) as [[[]|e] s1]; simpl in H1; try done.
  destruct (rmc_date s1) as [d|]; try done.
  set (s2 := set_date d s1). assert (H2 : time_ok s2) by done.
  destruct (segment s2 2) as [flag|]; try done.
  destruct (String.eqb flag "A"); [|done].
  destruct (lat_lon_fields s2 3) as [[lat lon]|[]]; try done.
  pose proof (time_ok_parse_lat_lon lat lon s2 H2) as H3.
  destruct (__parse_lat_lon lat lon s2) as [[[]|e] s3]; simpl in H3; try done.
  repeat case_match; done.
Qed.

Lemma time_ok_gpgll now s : time_ok s → time_ok (snd (gpgll now s)).
Proof.
  intros H. unfold gpgll.
  destruct (segment s 5) as [u|[]]; try done.
  pose proof (time_ok_parse_time u s H) as H1.
  destruct (__parse_time u s) as [[[]|e] s1]; simpl in H1; try done.
  destruct (segment s1 6) as [flag|]; try done.
  destruct (String.eqb flag "A"); [|done].
  destruct (lat_lon_fields s1 1) as [[lat lon]|[]]; try done.
  pose proof (time_ok_parse_lat_lon lat lon s1 H1) as H3.
  by destruct (__parse_lat_lon lat lon s1) as [[[]|e] s3].
Qed.

Lemma time_ok_gpgga now s : time_ok s → time_ok (snd (gpgga now s)).
Proof.
  intros H. unfold gpgga.
  destruct (segment s 1) as [u|[]]; try done.
  pose proof (time_ok_parse_time u s H) as H1.
  destruct (__parse_time u s) as [[[]|e] s1]; simpl in H1; try done.
  match goal with |- context [match ?x with Ret _ => _ | Raise _ => (Ret false, s1) end] =>
    destruct x as [[in_use stat]|]; try done end.
  destruct (negb (stat =? 0)); [|done].
  destruct (lat_lon_fields s1 2) as [[lat lon]|[]]; try done.
  pose proof (time_ok_parse_lat_lon lat lon s1 H1) as H3.
  destruct (__parse_lat_lon lat lon s1) as [[[]|e] s3]; simpl in H3; try done.
  repeat case_match; done.
Qed.

Lemma time_ok_parser name parser now s :
  supported_sentences !! name = Some parser → time_ok s → time_ok (snd (parser now s)).
Proof.
  intros Hsup H.
  destruct (supported_cases name parser Hsup) as [->|[->|[->|[->|[->| ->]]]]];
    eauto using time_ok_gprmc, time_ok_gpgga, time_ok_gpgll.
  - unfold gpgsa. repeat case_match; done.
  - unfold gpvtg. repeat case_match; done.
  - unfold gpgsv. repeat case_match; done.
Qed.

(** X1. The side of the time range that is enforced: on every stream the
    stored hour is in 0..23, the minute is below 60 and the second is not
    60.0 or more. *)
Lemma timestamp_upper_bounds clock chars offset :
  time_ok (snd (feed clock chars (__init__ offset))).
Proof.
  apply (feed_preserves time_ok time_ok_navigation time_ok_parser).
  by vm_compute.
Qed.

(** ** The framer on a sentence body and its trailer *)

Lemma body_char_spec c :
  body_char c = true → Ascii.eqb c "$" = false ∧ Ascii.eqb c "*" = false.
Proof.
  unfold body_char. intros [H1 H2]%andb_true_iff.
  by apply negb_true_iff in H1, H2.
Qed.

Lemma update_dropped now c self :
  accepted c = false → update now c self = (Ret None, self).
Proof. unfold update, accepted. by intros ->. Qed.

Lemma update_dollar now self :
  update now "$" self = (Ret None, new_sentence (set_char_count (char_count self + 1) self)).
Proof. reflexivity. Qed.

Lemma update_body now c self :
  collecting self → accepted c = true → body_char c = true →
  char_count self < SENTENCE_LIMIT →
  ∃ self',
    update now c self = (Ret None, self') ∧ collecting self' ∧
    crc_xor self' = Z.lxor (crc_xor self) (PyStr.ord c) ∧
    char_count self' = char_count self + 1 ∧
    navigation self' = navigation self ∧ statistics self' = statistics self.
Proof.
  intros (Hact & Hcrc & Hidx) Hacc [Hd Hs]%body_char_spec Hlim.
  unfold update. fold (accepted c). rewrite Hacc, Hd. simpl.
  rewrite Hact, Hs.
  unfold store_char. destruct (Ascii.eqb c ",").
  - unfold __update_segment. simpl.
    rewrite bool_decide_eq_true_2 by lia. simpl.
    rewrite Hcrc. unfold finish, char_limit. simpl.
    destruct (SENTENCE_LIMIT <? char_count self + 1) eqn:E;
      [apply Z.ltb_lt in E; lia|].
    eexists. split; [reflexivity|]. unfold collecting. simpl.
    rewrite length_app, length_insert. simpl.
    repeat split; try done. lia.
  - simpl. rewrite Hcrc. simpl. rewrite Hcrc.
    unfold finish, char_limit. simpl.
    destruct (SENTENCE_LIMIT <? char_count self + 1) eqn:E;
      [apply Z.ltb_lt in E; lia|].
    eexists. split; [reflexivity|]. unfold collecting. simpl.
    repeat split; done.
Qed.

Lemma xor_fold_from x cs :
  fold_left (λ x c, Z.lxor x (PyStr.ord c)) cs x = Z.lxor x (xor_fold cs).
Proof.
  unfold xor_fold. revert x. induction cs as [|c cs IH]; intros x; simpl.
  - by rewrite Z.lxor_0_r.
  - rewrite (IH (Z.lxor x _)), (IH (Z.lxor 0 _)), Z.lxor_0_l, Z.lxor_assoc. done.
Qed.

Lemma xor_fold_cons c cs : xor_fold (c :: cs) = Z.lxor (PyStr.ord c) (xor_fold cs).
Proof. unfold xor_fold at 1. simpl. apply xor_fold_from. Qed.

Lemma xor_fold_app a b : xor_fold (a ++ b) = Z.lxor (xor_fold a) (xor_fold b).
Proof.
  unfold xor_fold at 1. rewrite fold_left_app. fold (xor_fold a).
  apply xor_fold_from.
Qed.

Lemma checksum_cons c cs :
  checksum (c :: cs) =
  if accepted c then Z.lxor (PyStr.ord c) (checksum cs) else checksum cs.
Proof.
  unfold checksum. simpl. destruct (accepted c); [apply xor_fold_cons|done].
Qed.

Lemma checksum_app a b : checksum (a ++ b) = Z.lxor (checksum a) (checksum b).
Proof. unfold checksum. rewrite List.filter_app. apply xor_fold_app. Qed.

Lemma feed_body body : ∀ clock self,
  collecting self → Forall (λ c, body_char c = true) body →
  char_count self + Z.of_nat (length body) ≤ SENTENCE_LIMIT →
  ∃ self',
    feed clock body self = (Ret (replicate (length body) None), self') ∧
    collecting self' ∧
    crc_xor self' = Z.lxor (crc_xor self) (checksum body) ∧
    char_count self ≤ char_count self' ≤ char_count self + Z.of_nat (length body) ∧
    navigation self' = navigation self ∧ statistics self' = statistics self.
Proof.
  induction body as [|c body IH]; intros clock self Hcol Hbody Hlen.
  - exists self. change (checksum []) with 0. rewrite Z.lxor_0_r.
    simpl. unfold collecting in Hcol. repeat split; try tauto; lia.
  - apply Forall_cons in Hbody as [Hc Hbody].
    rewrite length_cons, Nat2Z.inj_succ in Hlen.
    rewrite checksum_cons. cbn [feed length replicate].
    destruct (accepted c) eqn:Hacc.
    + destruct (update_body (clock 0%nat) c self Hcol Hacc Hc) as
        (s1 & Hup & Hcol1 & Hx1 & Hn1 & Hnav1 & Hst1); [lia|].
      destruct (IH (λ i, clock (S i)) s1 Hcol1 Hbody) as
        (s2 & Hf & Hcol2 & Hx2 & Hn2 & Hnav2 & Hst2); [lia|].
      exists s2. rewrite Hup, Hf.
      split; [done|]. split; [done|].
      split; [by rewrite Hx2, Hx1, Z.lxor_assoc|].
      split; [lia|]. split; congruence.
    + rewrite (update_dropped (clock 0%nat) c self Hacc).
      destruct (IH (λ i, clock (S i)) self Hcol Hbody) as
        (s2 & Hf & Hcol2 & Hx2 & Hn2 & Hnav2 & Hst2); [lia|].
      exists s2. rewrite Hf.
      split; [done|]. split; [done|]. split; [done|].
      split; [lia|]. done.
Qed.

Lemma stored_char_spec c :
  stored_char c = true →
  accepted c = true ∧ Ascii.eqb c "$" = false ∧ Ascii.eqb c "*" = false ∧
  Ascii.eqb c "," = false.
Proof.
  unfold stored_char.
  intros [[H1 [H2 H3]%body_char_spec]%andb_true_iff H4%negb_true_iff]%andb_true_iff.
  done.
Qed.

Lemma update_star now self :
  collecting self →
  ∃ self',
    update now "*" self = (Ret None, self') ∧ in_trailer [] self' ∧
    crc_xor self' = crc_xor self ∧ char_count self' = char_count self + 1 ∧
    navigation self' = navigation self ∧ statistics self' = statistics self.
Proof.
  intros (Hact & Hcrc & Hidx).
  unfold update. simpl. rewrite Hact.
  unfold __update_segment. simpl.
  rewrite bool_decide_eq_true_2 by lia.
  eexists. split; [reflexivity|]. unfold in_trailer. simpl.
  rewrite length_app, length_insert. simpl.
  repeat split; try done. lia.
Qed.

Lemma update_trailer_first now t1 self :
  in_trailer [] self → stored_char t1 = true →
  char_count self < SENTENCE_LIMIT →
  ∃ self',
    update now t1 self = (Ret None, self') ∧ in_trailer [t1] self' ∧
    crc_xor self' = crc_xor self ∧ char_count self' = char_count self + 1 ∧
    navigation self' = navigation self ∧ statistics self' = statistics self.
Proof.
  intros (Hact & Hcrc & Hbuf & Hidx) (Ha & Hd & Hs & Hc)%stored_char_spec Hlim.
  unfold update. fold (accepted t1). rewrite Ha, Hd. simpl.
  rewrite Hact, Hs. unfold store_char. rewrite Hc. simpl.
  rewrite Hcrc, Hbuf. simpl. rewrite Hcrc.
  unfold finish, char_limit. simpl.
  destruct (SENTENCE_LIMIT <? char_count self + 1) eqn:E;
    [apply Z.ltb_lt in E; lia|].
  eexists. split; [reflexivity|]. unfold in_trailer. simpl.
  repeat split; done.
Qed.

Lemma update_trailer_second now t1 t2 self :
  in_trailer [t1] self → stored_char t2 = true →
  PyNum.int16 (String t1 (String t2 "")) ≠ Ret (crc_xor self) →
  ∃ self',
    update now t2 self = (Ret None, self') ∧
    navigation self' = navigation self ∧
    clean_sentences self' = clean_sentences self ∧
    parsed_sentences self' = parsed_sentences self ∧
    crc_fails self' =
      crc_fails self +
      match PyNum.int16 (String t1 (String t2 "")) with
      | Ret _ => 1
      | Raise _ => 0
      end.
Proof.
  intros (Hact & Hcrc & Hbuf & Hidx) (Ha & Hd & Hs & Hc)%stored_char_spec Hbad.
  unfold update. fold (accepted t2). rewrite Ha, Hd. simpl.
  rewrite Hact, Hs. unfold store_char. rewrite Hc. simpl.
  rewrite Hcrc, Hbuf. simpl.
  unfold __update_segment. simpl.
  rewrite bool_decide_eq_true_2 by lia.
  unfold check_crc, segment. simpl.
  rewrite list_lookup_insert_eq by lia.
  change (PyStr.join [t1; t2]) with (String t1 (String t2 "")).
  destruct (PyNum.int16 (String t1 (String t2 ""))) as [v|[]] eqn:Hint.
  - destruct (crc_xor self =? v) eqn:Hv.
    + apply Z.eqb_eq in Hv. congruence.
    + simpl. rewrite Hcrc. unfold finish, char_limit.
      eexists. split; [reflexivity|]. by case_match.
  - simpl. rewrite Hcrc. unfold finish, char_limit.
    eexists. split; [reflexivity|]. case_match; simpl; repeat split; lia.
  - unfold PyNum.int16 in Hint. by case_match.
Qed.

Lemma feed_trailer_rejected clock t1 t2 self :
  collecting self → stored_char t1 = true → stored_char t2 = true →
  char_count self + 2 ≤ SENTENCE_LIMIT →
  PyNum.int16 (String t1 (String t2 "")) ≠ Ret (crc_xor self) →
  ∃ self',
    feed clock ["*"%char; t1; t2] self = (Ret [None; None; None], self') ∧
    navigation self' = navigation self ∧
    clean_sentences self' = clean_sentences self ∧
    parsed_sentences self' = parsed_sentences self ∧
    crc_fails self' =
      crc_fails self +
      match PyNum.int16 (String t1 (String t2 "")) with
      | Ret _ => 1
      | Raise _ => 0
      end.
Proof.
  intros Hcol H1 H2 Hlim Hbad.
  destruct (update_star (clock 0%nat) self Hcol) as
    (s1 & E1 & T1 & X1 & N1 & V1 & S1).
  destruct (update_trailer_first (clock 1%nat) t1 s1 T1 H1) as
    (s2 & E2 & T2 & X2 & N2 & V2 & S2); [lia|].
  destruct (update_trailer_second (clock 2%nat) t1 t2 s2 T2 H2) as
    (s3 & E3 & V3 & C3 & P3 & F3); [congruence|].
  exists s3. cbn [feed]. rewrite E1, E2, E3.
  unfold statistics in S1, S2.
  injection S1 as F1 C1 P1. injection S2 as F2 C2 P2.
  split; [done|]. repeat split; congruence.
Qed.

Lemma feed_app a b : ∀ clock self,
  feed clock (a ++ b) self =
  match feed clock a self with
  | (Ret ra, s1) =>
      match feed (λ i, clock (length a + i)%nat) b s1 with
      | (Ret rb, s2) => (Ret (ra ++ rb), s2)
      | (Raise e, s2) => (Raise e, s2)
      end
  | (Raise e, s1) => (Raise e, s1)
  end.
Proof.
  induction a as [|c a IH]; intros clock self; simpl.
  - by destruct (feed _ b self) as [[rb|e] s2].
  - destruct (update (clock 0%nat) c self) as [[r|e] s1]; [|done].
    rewrite IH. destruct (feed _ a s1) as [[ra|e] s2]; [|done].
    by destruct (feed _ b s2) as [[rb|e] s3].
Qed.

Lemma new_sentence_collecting self : collecting (new_sentence self).
Proof. by repeat split. Qed.

(** A framed body, from any state: what [feed] returns and where it
    leaves the framer. *)
Lemma feed_framed_body clock body self :
  Forall (λ c, body_char c = true) body →
  (length body ≤ 90)%nat →
  ∃ self',
    feed clock ("$"%char :: body) self
      = (Ret (replicate (S (length body)) None), self') ∧
    collecting self' ∧ crc_xor self' = checksum body ∧
    0 ≤ char_count self' ≤ Z.of_nat (length body) ∧
    navigation self' = navigation self ∧ statistics self' = statistics self.
Proof.
  intros Hbody Hlen. cbn [feed]. rewrite update_dollar.
  set (s0 := new_sentence _).
  destruct (feed_body body (λ i, clock (S i)) s0
              (new_sentence_collecting _) Hbody) as
    (s1 & Hf & Hcol & Hx & Hn & Hnav & Hst).
  { unfold SENTENCE_LIMIT. simpl. lia. }
  exists s1. rewrite Hf. simpl in Hx, Hn.
  split; [done|]. split; [done|]. split; [done|]. split; [lia|].
  split; [by rewrite Hnav|by rewrite Hst].
Qed.

Lemma lxor_cancel_l a x y : Z.lxor a x = Z.lxor a y → x = y.
Proof.
  intros H. apply (f_equal (Z.lxor a)) in H.
  by rewrite <- !Z.lxor_assoc, Z.lxor_nilpotent, !Z.lxor_0_l in H.
Qed.

Lemma ord_inj c c' : PyStr.ord c = PyStr.ord c' → c = c'.
Proof.
  unfold PyStr.ord. intros H%Nat2Z.inj.
  by rewrite <- (ascii_nat_embedding c), H, ascii_nat_embedding.
Qed.

Lemma checksum_substitution pre c c' post :
  accepted c = true → c' ≠ c →
  checksum (pre ++ c' :: post) ≠ checksum (pre ++ c :: post).
Proof.
  intros Hc Hne. rewrite !checksum_app, !checksum_cons, Hc.
  intros H%lxor_cancel_l. destruct (accepted c').
  - rewrite !(Z.lxor_comm _ (checksum post)) in H.
    apply lxor_cancel_l, ord_inj in H. done.
  - rewrite <- (Z.lxor_0_l (checksum post)) in H at 1.
    rewrite !(Z.lxor_comm _ (checksum post)) in H.
    apply lxor_cancel_l in H.
    unfold accepted in Hc. apply andb_true_iff in Hc as [Hc _].
    apply Z.leb_le in Hc. lia.
Qed.

Lemma checksum_accepted body :
  Forall (λ c, accepted c = true) body → checksum body = xor_fold body.
Proof.
  intros H. unfold checksum. f_equal.
  induction H as [|c body Hc _ IH]; simpl; [done|]. by rewrite Hc, IH.
Qed.


(** C9, amended. For a body of at most 88 characters with codes in 20..126,
    none of them [$] or [*], the running checksum after the body is the
    XOR fold of the character codes.  Replacing one character of the body
    by any other character that is neither [$] nor [*] (a single flipped
    bit is such a replacement unless it gives one of the two) changes the
    running checksum; a trailer that matched the original body is then
    rejected: every call returns [None], the checksum-failure counter
    grows by one and no sentence parser runs. *)
Theorem C9_checksum_detects_substitution clock self pre c c' post t1 t2 :
  let body := pre ++ c :: post in
  let corrupted := pre ++ c' :: post in
  Forall (λ c, accepted c = true ∧ body_char c = true) body →
  (length body ≤ 88)%nat →
  body_char c' = true → c' ≠ c →
  stored_char t1 = true → stored_char t2 = true →
  PyNum.int16 (String t1 (String t2 "")) = Ret (xor_fold body) →
  crc_xor (snd (feed clock ("$"%char :: body) self)) = xor_fold body ∧
  crc_xor (snd (feed clock ("$"%char :: corrupted) self)) = checksum corrupted ∧
  checksum corrupted ≠ xor_fold body ∧
  let r := feed clock ("$"%char :: corrupted ++ ["*"%char; t1; t2]) self in
  fst r = Ret (replicate (length corrupted + 4) None) ∧
  crc_fails (snd r) = crc_fails self + 1 ∧
  clean_sentences (snd r) = clean_sentences self ∧
  parsed_sentences (snd r) = parsed_sentences self ∧
  navigation (snd r) = navigation self.
Proof.
  intros body corrupted Hall Hlen Hc' Hne H1 H2 Hint.
  assert (Hacc : Forall (λ c, accepted c = true) body)
    by (eapply Forall_impl; [exact Hall|]; by intros ? [? ?]).
  assert (Hbody : Forall (λ c, body_char c = true) body)
    by (eapply Forall_impl; [exact Hall|]; by intros ? [? ?]).
  assert (Hc : accepted c = true).
  { apply Forall_app in Hacc as [_ Hacc]. by apply Forall_cons in Hacc as [? _]. }
  assert (Hcorr : Forall (λ c, body_char c = true) corrupted).
  { subst body corrupted. apply Forall_app in Hbody as [Hp Hq].
    apply Forall_cons in Hq as [_ Hq]. apply Forall_app. split; [done|].
    by apply Forall_cons. }
  assert (Hlen' : length corrupted = length body).
  { subst body corrupted. by rewrite !length_app. }
  assert (Hsum : checksum corrupted ≠ xor_fold body).
  { rewrite <- (checksum_accepted body Hacc).
    by apply checksum_substitution. }
  clearbody body corrupted.
  destruct (feed_framed_body clock body self Hbody) as
    (s1 & Hf & _ & Hx & _); [lia|].
  destruct (feed_framed_body clock corrupted self Hcorr) as
    (s2 & Hf2 & Hcol2 & Hx2 & Hn2 & Hnav2 & Hst2); [lia|].
  split; [by rewrite Hf; simpl; rewrite Hx, checksum_accepted|].
  split; [by rewrite Hf2|]. split; [done|].
  destruct (feed_trailer_rejected
              (λ i, clock (length ("$"%char :: corrupted) + i)%nat)
              t1 t2 s2 Hcol2 H1 H2) as
    (s3 & Hf3 & Hnav3 & Hc3 & Hp3 & Hcf3).
  { unfold SENTENCE_LIMIT. lia. }
  { rewrite Hint, Hx2. congruence. }
  change ("$"%char :: corrupted ++ ["*"%char; t1; t2])
    with (("$"%char :: corrupted) ++ ["*"%char; t1; t2]).
  rewrite feed_app, Hf2, Hf3. rewrite Hint in Hcf3.
  unfold statistics in Hst2. injection Hst2 as Hs1 Hs2 Hs3. simpl.
  split.
  { replace (length corrupted + 4)%nat with (S (length corrupted) + 3)%nat by lia.
    by rewrite replicate_add. }
  repeat split; try lia; congruence.
Qed.


Lemma C9_checksum_detects_substitution_witness :
  let pre := stream "GPVTG,054.7,T,034.4,M,005." in
  let post := stream ",N,010.2,K" in
  let body := pre ++ "5"%char :: post in
  let corrupted := pre ++ "4"%char :: post in
  Forall (λ c, accepted c = true ∧ body_char c = true) body ∧
  (length body ≤ 88)%nat ∧
  body_char "4" = true ∧ "4"%char ≠ "5"%char ∧
  stored_char "4" = true ∧ stored_char "8" = true ∧
  PyNum.int16 "48" = Ret (xor_fold body) ∧
  crc_xor (snd (feed (at_tick 7) ("$"%char :: body) (__init__ 0))) = xor_fold body ∧
  crc_xor (snd (feed (at_tick 7) ("$"%char :: corrupted) (__init__ 0))) = checksum corrupted ∧
  checksum corrupted ≠ xor_fold body ∧
  (let r := feed (at_tick 7) ("$"%char :: corrupted ++ ["*"; "4"; "8"]%char) (__init__ 0) in
   fst r = Ret (replicate (length corrupted + 4) None) ∧
   crc_fails (snd r) = crc_fails (__init__ 0) + 1 ∧
   clean_sentences (snd r) = clean_sentences (__init__ 0) ∧
   parsed_sentences (snd r) = parsed_sentences (__init__ 0) ∧
   navigation (snd r) = navigation (__init__ 0)).
Proof.
  intros pre post body corrupted.
  assert (Hbody : Forall (λ c, accepted c = true ∧ body_char c = true) body)
    by (unfold body, pre, post, stream; simpl; repeat constructor).
  assert (Hlen : (length body ≤ 88)%nat) by (vm_compute; lia).
  assert (H4 : body_char "4" = true) by reflexivity.
  assert (Hne : "4"%char ≠ "5"%char) by discriminate.
  assert (Ht1 : stored_char "4" = true) by reflexivity.
  assert (Ht2 : stored_char "8" = true) by reflexivity.
  assert (Hint : PyNum.int16 "48" = Ret (xor_fold body)) by reflexivity.
  split; [exact Hbody|]. split; [exact Hlen|]. split; [exact H4|].
  split; [exact Hne|]. split; [exact Ht1|]. split; [exact Ht2|].
  split; [exact Hint|].
  exact (C9_checksum_detects_substitution (at_tick 7) (__init__ 0) pre "5" "4" post "4" "8"
           Hbody Hlen H4 Hne Ht1 Ht2 Hint).
Defined.

(** * Further properties *)

(** ** What the sentence parsers leave alone *)

Ltac open_parser :=
  repeat match goal with
  | |- context [__parse_time ?u ?s] =>
      let E := fresh "E" in
      destruct (__parse_time u s) as [[[]|?] ?] eqn:E;
      apply parse_time_frame in E as [->|[? ->]]
  | |- context [__parse_lat_lon ?a ?b ?s] =>
      let E := fresh "E" in
      destruct (__parse_lat_lon a b s) as [[[]|?] ?] eqn:E;
      apply parse_lat_lon_frame in E as [->|(? & ? & _ & _ & ->)]
  | _ => case_match
  end.

Lemma same_frame_gprmc now s : same_frame s (snd (gprmc now s)).
Proof. unfold gprmc. open_parser; by repeat split. Qed.

Lemma same_frame_gpgll now s : same_frame s (snd (gpgll now s)).
Proof. unfold gpgll. open_parser; by repeat split. Qed.

Lemma same_frame_gpgga now s : same_frame s (snd (gpgga now s)).
Proof. unfold gpgga. open_parser; by repeat split. Qed.

Lemma same_frame_gpgsa now s : same_frame s (snd (gpgsa now s)).
Proof. unfold gpgsa. open_parser; by repeat split. Qed.

Lemma same_frame_gpvtg s : same_frame s (snd (gpvtg s)).
Proof. unfold gpvtg. open_parser; by repeat split. Qed.

Lemma same_frame_gpgsv s : same_frame s (snd (gpgsv s)).
Proof. unfold gpgsv. open_parser; by repeat split. Qed.

Lemma same_frame_parser name parser now s :
  supported_sentences !! name = Some parser → same_frame s (snd (parser now s)).
Proof.
  intros Hsup.
  destruct (supported_cases name parser Hsup) as [->|[->|[->|[->|[->| ->]]]]];
    eauto using same_frame_gprmc, same_frame_gpgga, same_frame_gpgll,
      same_frame_gpgsa, same_frame_gpvtg, same_frame_gpgsv.
Qed.
(** ** One call of [update] and the counters *)

Lemma update_segment_effect s r s' :
  __update_segment s = (r, s') →
  navigation s' = navigation s ∧ statistics s' = statistics s ∧
  local_offset s' = local_offset s ∧
  sentence_active s' = sentence_active s ∧ process_crc s' = process_crc s ∧
  char_count s' = char_count s ∧ crc_xor s' = crc_xor s.
Proof.
  unfold __update_segment. intros H. by case_match; simplify_eq.
Qed.

Ltac fin :=
  simpl; repeat split; simpl; try done; try congruence;
  try (etrans; [|eassumption]; reflexivity); auto; try discriminate.

Lemma store_char_effect c s r s' :
  store_char c s = (r, s') →
  navigation s' = navigation s ∧ local_offset s' = local_offset s ∧
  clean_sentences s' = clean_sentences s ∧
  parsed_sentences s' = parsed_sentences s ∧
  sentence_active s' = sentence_active s ∧
  process_crc s' = process_crc s ∧
  (crc_fails s' = crc_fails s ∨
   crc_fails s' = crc_fails s + 1 ∧ r = Ret false) ∧
  (r = Ret true →
   crc_fails s' = crc_fails s ∧ process_crc s = false ∧
   Ascii.eqb c "," = false).
Proof.
  unfold store_char. intros H.
  destruct (Ascii.eqb c ",").
  - destruct (__update_segment s) as [[[]|e] s1] eqn:E;
      apply update_segment_effect in E as (Hn & Hst & Ho & Ha & Hp & _);
      unfold statistics in Hst; injection Hst as Hf Hc Hps;
      injection H as <- <-; fin.
  - set (s0 := set_buf _ s) in H.
    change (process_crc s0) with (process_crc s) in H.
    destruct (process_crc s) eqn:Hcrc; simpl in H;
      [injection H as <- <-; fin|].
    destruct (_ =? 2)%nat;
      [|injection H as <- <-; fin].
    destruct (__update_segment s0) as [[[]|e] s1] eqn:E;
      apply update_segment_effect in E as (Hn & Hst & Ho & Ha & Hp & _);
      unfold statistics in Hst; injection Hst as Hf Hc Hps;
      [|injection H as <- <-; fin].
    unfold check_crc in H.
    destruct (segment s1 _) as [t|e];
      [|injection H as <- <-; fin].
    destruct (PyNum.int16 t) as [v|[]];
      [destruct (crc_xor s1 =? v)|..];
      injection H as <- <-; fin.
  all: try (rewrite Hp; exact Hcrc).
  right. split; [congruence|done].
Qed.

Lemma char_limit_effect s :
  navigation (char_limit s) = navigation s ∧
  statistics (char_limit s) = statistics s ∧
  local_offset (char_limit s) = local_offset s ∧
  gps_segments (char_limit s) = gps_segments s ∧
  (sentence_active (char_limit s) = true → sentence_active s = true).
Proof. unfold char_limit. by case_match. Qed.

(** What a call that reached the end of [update] did with a sentence
    found valid or not. *)
Lemma finish_effect now v s r s' :
  finish now v s = (r, s') →
  crc_fails s' = crc_fails s ∧ local_offset s' = local_offset s ∧
  gps_segments s' = gps_segments s ∧
  (v = false →
   r = Ret None ∧ navigation s' = navigation s ∧
   statistics s' = statistics s) ∧
  (v = true →
   clean_sentences s' = clean_sentences s + 1 ∧
   sentence_active s' = false ∧
   (parsed_sentences s' = parsed_sentences s ∧
    (r = Ret None ∨ ∃ e, r = Raise e) ∨
    parsed_sentences s' = parsed_sentences s + 1 ∧
    ∃ name, r = Ret (Some name) ∧ gps_segments s !! 0%nat = Some name ∧
            is_Some (supported_sentences !! name))).
Proof.
  unfold finish. intros H. destruct v.
  - set (s1 := set_sentence_active false _) in H.
    destruct (segment s1 0) as [name|e] eqn:Hseg.
    2:{ injection H as <- <-. repeat split; try done. left. eauto. }
    destruct (supported_sentences !! name) as [parser|] eqn:Hsup.
    2:{ injection H as <- <-.
        destruct (char_limit_effect s1) as (Hn & Hst & Ho & Hg & _).
        unfold statistics in Hst. injection Hst as Hf Hc Hps.
        unfold char_limit. repeat split; try done; try by case_match.
        left. split; [done|]. by left. }
    pose proof (same_frame_parser name parser now s1 Hsup) as (Hfr & Hst & Ho).
    unfold framing in Hfr. unfold statistics in Hst.
    injection Hfr as Hact Hidx Hcrc Hsegs Hx Hcc Hbuf.
    injection Hst as Hf Hc Hps.
    assert (Hname : gps_segments s !! 0%nat = Some name).
    { unfold segment, s1 in Hseg. simpl in Hseg.
      destruct (gps_segments s !! 0%nat); by simplify_eq. }
    destruct (parser now s1) as [[[]|e] s2]; simpl in *.
    + assert (Hseg2 : segment (set_parsed_sentences (parsed_sentences s2 + 1) s2) 0
                      = Ret name).
      { unfold segment. simpl. by rewrite Hsegs, Hname. }
      rewrite Hseg2 in H. injection H as <- <-. simpl.
      repeat split; try congruence. right. split; [congruence|]. eauto.
    + injection H as <- <-.
      destruct (char_limit_effect s2) as (Hn & Hst & Ho2 & Hg & _).
      unfold statistics in Hst. injection Hst as Hf2 Hc2 Hps2.
      unfold char_limit.
      repeat split; try done; try congruence; try (case_match; simpl; congruence).
      left. split; [case_match; simpl; congruence|]. by left.
    + injection H as <- <-.
      repeat split; try done; try congruence. left. split; [congruence|]. eauto.
  - injection H as <- <-.
    destruct (char_limit_effect s) as (Hn & Hst & Ho & Hg & _).
    pose proof Hst as Hst'. unfold statistics in Hst'.
    injection Hst' as Hf Hc Hps.
    repeat split; try done; try congruence.
Qed.

Lemma update_effect now c s r s' :
  update now c s = (r, s') →
  local_offset s' = local_offset s ∧
  (crc_fails s' = crc_fails s ∧ clean_sentences s' = clean_sentences s ∧
   parsed_sentences s' = parsed_sentences s ∧
   navigation s' = navigation s ∧ (r = Ret None ∨ ∃ e, r = Raise e)
   ∨
   crc_fails s' = crc_fails s + 1 ∧ clean_sentences s' = clean_sentences s ∧
   parsed_sentences s' = parsed_sentences s ∧
   navigation s' = navigation s ∧ r = Ret None
   ∨
   crc_fails s' = crc_fails s ∧ clean_sentences s' = clean_sentences s + 1 ∧
   sentence_active s = true ∧ process_crc s = false ∧ stored_char c = true ∧
   sentence_active s' = false ∧
   (parsed_sentences s' = parsed_sentences s ∧
    (r = Ret None ∨ ∃ e, r = Raise e)
    ∨
    parsed_sentences s' = parsed_sentences s + 1 ∧
    ∃ name, r = Ret (Some name) ∧ gps_segments s' !! 0%nat = Some name ∧
            is_Some (supported_sentences !! name))).
Proof.
  unfold update. intros H.
  destruct (_ && _) eqn:Hacc.
  2:{ injection H as <- <-. split; [done|]. left. repeat split; auto. }
  fold (accepted c) in Hacc.
  destruct (Ascii.eqb c "$") eqn:Hd.
  { injection H as <- <-. split; [done|]. left. repeat split; auto. }
  set (s0 := set_char_count _ s) in H.
  change (sentence_active s0) with (sentence_active s) in H.
  destruct (sentence_active s) eqn:Hact.
  2:{ injection H as <- <-. split; [done|]. left. repeat split; auto. }
  destruct (Ascii.eqb c "*") eqn:Hs.
  { destruct (__update_segment _) as [[[]|e] s1] eqn:E;
      apply update_segment_effect in E as (Hn & Hst & Ho & _);
      unfold statistics in Hst; injection Hst as Hf Hc Hps;
      injection H as <- <-; (split; [done|]); left;
      repeat split; eauto. }
  destruct (store_char c s0) as [[v|e] s1] eqn:E;
    apply store_char_effect in E as
      (Hn & Ho & Hc & Hps & Ha & Hp & Hcf & Hv).
  all: change (navigation s0) with (navigation s) in Hn;
    change (local_offset s0) with (local_offset s) in Ho;
    change (clean_sentences s0) with (clean_sentences s) in Hc;
    change (parsed_sentences s0) with (parsed_sentences s) in Hps;
    change (process_crc s0) with (process_crc s) in Hv;
    change (crc_fails s0) with (crc_fails s) in Hcf, Hv.
  2:{ injection H as <- <-. split; [done|].
      destruct Hcf as [Hcf|[Hcf ?]]; [|done].
      left. repeat split; eauto. }
  set (s2 := if process_crc s1 then _ else s1) in H.
  assert (Hs2 : navigation s2 = navigation s1 ∧ statistics s2 = statistics s1 ∧
                local_offset s2 = local_offset s1 ∧
                gps_segments s2 = gps_segments s1)
    by (unfold s2; by case_match).
  destruct Hs2 as (Hn2 & Hst2 & Ho2 & Hg2).
  unfold statistics in Hst2. injection Hst2 as Hf2 Hc2 Hps2.
  apply finish_effect in H as (Hf3 & Ho3 & Hg3 & Hfalse & Htrue).
  split; [congruence|].
  destruct v.
  - destruct (Hv eq_refl) as (Hcf' & Hpc & Hcomma).
    destruct (Htrue eq_refl) as (Hc3 & Ha3 & Hp3).
    right. right.
    split; [simpl in *; congruence|]. split; [simpl in *; congruence|].
    split; [done|]. split; [done|].
    split; [unfold stored_char, body_char; by rewrite Hacc, Hd, Hs, Hcomma|].
    split; [done|].
    destruct Hp3 as [[Hp3 Hr]|(Hp3 & name & -> & Hname & Hsup)].
    + left. split; [simpl in *; congruence|done].
    + right. split; [simpl in *; congruence|].
      exists name. repeat split; [congruence|done].
  - destruct (Hfalse eq_refl) as (-> & Hn3 & Hst3).
    unfold statistics in Hst3. injection Hst3 as _ Hc3 Hps3.
    destruct Hcf as [Hcf|[Hcf _]].
    + left. repeat split; simpl in *; try congruence; auto.
    + right. left. repeat split; simpl in *; congruence.
Qed.

(** X3. Along any stream and from any state, also when a call raises: the
    three counters never decrease, every sentence counted as parsed was
    counted as clean in the same call, each call counts at most one
    checksum failure or one clean sentence, and the local offset is never
    touched. *)
Theorem counters_along_stream clock chars self :
  let s' := snd (feed clock chars self) in
  crc_fails self ≤ crc_fails s' ∧
  clean_sentences self ≤ clean_sentences s' ∧
  parsed_sentences self ≤ parsed_sentences s' ∧
  parsed_sentences s' - parsed_sentences self
    ≤ clean_sentences s' - clean_sentences self ∧
  (crc_fails s' - crc_fails self) + (clean_sentences s' - clean_sentences self)
    ≤ Z.of_nat (length chars) ∧
  local_offset s' = local_offset self.
Proof.
  revert clock self. induction chars as [|c rest IH]; intros clock self.
  - simpl. repeat split; lia.
  - cbn [feed].
    destruct (update (clock 0%nat) c self) as [r s1] eqn:E.
    apply update_effect in E as (Ho & E).
    assert (H1 : crc_fails self ≤ crc_fails s1 ∧
                 clean_sentences self ≤ clean_sentences s1 ∧
                 parsed_sentences self ≤ parsed_sentences s1 ∧
                 parsed_sentences s1 - parsed_sentences self
                   ≤ clean_sentences s1 - clean_sentences self ∧
                 (crc_fails s1 - crc_fails self)
                   + (clean_sentences s1 - clean_sentences self) ≤ 1).
    { destruct E as [(?&?&?&?&?)|[(?&?&?&?&?)|(?&?&?&?&?&?&[[? ?]|[? ?]])]];
        lia. }
    rewrite length_cons, Nat2Z.inj_succ.
    destruct r as [r|e]; [|simpl; repeat split; try lia; done].
    specialize (IH (λ i, clock (S i)) s1). cbv zeta in IH.
    destruct (feed _ rest s1) as [[rs|e] s2]; simpl in *;
      repeat split; try lia; congruence.
Qed.

(** The checksum is compared, and a sentence can be found valid, only in
    the call that puts a second character into the trailer buffer. *)
Lemma store_char_true c s s' :
  store_char c s = (Ret true, s') → length (__buf s) = 1%nat.
Proof.
  unfold store_char. intros H.
  destruct (Ascii.eqb c ",").
  { destruct (__update_segment s) as [[[]|e] s1]; discriminate. }
  set (s0 := set_buf _ s) in H.
  change (process_crc s0) with (process_crc s) in H.
  destruct (process_crc s); [discriminate|]. cbn [negb] in H.
  change (__buf s0) with (__buf s ++ [c]) in H.
  destruct (length (__buf s ++ [c]) =? 2)%nat eqn:E; [|discriminate].
  apply Nat.eqb_eq in E. rewrite length_app in E. simpl in E. lia.
Qed.

Lemma update_event_buf now c s name s' :
  update now c s = (Ret (Some name), s') → length (__buf s) = 1%nat.
Proof.
  unfold update. intros H.
  destruct (_ && _); [|discriminate].
  destruct (Ascii.eqb c "$"); [discriminate|].
  set (s0 := set_char_count _ s) in H.
  change (sentence_active s0) with (sentence_active s) in H.
  destruct (sentence_active s); [|discriminate].
  destruct (Ascii.eqb c "*").
  { destruct (__update_segment _) as [[[]|e] s1]; discriminate. }
  destruct (store_char c s0) as [[v|e] s1] eqn:E; [|discriminate].
  destruct v.
  - apply store_char_true in E. exact E.
  - apply finish_effect in H as (_ & _ & _ & Hfalse & _).
    destruct (Hfalse eq_refl) as (Hr & _). discriminate.
Qed.

(** X4. A call of [update] that returns a sentence type returns the first
    field of the sentence just completed, and that type is a key of
    [supported_sentences]; the call received the second trailer character
    of an active sentence (the star had been seen and the buffer held one
    character), counted it clean and parsed, counted no checksum failure
    and closed the sentence. *)
Theorem update_event_sound now c self name self' :
  update now c self = (Ret (Some name), self') →
  is_Some (supported_sentences !! name) ∧
  gps_segments self' !! 0%nat = Some name ∧
  sentence_active self = true ∧ process_crc self = false ∧
  length (__buf self) = 1%nat ∧
  stored_char c = true ∧
  sentence_active self' = false ∧
  clean_sentences self' = clean_sentences self + 1 ∧
  parsed_sentences self' = parsed_sentences self + 1 ∧
  crc_fails self' = crc_fails self.
Proof.
  intros H. pose proof (update_event_buf _ _ _ _ _ H) as Hbuf.
  apply update_effect in H as (_ & H).
  destruct H as [(_ & _ & _ & _ & Hr) | [(_ & _ & _ & _ & Hr) | H]].
  - destruct Hr as [Hr | [e Hr]]; discriminate.
  - discriminate.
  - destruct H as (Hcf & Hc & Ha & Hp & Hst & Ha' & H).
    destruct H as [[_ Hr] | (Hps & n & Hr & Hseg & Hsup)].
    + destruct Hr as [Hr | [e Hr]]; discriminate.
    + injection Hr as ->. by repeat split.
Qed.

(** X5. The navigation data changes only in a call that counts a clean
    sentence: a call that leaves [clean_sentences] as it was, whether it
    returns or raises, leaves every navigation attribute as it was. *)
Theorem navigation_needs_clean_sentence now c self :
  clean_sentences (snd (update now c self)) = clean_sentences self →
  navigation (snd (update now c self)) = navigation self.
Proof.
  destruct (update now c self) as [r s'] eqn:E. simpl.
  apply update_effect in E as (_ & E). intros Hc.
  destruct E as [(?&?&?&?&?)|[(?&?&?&?&?)|(?&?&?)]]; [done|done|lia].
Qed.

(** ** Streams between sentences *)

Lemma set_char_count_twice a b s :
  set_char_count b (set_char_count a s) = set_char_count b s.
Proof. reflexivity. Qed.

Lemma set_char_count_same s : set_char_count (char_count s) s = s.
Proof. by destruct s. Qed.

(** X6. While no sentence is active, a stream without [$] is ignored:
    every call returns [None] and nothing changes but [char_count], which
    counts the characters with a code in 20..126. *)
Theorem idle_stream_ignored clock chars self :
  sentence_active self = false →
  Forall (λ c, c ≠ "$"%char) chars →
  feed clock chars self =
    (Ret (replicate (length chars) None),
     set_char_count
       (char_count self + Z.of_nat (length (List.filter accepted chars)))
       self).
Proof.
  revert clock self. induction chars as [|c rest IH]; intros clock self Hact Hall.
  - simpl. by rewrite Z.add_0_r, set_char_count_same.
  - apply Forall_cons in Hall as [Hc Hall]. cbn [feed List.filter].
    apply Ascii.eqb_neq in Hc.
    unfold update. fold (accepted c). destruct (accepted c) eqn:Hacc.
    + rewrite Hc. simpl. rewrite Hact.
      rewrite (IH _ (set_char_count (char_count self + 1) self) Hact Hall).
      simpl. rewrite set_char_count_twice. f_equal. f_equal. lia.
    + by rewrite (IH _ self Hact Hall).
Qed.

(** X7. A [$] forgets whatever was in flight: two objects that agree on
    the navigation data, the counters and the local offset behave alike
    from a [$] on, whatever their framing state was. *)
Theorem dollar_forgets_framing clock rest s1 s2 :
  navigation s1 = navigation s2 →
  statistics s1 = statistics s2 →
  local_offset s1 = local_offset s2 →
  feed clock ("$"%char :: rest) s1 = feed clock ("$"%char :: rest) s2.
Proof.
  intros Hn Hs Ho. cbn [feed]. rewrite !update_dollar.
  assert (E : new_sentence (set_char_count (char_count s1 + 1) s1)
              = new_sentence (set_char_count (char_count s2 + 1) s2)).
  { destruct s1, s2. unfold navigation, statistics in *. simpl in *.
    by simplify_eq. }
  by rewrite E.
Qed.

(** ** The framer, field by field *)

Lemma insert_last {A} (l : list A) (i : nat) (x : A) :
  S i = length l → <[i := x]> l = take i l ++ [x].
Proof.
  intros Hlen. apply list_eq. intros j.
  destruct (decide (j = i)) as [->|Hne].
  - rewrite list_lookup_insert_eq by lia.
    rewrite lookup_app_r by (rewrite length_take; lia).
    rewrite length_take. replace (i - i `min` length l)%nat with 0%nat by lia.
    done.
  - rewrite list_lookup_insert_ne by done.
    destruct (decide (j < i)%nat).
    + rewrite lookup_app_l by (rewrite length_take; lia).
      by rewrite lookup_take_lt.
    + rewrite lookup_ge_None_2 by lia.
      symmetry. apply lookup_ge_None_2.
      rewrite length_app, length_take. simpl. lia.
Qed.

Lemma update_body_state now c s :
  collecting s → accepted c = true → body_char c = true →
  char_count s < SENTENCE_LIMIT →
  update now c s =
    (Ret None,
     let s0 := set_char_count (char_count s + 1) s in
     set_crc_xor (Z.lxor (crc_xor s) (PyStr.ord c))
       (if Ascii.eqb c ","
        then next_segment
               (set_buf []
                  (set_gps_segments
                     (<[active_segment s := PyStr.join (__buf s)]>
                        (gps_segments s)) s0))
        else set_buf (__buf s ++ [c]) s0)).
Proof.
  intros (Hact & Hcrc & Hidx) Hacc [Hd Hs]%body_char_spec Hlim.
  unfold update. fold (accepted c). rewrite Hacc, Hd. simpl.
  rewrite Hact, Hs.
  unfold store_char. destruct (Ascii.eqb c ",").
  - unfold __update_segment. simpl.
    rewrite bool_decide_eq_true_2 by lia. simpl.
    rewrite Hcrc. unfold finish, char_limit. simpl.
    destruct (SENTENCE_LIMIT <? char_count s + 1) eqn:E;
      [apply Z.ltb_lt in E; lia|]. done.
  - simpl. rewrite Hcrc. simpl. rewrite Hcrc.
    unfold finish, char_limit. simpl.
    destruct (SENTENCE_LIMIT <? char_count s + 1) eqn:E;
      [apply Z.ltb_lt in E; lia|]. done.
Qed.

(** A sentence body, fed to a framer that is collecting: the fields
    closed so far, followed by the field under way, grow as
    [fields_from] says. *)
Lemma feed_body_fields body : ∀ clock s,
  collecting s →
  Forall (λ c, accepted c = true ∧ body_char c = true) body →
  char_count s + Z.of_nat (length body) ≤ SENTENCE_LIMIT →
  ∃ s',
    feed clock body s = (Ret (replicate (length body) None), s') ∧
    collecting s' ∧
    crc_xor s' = Z.lxor (crc_xor s) (xor_fold body) ∧
    char_count s' = char_count s + Z.of_nat (length body) ∧
    navigation s' = navigation s ∧ statistics s' = statistics s ∧
    local_offset s' = local_offset s ∧
    take (active_segment s') (gps_segments s') ++ [PyStr.join (__buf s')]
      = take (active_segment s) (gps_segments s)
          ++ fields_from (__buf s) body.
Proof.
  induction body as [|c body IH]; intros clock s Hcol Hall Hlen.
  - exists s. change (xor_fold []) with 0. rewrite Z.lxor_0_r. simpl.
    repeat split; try apply Hcol; try done; lia.
  - apply Forall_cons in Hall as [[Hacc Hc] Hall].
    rewrite length_cons, Nat2Z.inj_succ in Hlen.
    cbn [feed]. rewrite (update_body_state _ c s Hcol Hacc Hc) by lia.
    cbv zeta. set (s1 := set_crc_xor _ _).
    destruct Hcol as (Hact & Hcrc & Hidx).
    assert (Hcol1 : collecting s1).
    { unfold s1, collecting. destruct (Ascii.eqb c ","); simpl;
        rewrite ?length_app, ?length_insert; simpl; repeat split; try done; lia. }
    destruct (IH (λ i, clock (S i)) s1 Hcol1 Hall) as
      (s2 & Hf & Hcol2 & Hx & Hn & Hnav & Hst & Ho & Hseg).
    { unfold s1. destruct (Ascii.eqb c ","); simpl; lia. }
    exists s2. rewrite Hf. split; [done|]. split; [done|].
    split.
    { rewrite Hx, xor_fold_cons. unfold s1.
      destruct (Ascii.eqb c ","); simpl; by rewrite Z.lxor_assoc. }
    split.
    { rewrite Hn, length_cons, Nat2Z.inj_succ. unfold s1.
      destruct (Ascii.eqb c ","); simpl; lia. }
    split; [rewrite Hnav; unfold s1; by destruct (Ascii.eqb c ",")|].
    split; [rewrite Hst; unfold s1; by destruct (Ascii.eqb c ",")|].
    split; [rewrite Ho; unfold s1; by destruct (Ascii.eqb c ",")|].
    rewrite Hseg. unfold s1. cbn [fields_from].
    destruct (Ascii.eqb c ","); simpl; [|done].
    rewrite (insert_last _ _ _ Hidx).
    rewrite take_app_length' by (rewrite length_app, length_take; simpl; lia).
    by rewrite <- app_assoc.
Qed.

Lemma update_star_state now s :
  collecting s →
  update now "*" s =
    (Ret None,
     next_segment
       (set_buf []
          (set_gps_segments
             (<[active_segment s := PyStr.join (__buf s)]> (gps_segments s))
             (set_process_crc false (set_char_count (char_count s + 1) s))))).
Proof.
  intros (Hact & Hcrc & Hidx).
  unfold update. simpl. rewrite Hact.
  unfold __update_segment. simpl.
  by rewrite bool_decide_eq_true_2 by lia.
Qed.

Lemma update_trailer_first_state now t1 s :
  in_trailer [] s → stored_char t1 = true →
  char_count s < SENTENCE_LIMIT →
  update now t1 s =
    (Ret None, set_buf [t1] (set_char_count (char_count s + 1) s)).
Proof.
  intros (Hact & Hcrc & Hbuf & Hidx) (Ha & Hd & Hs & Hc)%stored_char_spec Hlim.
  unfold update. fold (accepted t1). rewrite Ha, Hd. simpl.
  rewrite Hact, Hs. unfold store_char. rewrite Hc. simpl.
  rewrite Hcrc, Hbuf. simpl. rewrite Hcrc.
  unfold finish, char_limit. simpl.
  destruct (SENTENCE_LIMIT <? char_count s + 1) eqn:E;
    [apply Z.ltb_lt in E; lia|]. done.
Qed.

Lemma update_trailer_match_state now t1 t2 s :
  in_trailer [t1] s → stored_char t2 = true →
  PyNum.int16 (String t1 (String t2 "")) = Ret (crc_xor s) →
  update now t2 s =
    finish now true
      (set_buf []
         (set_gps_segments
            (<[active_segment s := String t1 (String t2 "")]> (gps_segments s))
            (set_char_count (char_count s + 1) s))).
Proof.
  intros (Hact & Hcrc & Hbuf & Hidx) (Ha & Hd & Hs & Hc)%stored_char_spec Hint.
  unfold update. fold (accepted t2). rewrite Ha, Hd.
  generalize (finish now). intros F. simpl.
  rewrite Hact, Hs. unfold store_char. rewrite Hc. simpl.
  rewrite Hcrc, Hbuf. simpl.
  unfold __update_segment. simpl.
  rewrite bool_decide_eq_true_2 by lia.
  unfold check_crc, segment. simpl.
  rewrite list_lookup_insert_eq by lia.
  change (PyStr.join [t1; t2]) with (String t1 (String t2 "")).
  rewrite Hint, Z.eqb_refl. simpl. by rewrite Hcrc.
Qed.

(** A framed body up to and including the star. *)
Lemma feed_to_star clock body self :
  Forall (λ c, accepted c = true ∧ body_char c = true) body →
  (length body ≤ 90)%nat →
  ∃ s,
    feed clock ("$"%char :: body ++ ["*"%char]) self
      = (Ret (replicate (length body + 2) None), s) ∧
    in_trailer [] s ∧
    gps_segments s = fields body ++ [""] ∧
    active_segment s = length (fields body) ∧
    crc_xor s = xor_fold body ∧
    char_count s = Z.of_nat (length body) + 1 ∧
    navigation s = navigation self ∧ statistics s = statistics self ∧
    local_offset s = local_offset self.
Proof.
  intros Hall Hlen.
  change ("$"%char :: body ++ ["*"%char])
    with (["$"%char] ++ body ++ ["*"%char]).
  rewrite feed_app. cbn [feed]. rewrite update_dollar.
  set (s0 := new_sentence _). rewrite feed_app.
  destruct (feed_body_fields body (λ i, clock (length ["$"%char] + i)%nat) s0
              (new_sentence_collecting _) Hall) as
    (s1 & Hf & Hcol & Hx & Hn & Hnav & Hst & Ho & Hseg).
  { unfold SENTENCE_LIMIT. simpl. lia. }
  rewrite Hf. cbn [feed]. rewrite (update_star_state _ s1 Hcol).
  destruct Hcol as (Hact & Hcrc & Hidx).
  simpl in Hseg, Hx, Hn.
  eexists. split.
  { f_equal. f_equal.
    replace (length body + 2)%nat with (1 + (length body + 1))%nat by lia.
    by rewrite replicate_add, replicate_add. }
  unfold in_trailer. simpl.
  rewrite (insert_last _ _ _ Hidx), Hseg.
  assert (Hlenf : S (active_segment s1) = length (fields body)).
  { unfold fields. rewrite <- Hseg, length_app, length_take. simpl. lia. }
  rewrite !length_app. simpl.
  repeat split; try done; try lia.
  unfold fields in Hlenf. lia.
Qed.

(** A whole sentence whose trailer matches: the state in which the
    sentence is handed over, and what the last call does with it. *)
Lemma feed_sentence clock body t1 t2 self :
  Forall (λ c, accepted c = true ∧ body_char c = true) body →
  (length body ≤ 88)%nat →
  stored_char t1 = true → stored_char t2 = true →
  PyNum.int16 (String t1 (String t2 "")) = Ret (xor_fold body) →
  ∃ s,
    framing s =
      (true, length (fields body), false,
       fields body ++ [String t1 (String t2 "")], xor_fold body,
       Z.of_nat (length body) + 3, []) ∧
    navigation s = navigation self ∧ statistics s = statistics self ∧
    local_offset s = local_offset self ∧
    feed clock ("$"%char :: body ++ ["*"%char; t1; t2]) self =
      match finish (clock (length body + 3)%nat) true s with
      | (Ret r, s') => (Ret (replicate (length body + 3) None ++ [r]), s')
      | (Raise e, s') => (Raise e, s')
      end.
Proof.
  intros Hall Hlen H1 H2 Hint.
  destruct (feed_to_star clock body self Hall) as
    (s1 & Hf & Htr & Hsegs & Hidx & Hx & Hn & Hnav & Hst & Ho); [lia|].
  assert (E1 := update_trailer_first_state
                  (clock (length body + 2)%nat) t1 s1 Htr H1
                  ltac:(rewrite Hn; unfold SENTENCE_LIMIT; lia)).
  set (s2 := set_buf [t1] _) in E1.
  assert (Htr2 : in_trailer [t1] s2) by (by destruct Htr as (?&?&?&?)).
  assert (Hx2 : PyNum.int16 (String t1 (String t2 "")) = Ret (crc_xor s2))
    by (rewrite Hint; f_equal; symmetry; exact Hx).
  assert (E2 := update_trailer_match_state
                  (clock (length body + 3)%nat) t1 t2 s2 Htr2 H2 Hx2).
  set (s3 := set_buf [] _) in E2.
  exists s3. split.
  { unfold framing, s3, s2. simpl. rewrite Hsegs, Hidx, Hx, Hn.
    rewrite insert_app_r_alt, Nat.sub_diag by lia. simpl.
    destruct Htr as (-> & -> & _ & _).
    replace (Z.of_nat (length body) + 1 + 1 + 1)
      with (Z.of_nat (length body) + 3) by lia.
    done. }
  split; [done|]. split; [done|]. split; [done|].
  replace ("$"%char :: body ++ ["*"%char; t1; t2])
    with (("$"%char :: body ++ ["*"%char]) ++ [t1; t2])
    by (simpl; by rewrite <- app_assoc).
  rewrite feed_app, Hf. cbn [feed].
  replace (length ("$"%char :: body ++ ["*"%char]) + 0)%nat
    with (length body + 2)%nat by (simpl; rewrite length_app; simpl; lia).
  replace (length ("$"%char :: body ++ ["*"%char]) + 1)%nat
    with (length body + 3)%nat by (simpl; rewrite length_app; simpl; lia).
  rewrite E1, E2.
  destruct (finish _ true s3) as [[r|e] s4]; [|done].
  do 2 f_equal.
  change (None :: [r]) with (replicate 1 (@None string) ++ [r]).
  rewrite app_assoc, <- replicate_add. do 2 f_equal. lia.
Qed.

(** X8. The framer splits a sentence body at its commas: from any state,
    after [$], a body of at most 90 characters with codes in 20..126 and
    without [$] or [*], and the star, [gps_segments] holds the fields of
    the body followed by an empty field for the trailer, and the running
    checksum is the XOR of the body.  No call returns anything or raises,
    and the navigation data and the counters are as before. *)
Theorem framer_splits_fields clock body self :
  Forall (λ c, accepted c = true ∧ body_char c = true) body →
  (length body ≤ 90)%nat →
  let r := feed clock ("$"%char :: body ++ ["*"%char]) self in
  fst r = Ret (replicate (length body + 2) None) ∧
  gps_segments (snd r) = fields body ++ [""] ∧
  active_segment (snd r) = length (fields body) ∧
  crc_xor (snd r) = xor_fold body ∧
  navigation (snd r) = navigation self ∧
  statistics (snd r) = statistics self.
Proof.
  intros Hall Hlen.
  destruct (feed_to_star clock body self Hall Hlen) as
    (s & Hf & _ & Hsegs & Hidx & Hx & _ & Hnav & Hst & _).
  cbv zeta. rewrite Hf. by repeat split.
Qed.

Lemma framing_fields s a i p segs x n b :
  framing s = (a, i, p, segs, x, n, b) →
  sentence_active s = a ∧ active_segment s = i ∧ process_crc s = p ∧
  gps_segments s = segs ∧ crc_xor s = x ∧ char_count s = n ∧ __buf s = b.
Proof. unfold framing. intros H. by simplify_eq. Qed.

(** X9. A checksum-clean sentence with an identifier that is no key of
    [supported_sentences]: every call returns [None], the sentence is
    counted as clean and not as parsed, no checksum failure is counted,
    the navigation data is as before and the sentence is closed. *)
Theorem clean_unsupported_sentence clock body t1 t2 name self :
  Forall (λ c, accepted c = true ∧ body_char c = true) body →
  (length body ≤ 88)%nat →
  stored_char t1 = true → stored_char t2 = true →
  PyNum.int16 (String t1 (String t2 "")) = Ret (xor_fold body) →
  fields body !! 0%nat = Some name →
  supported_sentences !! name = None →
  let r := feed clock ("$"%char :: body ++ ["*"%char; t1; t2]) self in
  fst r = Ret (replicate (length body + 4) None) ∧
  statistics (snd r)
    = (crc_fails self, clean_sentences self + 1, parsed_sentences self) ∧
  navigation (snd r) = navigation self ∧
  sentence_active (snd r) = false.
Proof.
  intros Hall Hlen H1 H2 Hint Hname Hsup.
  destruct (feed_sentence clock body t1 t2 self Hall Hlen H1 H2 Hint) as
    (s & Hfr & Hnav & Hst & Ho & Hf).
  apply framing_fields in Hfr as (Ha & Hi & Hp & Hsegs & Hx & Hn & Hb).
  cbv zeta. rewrite Hf. unfold finish.
  set (s1 := set_sentence_active false _).
  assert (Hseg : segment s1 0 = Ret name).
  { unfold segment, s1. simpl. rewrite Hsegs.
    by rewrite (lookup_app_l_Some _ _ _ _ Hname). }
  rewrite Hseg. cbn beta iota. unfold run in *. rewrite Hsup. simpl.
  unfold statistics in Hst. injection Hst as Hcf Hc Hps.
  split.
  { f_equal. change [@None string] with (replicate 1 (@None string)).
    rewrite <- replicate_add. f_equal. lia. }
  assert (Hlim : navigation (char_limit s1) = navigation s ∧
                 statistics (char_limit s1)
                   = (crc_fails s, clean_sentences s + 1, parsed_sentences s) ∧
                 sentence_active (char_limit s1) = false)
    by (unfold char_limit, s1; destruct (SENTENCE_LIMIT <? _);
        repeat split; reflexivity).
  destruct Hlim as (Hn1 & Hs1 & Ha1).
  rewrite Hn1, Hs1, Hcf, Hc, Hps. by repeat split.
Qed.

(** X10. A checksum-clean sentence with a supported identifier is handed
    to its parser exactly once, with [gps_segments] holding the fields of
    the body and the trailer, after the sentence has been counted clean
    and closed.  The stream returns the identifier in its last call when
    the parser returns [True] (and the sentence is counted parsed),
    [None] when it returns [False], and raises what the parser raises. *)
Theorem clean_supported_sentence clock body t1 t2 name parser self :
  Forall (λ c, accepted c = true ∧ body_char c = true) body →
  (length body ≤ 88)%nat →
  stored_char t1 = true → stored_char t2 = true →
  PyNum.int16 (String t1 (String t2 "")) = Ret (xor_fold body) →
  fields body !! 0%nat = Some name →
  supported_sentences !! name = Some parser →
  ∃ s,
    gps_segments s = fields body ++ [String t1 (String t2 "")] ∧
    navigation s = navigation self ∧ local_offset s = local_offset self ∧
    statistics s
      = (crc_fails self, clean_sentences self + 1, parsed_sentences self) ∧
    sentence_active s = false ∧
    feed clock ("$"%char :: body ++ ["*"%char; t1; t2]) self =
      match parser (clock (length body + 3)%nat) s with
      | (Ret true, s') =>
          (Ret (replicate (length body + 3) None ++ [Some name]),
           set_parsed_sentences (parsed_sentences self + 1) s')
      | (Ret false, s') =>
          (Ret (replicate (length body + 4) None), char_limit s')
      | (Raise e, s') => (Raise e, s')
      end.
Proof.
  intros Hall Hlen H1 H2 Hint Hname Hsup.
  destruct (feed_sentence clock body t1 t2 self Hall Hlen H1 H2 Hint) as
    (s & Hfr & Hnav & Hst & Ho & Hf).
  apply framing_fields in Hfr as (Ha & Hi & Hp & Hsegs & Hx & Hn & Hb).
  unfold statistics in Hst. injection Hst as Hcf Hc Hps.
  rewrite Hf. unfold finish.
  set (s1 := set_sentence_active false _).
  exists s1.
  assert (Hseg : segment s1 0 = Ret name).
  { unfold segment, s1. simpl. rewrite Hsegs.
    by rewrite (lookup_app_l_Some _ _ _ _ Hname). }
  split; [exact Hsegs|]. split; [exact Hnav|]. split; [exact Ho|].
  split; [unfold statistics, s1; simpl; congruence|]. split; [done|].
  rewrite Hseg. cbn beta iota. unfold run in *. rewrite Hsup.
  pose proof (same_frame_parser name parser (clock (length body + 3)%nat) s1 Hsup)
    as (Hfr & Hst & _).
  clear Hsup Hint Hall Hf.
  destruct (parser _ s1) as [[[]|e] s2]; cbn [snd] in Hfr, Hst; cbn beta iota;
    [| |done].
  - unfold framing in Hfr. injection Hfr as _ _ _ Hsegs2 _ _ _.
    unfold statistics in Hst. injection Hst as _ _ Hps2.
    assert (Hseg2 : segment (set_parsed_sentences (parsed_sentences s2 + 1) s2) 0
                    = Ret name).
    { unfold segment. simpl. rewrite Hsegs2, Hsegs.
      by rewrite (lookup_app_l_Some _ _ _ _ Hname). }
    rewrite Hseg2. do 3 f_equal. simpl in *. congruence.
  - f_equal. f_equal. change [@None string] with (replicate 1 (@None string)).
    rewrite <- replicate_add. f_equal. lia.
Qed.

(** ** Instances of the theorems above *)

Lemma update_event_sound_witness :
  let self := snd (feed (at_tick 0) (stream "$GPVTG,054.7,T,034.4,M,005.5,N,010.2,K*4")
                     (__init__ 0)) in
  let self' := snd (update 0 "8" self) in
  update 0 "8" self = (Ret (Some "GPVTG"), self') ∧
  is_Some (supported_sentences !! "GPVTG") ∧
  gps_segments self' !! 0%nat = Some "GPVTG" ∧
  sentence_active self = true ∧ process_crc self = false ∧
  length (__buf self) = 1%nat ∧
  stored_char "8" = true ∧
  sentence_active self' = false ∧
  clean_sentences self' = clean_sentences self + 1 ∧
  parsed_sentences self' = parsed_sentences self + 1 ∧
  crc_fails self' = crc_fails self.
Proof.
  intros self self'.
  assert (H : update 0 "8" self = (Ret (Some "GPVTG"), self'))
    by (vm_compute; reflexivity).
  split; [exact H|]. exact (update_event_sound 0 "8" self "GPVTG" self' H).
Defined.

Lemma navigation_needs_clean_sentence_witness :
  clean_sentences (snd (update 0 "G" (__init__ 0))) = clean_sentences (__init__ 0) ∧
  navigation (snd (update 0 "G" (__init__ 0))) = navigation (__init__ 0).
Proof.
  assert (H : clean_sentences (snd (update 0 "G" (__init__ 0)))
              = clean_sentences (__init__ 0)) by reflexivity.
  split; [exact H|].
  exact (navigation_needs_clean_sentence 0 "G" (__init__ 0) H).
Defined.

Lemma idle_stream_ignored_witness :
  let chars := stream "GGA,1*47" ++ [CR; LF] in
  sentence_active (__init__ 0) = false ∧
  Forall (λ c, c ≠ "$"%char) chars ∧
  feed (at_tick 0) chars (__init__ 0) =
    (Ret (replicate (length chars) None),
     set_char_count
       (char_count (__init__ 0)
        + Z.of_nat (length (List.filter accepted chars)))
       (__init__ 0)).
Proof.
  intros chars.
  assert (Ha : sentence_active (__init__ 0) = false) by reflexivity.
  assert (Hall : Forall (λ c, c ≠ "$"%char) chars)
    by (unfold chars, stream; simpl; repeat (constructor; [discriminate|]);
        constructor).
  split; [exact Ha|]. split; [exact Hall|].
  exact (idle_stream_ignored (at_tick 0) chars (__init__ 0) Ha Hall).
Defined.

Lemma dollar_forgets_framing_witness :
  let s1 := __init__ 0 in
  let s2 := snd (feed (at_tick 0) (stream "$GPGGA,12") (__init__ 0)) in
  framing s1 ≠ framing s2 ∧
  navigation s1 = navigation s2 ∧ statistics s1 = statistics s2 ∧
  local_offset s1 = local_offset s2 ∧
  feed (at_tick 0) (stream vtg_sentence) s1
    = feed (at_tick 0) (stream vtg_sentence) s2.
Proof.
  intros s1 s2.
  assert (Hn : navigation s1 = navigation s2) by reflexivity.
  assert (Hs : statistics s1 = statistics s2) by reflexivity.
  assert (Ho : local_offset s1 = local_offset s2) by reflexivity.
  split; [vm_compute; discriminate|].
  split; [exact Hn|]. split; [exact Hs|]. split; [exact Ho|].
  exact (dollar_forgets_framing (at_tick 0) (stream (vtg_body +:+ "*48"))
           s1 s2 Hn Hs Ho).
Defined.

Lemma framer_splits_fields_witness :
  let body := stream vtg_body in
  Forall (λ c, accepted c = true ∧ body_char c = true) body ∧
  (length body ≤ 90)%nat ∧
  (let r := feed (at_tick 0) ("$"%char :: body ++ ["*"%char]) (__init__ 0) in
   fst r = Ret (replicate (length body + 2) None) ∧
   gps_segments (snd r) = fields body ++ [""] ∧
   active_segment (snd r) = length (fields body) ∧
   crc_xor (snd r) = xor_fold body ∧
   navigation (snd r) = navigation (__init__ 0) ∧
   statistics (snd r) = statistics (__init__ 0)) ∧
  fields body
    = ["GPVTG"; "054.7"; "T"; "034.4"; "M"; "005.5"; "N"; "010.2"; "K"].
Proof.
  intros body.
  assert (Hall : Forall (λ c, accepted c = true ∧ body_char c = true) body)
    by (unfold body, vtg_body, stream; simpl; repeat constructor).
  assert (Hlen : (length body ≤ 90)%nat) by (vm_compute; lia).
  split; [exact Hall|]. split; [exact Hlen|].
  split; [|reflexivity].
  exact (framer_splits_fields (at_tick 0) body (__init__ 0) Hall Hlen).
Defined.

Lemma clean_unsupported_sentence_witness :
  let body := stream "GPXYZ,1" in
  Forall (λ c, accepted c = true ∧ body_char c = true) body ∧
  (length body ≤ 88)%nat ∧
  stored_char "5" = true ∧ stored_char "1" = true ∧
  PyNum.int16 "51" = Ret (xor_fold body) ∧
  fields body !! 0%nat = Some "GPXYZ" ∧
  supported_sentences !! "GPXYZ" = None ∧
  (let r := feed (at_tick 0) ("$"%char :: body ++ ["*"; "5"; "1"]%char)
              (__init__ 0) in
   fst r = Ret (replicate (length body + 4) None) ∧
   statistics (snd r)
     = (crc_fails (__init__ 0), clean_sentences (__init__ 0) + 1,
        parsed_sentences (__init__ 0)) ∧
   navigation (snd r) = navigation (__init__ 0) ∧
   sentence_active (snd r) = false).
Proof.
  intros body.
  assert (Hall : Forall (λ c, accepted c = true ∧ body_char c = true) body)
    by (unfold body, stream; simpl; repeat constructor).
  assert (Hlen : (length body ≤ 88)%nat) by (vm_compute; lia).
  assert (H1 : stored_char "5" = true) by reflexivity.
  assert (H2 : stored_char "1" = true) by reflexivity.
  assert (Hint : PyNum.int16 "51" = Ret (xor_fold body)) by reflexivity.
  assert (Hname : fields body !! 0%nat = Some "GPXYZ") by reflexivity.
  assert (Hsup : supported_sentences !! "GPXYZ" = None) by reflexivity.
  split; [exact Hall|]. split; [exact Hlen|]. split; [exact H1|].
  split; [exact H2|]. split; [exact Hint|]. split; [exact Hname|].
  split; [exact Hsup|].
  exact (clean_unsupported_sentence (at_tick 0) body "5" "1" "GPXYZ"
           (__init__ 0) Hall Hlen H1 H2 Hint Hname Hsup).
Defined.

Lemma clean_supported_sentence_witness :
  let body := stream vtg_body in
  Forall (λ c, accepted c = true ∧ body_char c = true) body ∧
  (length body ≤ 88)%nat ∧
  stored_char "4" = true ∧ stored_char "8" = true ∧
  PyNum.int16 "48" = Ret (xor_fold body) ∧
  fields body !! 0%nat = Some "GPVTG" ∧
  supported_sentences !! "GPVTG" = Some (λ _, gpvtg) ∧
  ∃ s,
    gps_segments s = fields body ++ ["48"] ∧
    navigation s = navigation (__init__ 0) ∧
    local_offset s = local_offset (__init__ 0) ∧
    statistics s
      = (crc_fails (__init__ 0), clean_sentences (__init__ 0) + 1,
         parsed_sentences (__init__ 0)) ∧
    sentence_active s = false ∧
    feed (at_tick 0) ("$"%char :: body ++ ["*"; "4"; "8"]%char) (__init__ 0) =
      match gpvtg s with
      | (Ret true, s') =>
          (Ret (replicate (length body + 3) None ++ [Some "GPVTG"]),
           set_parsed_sentences (parsed_sentences (__init__ 0) + 1) s')
      | (Ret false, s') =>
          (Ret (replicate (length body + 4) None), char_limit s')
      | (Raise e, s') => (Raise e, s')
      end.
Proof.
  intros body.
  assert (Hall : Forall (λ c, accepted c = true ∧ body_char c = true) body)
    by (unfold body, vtg_body, stream; simpl; repeat constructor).
  assert (Hlen : (length body ≤ 88)%nat) by (vm_compute; lia).
  assert (H1 : stored_char "4" = true) by reflexivity.
  assert (H2 : stored_char "8" = true) by reflexivity.
  assert (Hint : PyNum.int16 "48" = Ret (xor_fold body)) by reflexivity.
  assert (Hname : fields body !! 0%nat = Some "GPVTG") by reflexivity.
  assert (Hsup : supported_sentences !! "GPVTG" = Some (λ _, gpvtg))
    by reflexivity.
  split; [exact Hall|]. split; [exact Hlen|]. split; [exact H1|].
  split; [exact H2|]. split; [exact Hint|]. split; [exact Hname|].
  split; [exact Hsup|].
  exact (clean_supported_sentence (at_tick 0) body "4" "8" "GPVTG" (λ _, gpvtg)
           (__init__ 0) Hall Hlen H1 H2 Hint Hname Hsup).
Defined.

(** ** The parser behind a call of [update] *)

(** A call of [update] either runs no parser, and then the navigation
    data is as before, or runs the parser that [supported_sentences] has
    for the first field, once, on an object with the navigation data as
    before, and returns what the parser's result stands for. *)
Lemma finish_dispatch now v s r s' :
  finish now v s = (r, s') →
  navigation s' = navigation s ∧ (r = Ret None ∨ ∃ e, r = Raise e) ∨
  ∃ s1 name parser r1 s2,
    navigation s1 = navigation s ∧ gps_segments s1 = gps_segments s ∧
    gps_segments s !! 0%nat = Some name ∧
    supported_sentences !! name = Some parser ∧
    parser now s1 = (r1, s2) ∧
    navigation s' = navigation s2 ∧ gps_segments s' = gps_segments s ∧
    r = match r1 with
        | Ret true => Ret (Some name)
        | Ret false => Ret None
        | Raise e => Raise e
        end.
Proof.
  unfold finish. intros H. destruct v.
  2:{ injection H as <- <-. left.
      destruct (char_limit_effect s) as (Hn & _). eauto. }
  set (s1 := set_sentence_active false _) in H.
  destruct (segment s1 0) as [name|e] eqn:Hseg.
  2:{ injection H as <- <-. left. eauto. }
  destruct (supported_sentences !! name) as [parser|] eqn:Hsup.
  2:{ injection H as <- <-. left.
      destruct (char_limit_effect s1) as (Hn & _). split; [exact Hn|eauto]. }
  assert (Hname : gps_segments s !! 0%nat = Some name).
  { unfold segment, s1 in Hseg. simpl in Hseg.
    destruct (gps_segments s !! 0%nat); by simplify_eq. }
  pose proof (same_frame_parser name parser now s1 Hsup) as (Hfr & _ & _).
  unfold framing in Hfr. injection Hfr as _ _ _ Hsegs _ _ _.
  right. exists s1, name, parser.
  destruct (parser now s1) as [r1 s2] eqn:Hp. exists r1, s2.
  cbn [snd] in Hsegs.
  split; [done|]. split; [done|]. split; [done|]. split; [done|].
  split; [done|].
  destruct r1 as [[]|e].
  - assert (Hseg2 : segment (set_parsed_sentences (parsed_sentences s2 + 1) s2) 0
                    = Ret name).
    { unfold segment. simpl. by rewrite Hsegs, Hname. }
    rewrite Hseg2 in H. by injection H as <- <-.
  - injection H as <- <-.
    destruct (char_limit_effect s2) as (Hn & _ & _ & Hg & _).
    split; [done|]. split; [congruence|done].
  - by injection H as <- <-.
Qed.

Lemma update_dispatch now c s r s' :
  update now c s = (r, s') →
  navigation s' = navigation s ∧ (r = Ret None ∨ ∃ e, r = Raise e) ∨
  ∃ s1 name parser r1 s2,
    navigation s1 = navigation s ∧
    gps_segments s1 = gps_segments s' ∧
    gps_segments s' !! 0%nat = Some name ∧
    supported_sentences !! name = Some parser ∧
    parser now s1 = (r1, s2) ∧
    navigation s' = navigation s2 ∧
    r = match r1 with
        | Ret true => Ret (Some name)
        | Ret false => Ret None
        | Raise e => Raise e
        end.
Proof.
  unfold update. intros H.
  destruct (_ && _); [|injection H as <- <-; eauto].
  destruct (Ascii.eqb c "$"); [injection H as <- <-; eauto|].
  set (s0 := set_char_count _ s) in H.
  change (sentence_active s0) with (sentence_active s) in H.
  destruct (sentence_active s); [|injection H as <- <-; eauto].
  destruct (Ascii.eqb c "*").
  { destruct (__update_segment _) as [[[]|e] s1] eqn:E;
      apply update_segment_effect in E as (Hn & _);
      injection H as <- <-; left; eauto. }
  destruct (store_char c s0) as [[v|e] s1] eqn:E;
    apply store_char_effect in E as (Hn & _);
    change (navigation s0) with (navigation s) in Hn.
  2:{ injection H as <- <-. left. eauto. }
  set (s2 := if process_crc s1 then _ else s1) in H.
  assert (Hs2 : navigation s2 = navigation s1) by (unfold s2; by case_match).
  apply finish_dispatch in H
    as [[Hn3 Hr]|(s3 & name & parser & r1 & s4 & Hn3 & Hg3 & Hname & Hsup
                  & Hp & Hn4 & Hg4 & Hr)].
  - left. split; [congruence|done].
  - right. exists s3, name, parser, r1, s4.
    repeat split; try done; congruence.
Qed.

Lemma parser_of_VTG name parser :
  name ∈ VTG → supported_sentences !! name = Some parser → parser = λ _, gpvtg.
Proof.
  unfold VTG. intros H Hsup.
  repeat (apply elem_of_cons in H as [->|H];
          [change (Some (λ _ : Z, gpvtg) = Some parser) in Hsup; congruence|]).
  by apply elem_of_nil in H.
Qed.

Lemma parser_of_GSV name parser :
  name ∈ GSV → supported_sentences !! name = Some parser → parser = λ _, gpgsv.
Proof.
  unfold GSV. intros H Hsup.
  repeat (apply elem_of_cons in H as [->|H];
          [change (Some (λ _ : Z, gpgsv) = Some parser) in Hsup; congruence|]).
  by apply elem_of_nil in H.
Qed.

Lemma parser_of_GSA name parser :
  name ∈ GSA → supported_sentences !! name = Some parser → parser = gpgsa.
Proof.
  unfold GSA. intros H Hsup.
  repeat (apply elem_of_cons in H as [->|H];
          [change (Some gpgsa = Some parser) in Hsup; congruence|]).
  by apply elem_of_nil in H.
Qed.

Lemma parser_of_RMC name parser :
  name ∈ RMC → supported_sentences !! name = Some parser → parser = gprmc.
Proof.
  unfold RMC. intros H Hsup.
  repeat (apply elem_of_cons in H as [->|H];
          [change (Some gprmc = Some parser) in Hsup; congruence|]).
  by apply elem_of_nil in H.
Qed.

Lemma parser_of_GLL name parser :
  name ∈ GLL → supported_sentences !! name = Some parser → parser = gpgll.
Proof.
  unfold GLL. intros H Hsup.
  repeat (apply elem_of_cons in H as [->|H];
          [change (Some gpgll = Some parser) in Hsup; congruence|]).
  by apply elem_of_nil in H.
Qed.

Lemma parser_of_GGA name parser :
  name ∈ GGA → supported_sentences !! name = Some parser → parser = gpgga.
Proof.
  unfold GGA. intros H Hsup.
  repeat (apply elem_of_cons in H as [->|H];
          [change (Some gpgga = Some parser) in Hsup; congruence|]).
  by apply elem_of_nil in H.
Qed.

(** X2. A VTG, GSA or GSV sentence that is not reported leaves no trace:
    when [update] returns [None] and the sentence in [gps_segments] is of
    one of these types, the navigation data is as before the call.  Their
    parsers read every field before they store one. *)
Theorem rejected_sentence_leaves_no_trace now c self self' name :
  update now c self = (Ret None, self') →
  gps_segments self' !! 0%nat = Some name →
  name ∈ VTG ++ GSA ++ GSV →
  navigation self' = navigation self.
Proof.
  intros H Hname Hin.
  apply update_dispatch in H
    as [[Hn _]|(s1 & name' & parser & r1 & s2 & Hn1 & Hg & Hname' & Hsup
                & Hp & Hn2 & Hr)]; [done|].
  assert (name' = name) as -> by congruence.
  rewrite Hn2, <- Hn1. f_equal.
  destruct r1 as [[]|e]; try discriminate.
  apply elem_of_app in Hin as [Hin|Hin];
    [|apply elem_of_app in Hin as [Hin|Hin]].
  - rewrite (parser_of_VTG _ _ Hin Hsup) in Hp.
    exact (gpvtg_failure_atomic _ _ Hp).
  - rewrite (parser_of_GSA _ _ Hin Hsup) in Hp.
    exact (gpgsa_failure_atomic _ _ _ Hp).
  - rewrite (parser_of_GSV _ _ Hin Hsup) in Hp.
    exact (gpgsv_failure_atomic _ _ Hp).
Qed.

(** ** The time of the last fix *)

Lemma fix_time_parser name parser now s :
  supported_sentences !! name = Some parser →
  fix_time (snd (parser now s)) = fix_time s ∨
  fst (parser now s) = Ret true ∧ fix_time (snd (parser now s)) = now.
Proof.
  intros Hsup.
  destruct (supported_cases name parser Hsup) as [->|[->|[->|[->|[->| ->]]]]].
  - unfold gprmc. open_parser; simpl; auto.
  - unfold gpgga. open_parser; simpl; auto.
  - unfold gpgll. open_parser; simpl; auto.
  - unfold gpgsa. open_parser; simpl; auto.
  - unfold gpvtg. open_parser; simpl; auto.
  - unfold gpgsv. open_parser; simpl; auto.
Qed.

Lemma navigation_fix_time s s' :
  navigation s' = navigation s → fix_time s' = fix_time s.
Proof. unfold navigation. intros H. by simplify_eq. Qed.

(** X11. [fix_time] is the clock reading of the last call that stored a
    fix: a call of [update] that changes it sets it to the reading of
    that call and returns a sentence type. *)
Theorem fix_time_is_last_fix now c self :
  fix_time (snd (update now c self)) ≠ fix_time self →
  fix_time (snd (update now c self)) = now ∧
  ∃ name, fst (update now c self) = Ret (Some name).
Proof.
  destruct (update now c self) as [r s'] eqn:E. cbn [fst snd]. intros Hne.
  apply update_dispatch in E
    as [[Hn _]|(s1 & name & parser & r1 & s2 & Hn1 & Hg & Hname & Hsup
                & Hp & Hn2 & Hr)].
  { by apply navigation_fix_time in Hn. }
  apply navigation_fix_time in Hn1, Hn2.
  destruct (fix_time_parser name parser now s1 Hsup) as [H|[Ht H]];
    rewrite Hp in *; cbn [fst snd] in *.
  - congruence.
  - subst r1. split; [congruence|]. eauto.
Qed.

(** ** What each sentence type can change *)

Lemma outside_rmc_gprmc now s : outside_rmc (snd (gprmc now s)) = outside_rmc s.
Proof. unfold gprmc. open_parser; reflexivity. Qed.

Lemma outside_gll_gpgll now s : outside_gll (snd (gpgll now s)) = outside_gll s.
Proof. unfold gpgll. open_parser; reflexivity. Qed.

Lemma outside_vtg_gpvtg s : outside_vtg (snd (gpvtg s)) = outside_vtg s.
Proof. unfold gpvtg. open_parser; reflexivity. Qed.

Lemma outside_gga_gpgga now s : outside_gga (snd (gpgga now s)) = outside_gga s.
Proof. unfold gpgga. open_parser; reflexivity. Qed.

Lemma outside_gsa_gpgsa now s : outside_gsa (snd (gpgsa now s)) = outside_gsa s.
Proof. unfold gpgsa. open_parser; reflexivity. Qed.

Lemma outside_gsv_gpgsv s : outside_gsv (snd (gpgsv s)) = outside_gsv s.
Proof. unfold gpgsv. open_parser; reflexivity. Qed.

Lemma navigation_outside s s' :
  navigation s' = navigation s →
  outside_rmc s' = outside_rmc s ∧ outside_gll s' = outside_gll s ∧
  outside_vtg s' = outside_vtg s ∧ outside_gga s' = outside_gga s ∧
  outside_gsa s' = outside_gsa s ∧ outside_gsv s' = outside_gsv s.
Proof.
  unfold navigation, outside_rmc, outside_gll, outside_vtg, outside_gga,
    outside_gsa, outside_gsv, sky.
  intros H. simplify_eq. unfold outside_rmc, sky. repeat split; congruence.
Qed.

(** X12. Each sentence type has its own attributes.  Whichever way a call
    of [update] ends, with the sentence in [gps_segments] being of a type:
    RMC leaves alone altitude, geoid height, satellites in use and used,
    the three DOPs, fix status and type and the GSV data; GLL these and
    date, speed and course; VTG everything but speed and course; GGA
    leaves alone date, speed, course, satellites used, PDOP, VDOP, the
    valid flag, the fix type and the GSV data; GSA everything but fix
    type, fix time, satellites used and the three DOPs; GSV everything
    but the GSV data. *)
Theorem decoder_footprint now c self name :
  gps_segments (snd (update now c self)) !! 0%nat = Some name →
  let self' := snd (update now c self) in
  (name ∈ RMC → outside_rmc self' = outside_rmc self) ∧
  (name ∈ GLL → outside_gll self' = outside_gll self) ∧
  (name ∈ VTG → outside_vtg self' = outside_vtg self) ∧
  (name ∈ GGA → outside_gga self' = outside_gga self) ∧
  (name ∈ GSA → outside_gsa self' = outside_gsa self) ∧
  (name ∈ GSV → outside_gsv self' = outside_gsv self).
Proof.
  destruct (update now c self) as [r s'] eqn:E. cbn [snd]. intros Hname.
  apply update_dispatch in E
    as [[Hn _]|(s1 & name' & parser & r1 & s2 & Hn1 & Hg & Hname' & Hsup
                & Hp & Hn2 & Hr)].
  { destruct (navigation_outside _ _ Hn) as (?&?&?&?&?&?). by repeat split. }
  assert (name' = name) as -> by congruence.
  destruct (navigation_outside _ _ Hn1) as (R1 & L1 & V1 & G1 & A1 & S1).
  destruct (navigation_outside _ _ Hn2) as (R2 & L2 & V2 & G2 & A2 & S2).
  assert (Hs2 : s2 = snd (parser now s1)) by (by rewrite Hp).
  repeat split; intros Hin.
  - rewrite (parser_of_RMC _ _ Hin Hsup) in Hs2.
    rewrite R2, Hs2, outside_rmc_gprmc. exact R1.
  - rewrite (parser_of_GLL _ _ Hin Hsup) in Hs2.
    rewrite L2, Hs2, outside_gll_gpgll. exact L1.
  - rewrite (parser_of_VTG _ _ Hin Hsup) in Hs2.
    rewrite V2, Hs2, outside_vtg_gpvtg. exact V1.
  - rewrite (parser_of_GGA _ _ Hin Hsup) in Hs2.
    rewrite G2, Hs2, outside_gga_gpgga. exact G1.
  - rewrite (parser_of_GSA _ _ Hin Hsup) in Hs2.
    rewrite A2, Hs2, outside_gsa_gpgsa. exact A1.
  - rewrite (parser_of_GSV _ _ Hin Hsup) in Hs2.
    rewrite S2, Hs2, outside_gsv_gpgsv. exact S1.
Qed.

(** ** What a reported sentence stored *)

Lemma update_reported now c s name s' :
  update now c s = (Ret (Some name), s') →
  ∃ s1 parser s2,
    navigation s1 = navigation s ∧ gps_segments s1 = gps_segments s' ∧
    supported_sentences !! name = Some parser ∧
    parser now s1 = (Ret true, s2) ∧ navigation s' = navigation s2.
Proof.
  intros H.
  apply update_dispatch in H
    as [[_ [Hr|[e Hr]]]|(s1 & name' & parser & r1 & s2 & Hn1 & Hg & Hname'
                        & Hsup & Hp & Hn2 & Hr)]; try discriminate.
  destruct r1 as [[]|e]; try discriminate.
  injection Hr as ->. exists s1, parser, s2. by repeat split.
Qed.

Lemma parse_time_segments u s :
  gps_segments (snd (__parse_time u s)) = gps_segments s.
Proof.
  destruct (__parse_time u s) as [r s1] eqn:E.
  by apply parse_time_frame in E as [->|[ts ->]].
Qed.

Lemma segment_same s s' i :
  gps_segments s' = gps_segments s → segment s' i = segment s i.
Proof. unfold segment. by intros ->. Qed.

Lemma gprmc_valid now s s' flag :
  gprmc now s = (Ret true, s') →
  gps_segments s !! 2%nat = Some flag →
  valid s' = String.eqb flag "A" ∧
  (String.eqb flag "A" = true → fix_time s' = now).
Proof.
  unfold gprmc. intros H Hflag.
  destruct (segment s 1) as [u|[]]; try discriminate.
  pose proof (parse_time_segments u s) as Hg.
  destruct (__parse_time u s) as [[[]|e] s1]; try discriminate.
  cbn [snd] in Hg.
  destruct (rmc_date s1) as [d|]; try discriminate.
  assert (Hseg : segment (set_date d s1) 2 = Ret flag)
    by (unfold segment; cbn [gps_segments set_date]; by rewrite Hg, Hflag).
  rewrite Hseg in H.
  destruct (String.eqb flag "A").
  - repeat case_match; simplify_eq; done.
  - by injection H as <-.
Qed.

Lemma gpgll_valid now s s' flag :
  gpgll now s = (Ret true, s') →
  gps_segments s !! 6%nat = Some flag →
  valid s' = String.eqb flag "A" ∧
  (String.eqb flag "A" = true → fix_time s' = now).
Proof.
  unfold gpgll. intros H Hflag.
  destruct (segment s 5) as [u|[]]; try discriminate.
  pose proof (parse_time_segments u s) as Hg.
  destruct (__parse_time u s) as [[[]|e] s1]; try discriminate.
  cbn [snd] in Hg.
  assert (Hseg : segment s1 6 = Ret flag)
    by (unfold segment; by rewrite Hg, Hflag).
  rewrite Hseg in H.
  destruct (String.eqb flag "A").
  - repeat case_match; simplify_eq; done.
  - by injection H as <-.
Qed.

Lemma navigation_valid s s' :
  navigation s' = navigation s → valid s' = valid s ∧ fix_time s' = fix_time s.
Proof. unfold navigation. intros H. by simplify_eq. Qed.

(** X13. After [update] has returned an RMC or a GLL sentence type,
    [valid] tells whether the data-valid flag of that sentence (field 2
    of RMC, field 6 of GLL) is the letter A, and when it is, [fix_time]
    is the clock reading of that call. *)
Theorem valid_reflects_flag now c self self' name flag :
  update now c self = (Ret (Some name), self') →
  name ∈ RMC ∧ gps_segments self' !! 2%nat = Some flag ∨
  name ∈ GLL ∧ gps_segments self' !! 6%nat = Some flag →
  valid self' = String.eqb flag "A" ∧
  (String.eqb flag "A" = true → fix_time self' = now).
Proof.
  intros H Hflag.
  apply update_reported in H
    as (s1 & parser & s2 & Hn1 & Hg & Hsup & Hp & Hn2).
  apply navigation_valid in Hn2 as [-> ->].
  rewrite <- Hg in Hflag.
  destruct Hflag as [[Hin Hflag]|[Hin Hflag]].
  - rewrite (parser_of_RMC _ _ Hin Hsup) in Hp.
    exact (gprmc_valid _ _ _ _ Hp Hflag).
  - rewrite (parser_of_GLL _ _ Hin Hsup) in Hp.
    exact (gpgll_valid _ _ _ _ Hp Hflag).
Qed.

Lemma gpgsv_header s s' a b v n k siv :
  gpgsv s = (Ret true, s') →
  gps_segments s !! 1%nat = Some a → PyNum.int a = Ret n →
  gps_segments s !! 2%nat = Some b → PyNum.int b = Ret k →
  gps_segments s !! 3%nat = Some v → PyNum.int v = Ret siv →
  total_sv_sentences s' = n ∧ last_sv_sentence s' = k ∧
  satellites_in_view s' = siv.
Proof.
  unfold gpgsv, gsv_header, segment. intros H Ha Hn Hb Hk Hv Hsiv.
  rewrite Ha, Hb, Hv in H. cbn [mbind outcome_bind] in H.
  rewrite Hn, Hk, Hsiv in H. cbn [mbind outcome_bind mret outcome_ret] in H.
  repeat case_match; simplify_eq; done.
Qed.

Lemma navigation_sky s s' : navigation s' = navigation s → sky s' = sky s.
Proof. unfold navigation, sky. intros H. simplify_eq. congruence. Qed.

(** X14. After [update] has returned a GSV sentence type, the three
    counts of the sentence are stored: [total_sv_sentences] is field 1,
    [last_sv_sentence] field 2 and [satellites_in_view] field 3, so that
    [satellite_data_updated] is true exactly when the sentence was the
    last of its group; [unset_satellite_data_updated] then makes it
    false. *)
Theorem gsv_group_status now c self self' name a b v n k siv :
  update now c self = (Ret (Some name), self') →
  name ∈ GSV →
  gps_segments self' !! 1%nat = Some a → PyNum.int a = Ret n →
  gps_segments self' !! 2%nat = Some b → PyNum.int b = Ret k →
  gps_segments self' !! 3%nat = Some v → PyNum.int v = Ret siv →
  total_sv_sentences self' = n ∧ last_sv_sentence self' = k ∧
  satellites_in_view self' = siv ∧
  satellite_data_updated self' = (0 <? n) && (n =? k) ∧
  satellite_data_updated (unset_satellite_data_updated self') = false.
Proof.
  intros H Hin Ha Hn Hb Hk Hv Hsiv.
  apply update_reported in H
    as (s1 & parser & s2 & Hn1 & Hg & Hsup & Hp & Hn2).
  rewrite (parser_of_GSV _ _ Hin Hsup) in Hp. rewrite <- Hg in Ha, Hb, Hv.
  destruct (gpgsv_header _ _ _ _ _ _ _ _ Hp Ha Hn Hb Hk Hv Hsiv)
    as (Ht & Hl & Hs).
  apply navigation_sky in Hn2. unfold sky in Hn2.
  injection Hn2 as Hs' Hl' Ht' _.
  unfold satellite_data_updated, unset_satellite_data_updated. simpl.
  rewrite Ht', Hl', Hs', Ht, Hl, Hs. repeat split.
  destruct (0 <? n) eqn:E; [|done]. simpl.
  apply Z.ltb_lt in E. apply Z.eqb_neq. lia.
Qed.

Lemma gpgga_fix now s s' s6 s7 stat n :
  gpgga now s = (Ret true, s') →
  gps_segments s !! 6%nat = Some s6 → PyNum.int s6 = Ret stat →
  gps_segments s !! 7%nat = Some s7 → PyNum.int s7 = Ret n →
  fix_stat s' = stat ∧ satellites_in_use s' = n ∧
  (stat = 0 →
   (_latitude s', _longitude s', altitude s', geoid_height s', fix_time s')
   = (_latitude s, _longitude s, altitude s, geoid_height s, fix_time s)) ∧
  (stat ≠ 0 → fix_time s' = now).
Proof.
  unfold gpgga. intros H H6 Hstat H7 Hn.
  destruct (segment s 1) as [u|[]]; try discriminate.
  destruct (__parse_time u s) as [[[]|e] s1] eqn:E1; try discriminate.
  assert (Hs1 : gps_segments s1 = gps_segments s ∧
                (_latitude s1, _longitude s1, altitude s1, geoid_height s1,
                 fix_time s1)
                = (_latitude s, _longitude s, altitude s, geoid_height s,
                   fix_time s))
    by (by apply parse_time_frame in E1 as [->|[ts ->]]).
  destruct Hs1 as [Hg Hpos].
  rewrite !(segment_same s s1 _ Hg) in H.
  unfold segment in H at 1 2. rewrite H7, H6 in H.
  cbn [mbind outcome_bind] in H. rewrite Hn, Hstat in H.
  cbn [mbind outcome_bind mret outcome_ret] in H.
  destruct (stat =? 0) eqn:E0; cbn [negb] in H.
  - apply Z.eqb_eq in E0. injection H as <-. simpl.
    repeat split; try done; intros ?; by rewrite <- Hpos.
  - apply Z.eqb_neq in E0.
    repeat case_match; simplify_eq; simpl; repeat split; try done.
Qed.

Lemma navigation_fix s s' :
  navigation s' = navigation s →
  fix_stat s' = fix_stat s ∧ satellites_in_use s' = satellites_in_use s ∧
  (_latitude s', _longitude s', altitude s', geoid_height s', fix_time s')
  = (_latitude s, _longitude s, altitude s, geoid_height s, fix_time s).
Proof. unfold navigation. intros H. simplify_eq. repeat split; congruence. Qed.

(** X15. After [update] has returned a GGA sentence type, [fix_stat] is
    the fix quality of the sentence (field 6) and [satellites_in_use] its
    field 7.  With fix quality 0 the call has left latitude, longitude,
    altitude, geoid height and fix time as they were; otherwise
    [fix_time] is the clock reading of the call. *)
Theorem gga_fix_quality now c self self' name s6 s7 stat n :
  update now c self = (Ret (Some name), self') →
  name ∈ GGA →
  gps_segments self' !! 6%nat = Some s6 → PyNum.int s6 = Ret stat →
  gps_segments self' !! 7%nat = Some s7 → PyNum.int s7 = Ret n →
  fix_stat self' = stat ∧ satellites_in_use self' = n ∧
  (stat = 0 →
   (_latitude self', _longitude self', altitude self', geoid_height self',
    fix_time self')
   = (_latitude self, _longitude self, altitude self, geoid_height self,
      fix_time self)) ∧
  (stat ≠ 0 → fix_time self' = now).
Proof.
  intros H Hin H6 Hstat H7 Hn.
  apply update_reported in H
    as (s1 & parser & s2 & Hn1 & Hg & Hsup & Hp & Hn2).
  rewrite (parser_of_GGA _ _ Hin Hsup) in Hp. rewrite <- Hg in H6, H7.
  destruct (gpgga_fix _ _ _ _ _ _ _ Hp H6 Hstat H7 Hn) as (Hs & Hu & H0 & H1).
  apply navigation_fix in Hn1 as (_ & _ & Hpos1).
  apply navigation_fix in Hn2 as (Hs2 & Hu2 & Hpos2).
  split; [congruence|]. split; [congruence|]. split.
  - intros Hz. rewrite Hpos2, (H0 Hz). exact Hpos1.
  - intros Hz. injection Hpos2 as _ _ _ _ ->. by apply H1.
Qed.

Lemma gpvtg_values s s' a b :
  gpvtg s = (Ret true, s') →
  gps_segments s !! 1%nat = Some a → gps_segments s !! 5%nat = Some b →
  (if PyStr.truthy a then PyNum.float a else Ret PyNum.f0_0) = Ret (course s') ∧
  (if PyStr.truthy b then PyNum.float b else Ret PyNum.f0_0) = Ret (speed s').
Proof.
  unfold gpvtg, segment. intros H Ha Hb. rewrite Ha, Hb in H.
  cbn [mbind outcome_bind] in H.
  destruct (if PyStr.truthy a then PyNum.float a else mret PyNum.f0_0)
    as [crs|] eqn:Ec; cbn [mbind outcome_bind] in H; [|discriminate].
  destruct (if PyStr.truthy b then PyNum.float b else mret PyNum.f0_0)
    as [spd|] eqn:Es; cbn [mbind outcome_bind mret outcome_ret] in H;
    [|discriminate].
  injection H as <-. simpl. by split.
Qed.

Lemma navigation_motion s s' :
  navigation s' = navigation s → course s' = course s ∧ speed s' = speed s.
Proof. unfold navigation. intros H. by simplify_eq. Qed.

(** X16. After [update] has returned a VTG sentence type, [course] is
    the number that [float] reads in field 1 and [speed], in knots, the
    one it reads in field 5, each 0.0 when the field is empty. *)
Theorem vtg_course_and_speed now c self self' name a b :
  update now c self = (Ret (Some name), self') →
  name ∈ VTG →
  gps_segments self' !! 1%nat = Some a →
  gps_segments self' !! 5%nat = Some b →
  (if PyStr.truthy a then PyNum.float a else Ret PyNum.f0_0)
    = Ret (course self') ∧
  (if PyStr.truthy b then PyNum.float b else Ret PyNum.f0_0)
    = Ret (speed self').
Proof.
  intros H Hin Ha Hb.
  apply update_reported in H
    as (s1 & parser & s2 & Hn1 & Hg & Hsup & Hp & Hn2).
  rewrite (parser_of_VTG _ _ Hin Hsup) in Hp. rewrite <- Hg in Ha, Hb.
  apply navigation_motion in Hn2 as [-> ->].
  exact (gpvtg_values _ _ _ _ Hp Ha Hb).
Qed.

(** ** The satellites used in the fix *)

Lemma gsa_sats_spec s idxs : ∀ acc l,
  gsa_sats s idxs acc = Ret (Some l) →
  ∃ taken,
    l = acc ++ taken ∧ (length taken ≤ length idxs)%nat ∧
    (∀ j v, taken !! j = Some v →
       ∃ i str, idxs !! j = Some i ∧ gps_segments s !! (3 + i)%nat = Some str ∧
                str ≠ "" ∧ PyNum.int str = Ret v) ∧
    (∀ i, idxs !! length taken = Some i →
       gps_segments s !! (3 + i)%nat = Some "").
Proof.
  induction idxs as [|i rest IH]; intros acc l H; cbn [gsa_sats] in H.
  - injection H as <-. exists []. rewrite app_nil_r.
    repeat split; [done|intros ? ? [=]|intros ? [=]].
  - unfold segment in H.
    destruct (gps_segments s !! (3 + i)%nat) as [str|] eqn:Hstr;
      [|discriminate].
    destruct str as [|ch str'].
    + cbn [PyStr.truthy] in H. injection H as <-. exists []. rewrite app_nil_r.
      repeat split; [simpl; lia|intros ? ? [=]|].
      intros i' [= <-]. exact Hstr.
    + cbn [PyStr.truthy] in H.
      destruct (PyNum.int (String ch str')) as [v|[]] eqn:Hint;
        try discriminate.
      apply IH in H as (taken & -> & Hlen & Hall & Hend).
      exists (v :: taken). rewrite <- app_assoc.
      split; [done|]. split; [simpl; lia|]. split.
      * intros [|j] w Hj; simpl in Hj.
        -- injection Hj as <-. exists i, (String ch str'). by repeat split.
        -- exact (Hall j w Hj).
      * intros i' Hi'. exact (Hend i' Hi').
Qed.

Lemma gpgsa_used now s s' :
  gpgsa now s = (Ret true, s') →
  ∃ l, gsa_sats s (seq 0 12) [] = Ret (Some l) ∧ satellites_used s' = l.
Proof.
  unfold gpgsa. intros H.
  destruct (gsa_sats s (seq 0 12) []) as [[l|]|e]; 
    repeat case_match; simplify_eq; eauto.
Qed.

Lemma navigation_used s s' :
  navigation s' = navigation s → satellites_used s' = satellites_used s.
Proof. unfold navigation. intros H. by simplify_eq. Qed.

(** X17. After [update] has returned a GSA sentence type,
    [satellites_used] lists the satellite numbers of the sentence in
    order: its entries are what [int] reads in fields 3, 4, ... up to
    the first empty one, and there are at most 12 of them. *)
Theorem gsa_satellites_used now c self self' name :
  update now c self = (Ret (Some name), self') →
  name ∈ GSA →
  let used := satellites_used self' in
  (length used ≤ 12)%nat ∧
  (∀ j v, used !! j = Some v →
     ∃ str, gps_segments self' !! (3 + j)%nat = Some str ∧ str ≠ "" ∧
            PyNum.int str = Ret v) ∧
  ((length used < 12)%nat →
   gps_segments self' !! (3 + length used)%nat = Some "").
Proof.
  intros H Hin.
  apply update_reported in H
    as (s1 & parser & s2 & Hn1 & Hg & Hsup & Hp & Hn2).
  rewrite (parser_of_GSA _ _ Hin Hsup) in Hp.
  apply gpgsa_used in Hp as (l & Hl & Hu).
  apply navigation_used in Hn2. cbv zeta. rewrite Hn2, Hu, <- Hg.
  apply gsa_sats_spec in Hl as (taken & -> & Hlen & Hall & Hend).
  rewrite length_seq in Hlen. simpl.
  split; [done|]. split.
  - intros j v Hj. destruct (Hall j v Hj) as (i & str & Hi & Hstr & Hne & Hint).
    apply lookup_seq in Hi as [-> _]. eauto.
  - intros Hlt. apply Hend. apply lookup_seq. split; [done|lia].
Qed.

(** ** Instances on sentences of each type *)

Lemma rejected_sentence_leaves_no_trace_witness :
  let self := all_but_last vtg_rejected in
  let self' := snd (update 7 (final_char vtg_rejected) self) in
  update 7 (final_char vtg_rejected) self = (Ret None, self') ∧
  gps_segments self' !! 0%nat = Some "GPVTG" ∧
  "GPVTG" ∈ VTG ++ GSA ++ GSV ∧
  navigation self' = navigation self.
Proof.
  intros self self'.
  assert (H : update 7 (final_char vtg_rejected) self = (Ret None, self'))
    by (vm_compute; reflexivity).
  assert (Hname : gps_segments self' !! 0%nat = Some "GPVTG")
    by (vm_compute; reflexivity).
  assert (Hin : "GPVTG" ∈ VTG ++ GSA ++ GSV) by (simpl; constructor).
  split; [exact H|]. split; [exact Hname|]. split; [exact Hin|].
  exact (rejected_sentence_leaves_no_trace 7 (final_char vtg_rejected) self self'
           "GPVTG" H Hname Hin).
Defined.

Lemma fix_time_is_last_fix_witness :
  let self := all_but_last rmc_sentence in
  let c := final_char rmc_sentence in
  fix_time (snd (update 7 c self)) ≠ fix_time self ∧
  fix_time (snd (update 7 c self)) = 7 ∧
  ∃ name, fst (update 7 c self) = Ret (Some name).
Proof.
  intros self c.
  assert (H : fix_time (snd (update 7 c self)) ≠ fix_time self)
    by (vm_compute; discriminate).
  split; [exact H|]. exact (fix_time_is_last_fix 7 c self H).
Defined.

Lemma decoder_footprint_witness :
  let self := all_but_last rmc_sentence in
  let self' := snd (update 7 (final_char rmc_sentence) self) in
  gps_segments self' !! 0%nat = Some "GPRMC" ∧
  ("GPRMC" ∈ RMC → outside_rmc self' = outside_rmc self) ∧
  ("GPRMC" ∈ GLL → outside_gll self' = outside_gll self) ∧
  ("GPRMC" ∈ VTG → outside_vtg self' = outside_vtg self) ∧
  ("GPRMC" ∈ GGA → outside_gga self' = outside_gga self) ∧
  ("GPRMC" ∈ GSA → outside_gsa self' = outside_gsa self) ∧
  ("GPRMC" ∈ GSV → outside_gsv self' = outside_gsv self).
Proof.
  intros self self'.
  assert (H : gps_segments self' !! 0%nat = Some "GPRMC")
    by (vm_compute; reflexivity).
  split; [exact H|].
  exact (decoder_footprint 7 (final_char rmc_sentence) self "GPRMC" H).
Defined.

Lemma valid_reflects_flag_witness :
  let self := all_but_last rmc_sentence in
  let self' := snd (update 7 (final_char rmc_sentence) self) in
  update 7 (final_char rmc_sentence) self = (Ret (Some "GPRMC"), self') ∧
  ("GPRMC" ∈ RMC ∧ gps_segments self' !! 2%nat = Some "A" ∨
   "GPRMC" ∈ GLL ∧ gps_segments self' !! 6%nat = Some "A") ∧
  valid self' = String.eqb "A" "A" ∧
  (String.eqb "A" "A" = true → fix_time self' = 7).
Proof.
  intros self self'.
  assert (H : update 7 (final_char rmc_sentence) self
              = (Ret (Some "GPRMC"), self'))
    by (vm_compute; reflexivity).
  assert (Hflag : "GPRMC" ∈ RMC ∧ gps_segments self' !! 2%nat = Some "A" ∨
                  "GPRMC" ∈ GLL ∧ gps_segments self' !! 6%nat = Some "A")
    by (left; split; [constructor|vm_compute; reflexivity]).
  split; [exact H|]. split; [exact Hflag|].
  exact (valid_reflects_flag 7 (final_char rmc_sentence) self self' "GPRMC" "A"
           H Hflag).
Defined.

Lemma gsv_group_status_witness :
  let self := all_but_last gsv_sentence in
  let self' := snd (update 7 (final_char gsv_sentence) self) in
  update 7 (final_char gsv_sentence) self = (Ret (Some "GPGSV"), self') ∧
  "GPGSV" ∈ GSV ∧
  gps_segments self' !! 1%nat = Some "3" ∧ PyNum.int "3" = Ret 3 ∧
  gps_segments self' !! 2%nat = Some "1" ∧ PyNum.int "1" = Ret 1 ∧
  gps_segments self' !! 3%nat = Some "11" ∧ PyNum.int "11" = Ret 11 ∧
  total_sv_sentences self' = 3 ∧ last_sv_sentence self' = 1 ∧
  satellites_in_view self' = 11 ∧
  satellite_data_updated self' = (0 <? 3) && (3 =? 1) ∧
  satellite_data_updated (unset_satellite_data_updated self') = false.
Proof.
  intros self self'.
  assert (H : update 7 (final_char gsv_sentence) self
              = (Ret (Some "GPGSV"), self'))
    by (vm_compute; reflexivity).
  assert (Hin : "GPGSV" ∈ GSV) by constructor.
  assert (H1 : gps_segments self' !! 1%nat = Some "3")
    by (vm_compute; reflexivity).
  assert (Hn : PyNum.int "3" = Ret 3) by reflexivity.
  assert (H2 : gps_segments self' !! 2%nat = Some "1")
    by (vm_compute; reflexivity).
  assert (Hk : PyNum.int "1" = Ret 1) by reflexivity.
  assert (H3 : gps_segments self' !! 3%nat = Some "11")
    by (vm_compute; reflexivity).
  assert (Hv : PyNum.int "11" = Ret 11) by reflexivity.
  repeat (split; [assumption|]).
  exact (gsv_group_status 7 (final_char gsv_sentence) self self' "GPGSV"
           "3" "1" "11" 3 1 11 H Hin H1 Hn H2 Hk H3 Hv).
Defined.

Lemma gga_fix_quality_witness :
  let self := all_but_last gga_sentence in
  let self' := snd (update 7 (final_char gga_sentence) self) in
  update 7 (final_char gga_sentence) self = (Ret (Some "GPGGA"), self') ∧
  "GPGGA" ∈ GGA ∧
  gps_segments self' !! 6%nat = Some "1" ∧ PyNum.int "1" = Ret 1 ∧
  gps_segments self' !! 7%nat = Some "08" ∧ PyNum.int "08" = Ret 8 ∧
  fix_stat self' = 1 ∧ satellites_in_use self' = 8 ∧
  (1 = 0 →
   (_latitude self', _longitude self', altitude self', geoid_height self',
    fix_time self')
   = (_latitude self, _longitude self, altitude self, geoid_height self,
      fix_time self)) ∧
  (1 ≠ 0 → fix_time self' = 7).
Proof.
  intros self self'.
  assert (H : update 7 (final_char gga_sentence) self
              = (Ret (Some "GPGGA"), self'))
    by (vm_compute; reflexivity).
  assert (Hin : "GPGGA" ∈ GGA) by constructor.
  assert (H6 : gps_segments self' !! 6%nat = Some "1")
    by (vm_compute; reflexivity).
  assert (Hs : PyNum.int "1" = Ret 1) by reflexivity.
  assert (H7 : gps_segments self' !! 7%nat = Some "08")
    by (vm_compute; reflexivity).
  assert (Hn : PyNum.int "08" = Ret 8) by reflexivity.
  repeat (split; [assumption|]).
  exact (gga_fix_quality 7 (final_char gga_sentence) self self' "GPGGA"
           "1" "08" 1 8 H Hin H6 Hs H7 Hn).
Defined.

Lemma vtg_course_and_speed_witness :
  let self := all_but_last vtg_sentence in
  let self' := snd (update 7 (final_char vtg_sentence) self) in
  update 7 (final_char vtg_sentence) self = (Ret (Some "GPVTG"), self') ∧
  "GPVTG" ∈ VTG ∧
  gps_segments self' !! 1%nat = Some "054.7" ∧
  gps_segments self' !! 5%nat = Some "005.5" ∧
  (if PyStr.truthy "054.7" then PyNum.float "054.7" else Ret PyNum.f0_0)
    = Ret (course self') ∧
  (if PyStr.truthy "005.5" then PyNum.float "005.5" else Ret PyNum.f0_0)
    = Ret (speed self').
Proof.
  intros self self'.
  assert (H : update 7 (final_char vtg_sentence) self
              = (Ret (Some "GPVTG"), self'))
    by (vm_compute; reflexivity).
  assert (Hin : "GPVTG" ∈ VTG) by constructor.
  assert (H1 : gps_segments self' !! 1%nat = Some "054.7")
    by (vm_compute; reflexivity).
  assert (H5 : gps_segments self' !! 5%nat = Some "005.5")
    by (vm_compute; reflexivity).
  repeat (split; [assumption|]).
  exact (vtg_course_and_speed 7 (final_char vtg_sentence) self self' "GPVTG"
           "054.7" "005.5" H Hin H1 H5).
Defined.

Lemma gsa_satellites_used_witness :
  let self := all_but_last gsa_sentence in
  let self' := snd (update 7 (final_char gsa_sentence) self) in
  update 7 (final_char gsa_sentence) self = (Ret (Some "GPGSA"), self') ∧
  "GPGSA" ∈ GSA ∧
  satellites_used self' = [4; 5] ∧
  (length (satellites_used self') ≤ 12)%nat ∧
  (∀ j v, satellites_used self' !! j = Some v →
     ∃ str, gps_segments self' !! (3 + j)%nat = Some str ∧ str ≠ "" ∧
            PyNum.int str = Ret v) ∧
  ((length (satellites_used self') < 12)%nat →
   gps_segments self' !! (3 + length (satellites_used self'))%nat = Some "").
Proof.
  intros self self'.
  assert (H : update 7 (final_char gsa_sentence) self
              = (Ret (Some "GPGSA"), self'))
    by (vm_compute; reflexivity).
  assert (Hin : "GPGSA" ∈ GSA) by constructor.
  split; [exact H|]. split; [exact Hin|].
  split; [vm_compute; reflexivity|].
  exact (gsa_satellites_used 7 (final_char gsa_sentence) self self' "GPGSA"
           H Hin).
Defined.

(** ** The date, from the RMC field to [date_string] *)

Lemma int_two_digits a b :
  (a < 10)%nat → (b < 10)%nat →
  PyNum.int (two_digits a b) = Ret (Z.of_nat (10 * a + b)).
Proof.
  intros Ha Hb.
  destruct a as [|[|[|[|[|[|[|[|[|[|a]]]]]]]]]]; try lia;
    destruct b as [|[|[|[|[|[|[|[|[|[|b]]]]]]]]]]; try lia; reflexivity.
Qed.

Lemma fmt_02d_two_digits a b :
  (a < 10)%nat → (b < 10)%nat →
  PyFmt.fmt_02d (Z.of_nat (10 * a + b)) = two_digits a b.
Proof.
  intros Ha Hb.
  destruct a as [|[|[|[|[|[|[|[|[|[|a]]]]]]]]]]; try lia;
    destruct b as [|[|[|[|[|[|[|[|[|[|b]]]]]]]]]]; try lia; reflexivity.
Qed.

Lemma gprmc_date now s s' ds d m y :
  gprmc now s = (Ret true, s') →
  gps_segments s !! 9%nat = Some ds → PyStr.truthy ds = true →
  PyNum.int (PyStr.slice 0 2 ds) = Ret d →
  PyNum.int (PyStr.slice 2 4 ds) = Ret m →
  PyNum.int (PyStr.slice 4 6 ds) = Ret y →
  date s' = (d, m, y).
Proof.
  unfold gprmc. intros H Hds Ht Hd Hm Hy.
  destruct (segment s 1) as [u|[]]; try discriminate.
  pose proof (parse_time_segments u s) as Hg.
  destruct (__parse_time u s) as [[[]|e] s1]; try discriminate.
  cbn [snd] in Hg.
  assert (Hdate : rmc_date s1 = Ret (d, m, y)).
  { unfold rmc_date, segment. rewrite Hg, Hds. cbn [mbind outcome_bind].
    rewrite Ht, Hd, Hm, Hy. reflexivity. }
  rewrite Hdate in H.
  repeat case_match; simplify_eq; try reflexivity.
  match goal with
  | E : __parse_lat_lon _ _ _ = _ |- _ =>
      apply parse_lat_lon_frame in E as [->|(? & ? & _ & _ & ->)]
  end; reflexivity.
Qed.

Lemma navigation_date s s' : navigation s' = navigation s → date s' = date s.
Proof. unfold navigation. intros H. by simplify_eq. Qed.

(** X18. The date of an RMC sentence comes back as it was sent: after
    [update] has returned an RMC sentence type whose date field (field 9)
    is six decimal digits [ddmmyy], [date_string] gives [dd/mm/CCyy] in
    the format [s_dmy] and [mm/dd/CCyy] in the default format, [CC]
    being the century string. *)
Theorem rmc_date_round_trip now c self self' name century d1 d2 m1 m2 y1 y2 :
  update now c self = (Ret (Some name), self') →
  name ∈ RMC →
  (d1 < 10 ∧ d2 < 10 ∧ m1 < 10 ∧ m2 < 10 ∧ y1 < 10 ∧ y2 < 10)%nat →
  gps_segments self' !! 9%nat
    = Some (two_digits d1 d2 +:+ two_digits m1 m2 +:+ two_digits y1 y2) →
  date_string "s_dmy" century self'
    = Ret (two_digits d1 d2 +:+ "/" +:+ two_digits m1 m2 +:+ "/" +:+
           century +:+ two_digits y1 y2) ∧
  date_string "s_mdy" century self'
    = Ret (two_digits m1 m2 +:+ "/" +:+ two_digits d1 d2 +:+ "/" +:+
           century +:+ two_digits y1 y2).
Proof.
  intros H Hin (Hd1 & Hd2 & Hm1 & Hm2 & Hy1 & Hy2) Hds.
  apply update_reported in H
    as (s1 & parser & s2 & Hn1 & Hg & Hsup & Hp & Hn2).
  rewrite (parser_of_RMC _ _ Hin Hsup) in Hp. rewrite <- Hg in Hds.
  apply navigation_date in Hn2.
  pose proof (gprmc_date _ _ _ _ _ _ _ Hp Hds eq_refl
                (int_two_digits d1 d2 Hd1 Hd2)
                (int_two_digits m1 m2 Hm1 Hm2)
                (int_two_digits y1 y2 Hy1 Hy2)) as Hdate.
  unfold date_string. rewrite Hn2, Hdate.
  cbn [String.eqb Ascii.eqb Bool.eqb].
  rewrite !fmt_02d_two_digits by done. done.
Qed.

Lemma tuple_index_months i :
  match tuple_index __MONTHS i with
  | Ret name => -12 ≤ i ≤ 11 ∧ __MONTHS !! Z.to_nat (i `mod` 12) = Some name
  | Raise e => e = IndexError ∧ (i < -12 ∨ 11 < i)
  end.
Proof.
  unfold tuple_index. change (Z.of_nat (length __MONTHS)) with 12.
  change (Z.opp 12) with (Zneg 12). cbv zeta.
  destruct (0 <=? i) eqn:E0.
  - apply Z.leb_le in E0.
    destruct (__MONTHS !! Z.to_nat i) as [name|] eqn:El.
    + assert (Hlt : (Z.to_nat i < 12)%nat)
        by (apply lookup_lt_Some in El; exact El).
      split; [lia|]. rewrite Z.mod_small by lia. exact El.
    + apply lookup_ge_None in El. change (length __MONTHS) with 12%nat in El.
      split; [done|lia].
  - apply Z.leb_gt in E0.
    destruct (-12 <=? i) eqn:E1.
    + apply Z.leb_le in E1.
      destruct (__MONTHS !! Z.to_nat (12 + i)) as [name|] eqn:El.
      * split; [lia|].
        replace (i `mod` 12) with (12 + i); [exact El|].
        apply (Z.mod_unique_pos i 12 (-1) (12 + i)); lia.
      * apply lookup_ge_None in El. change (length __MONTHS) with 12%nat in El.
        lia.
    + apply Z.leb_gt in E1. split; [done|lia].
Qed.

(** X19. The long format needs a month it can name: with the stored
    date [(d, m, y)], [date_string('long')] returns exactly when [m] is
    in -11..12 and raises [IndexError] otherwise.  The month named is
    the one numbered [m] for 1..12 and, the index being negative then,
    the one numbered [m + 12] for -11..0: an object that never saw a
    date says December.  The short formats never raise. *)
Theorem date_string_long_month century self :
  let m := snd (fst (date self)) in
  match date_string "long" century self with
  | Ret s =>
      -11 ≤ m ≤ 12 ∧
      ∃ name rest,
        __MONTHS !! Z.to_nat ((m - 1) `mod` 12) = Some name ∧
        s = name +:+ " " +:+ rest
  | Raise e => e = IndexError ∧ (m < -11 ∨ 12 < m)
  end ∧
  (∀ formatting, formatting ≠ "long" →
     ∃ s, date_string formatting century self = Ret s).
Proof.
  unfold date_string. destruct (date self) as [[d m] y]. cbn [fst snd].
  split.
  - cbn [String.eqb Ascii.eqb Bool.eqb].
    pose proof (tuple_index_months (m - 1)) as Hm.
    destruct (tuple_index __MONTHS (m - 1)) as [name|e];
      cbn [mbind outcome_bind mret outcome_ret].
    + destruct Hm as [Hr Hl]. split; [lia|].
      exists name. eexists. split; [exact Hl|reflexivity].
    + destruct Hm as [-> Hr]. split; [done|lia].
  - intros formatting Hne. apply String.eqb_neq in Hne. rewrite Hne.
    destruct (String.eqb formatting "s_dmy"); eauto.
Qed.

(** ** Characters that [update] does not look at *)

(** X20. Characters with a code outside 20..126 (carriage return and
    line feed among them) are invisible: a stream and the same stream
    without them, each remaining character with the clock reading it
    had, leave the same object behind, report the same sentence types
    in the same order, and raise alike. *)
Theorem dropped_characters_invisible clock chars self :
  let r := feed clock chars self in
  let r' := feed (keep_clock clock chars) (List.filter accepted chars) self in
  snd r = snd r' ∧
  match fst r, fst r' with
  | Ret events, Ret events' => reported events = reported events'
  | Raise e, Raise e' => e = e'
  | _, _ => False
  end.
Proof.
  revert clock self. induction chars as [|c rest IH]; intros clock self.
  { by simpl. }
  cbn [List.filter keep_clock]. destruct (accepted c) eqn:Hacc.
  - cbn [feed].
    destruct (update (clock 0%nat) c self) as [[e|x] s1]; [|by simpl].
    specialize (IH (λ i, clock (S i)) s1). cbv zeta in IH.
    destruct (feed (λ i, clock (S i)) rest s1) as [[es|x] s2],
      (feed (keep_clock (λ k, clock (S k)) rest) (List.filter accepted rest) s1)
        as [[es'|x'] s2']; cbn [fst snd] in *; destruct IH as [-> IH];
      try done.
    split; [done|]. unfold reported in *.
    destruct e; simpl; [f_equal|]; exact IH.
  - cbn [feed]. rewrite (update_dropped _ _ _ Hacc).
    specialize (IH (λ i, clock (S i)) self). cbv zeta in IH.
    destruct (feed (λ i, clock (S i)) rest self) as [[es|x] s2],
      (feed (keep_clock (λ k, clock (S k)) rest) (List.filter accepted rest) self)
        as [[es'|x'] s2']; cbn [fst snd] in *; destruct IH as [-> IH];
      try done.
Qed.

(** ** Sentences that are too long *)

Lemma update_overlong now c s :
  overlong s → c ≠ "$"%char →
  ∃ s', update now c s = (Ret None, s') ∧ overlong s' ∧
        navigation s' = navigation s ∧ statistics s' = statistics s.
Proof.
  intros Hov Hc. apply Ascii.eqb_neq in Hc. unfold update.
  destruct (_ && _); [|by exists s]. rewrite Hc.
  set (s0 := set_char_count _ s).
  change (sentence_active s0) with (sentence_active s).
  destruct (sentence_active s) eqn:Hact.
  2:{ exists s0. split; [done|]. split; [by left|done]. }
  destruct Hov as [Hov|(Hn & Hidx & Hcrc)]; [congruence|].
  destruct (Ascii.eqb c "*").
  { unfold __update_segment. cbn [active_segment gps_segments set_process_crc
      set_char_count s0]. rewrite bool_decide_eq_true_2 by lia.
    eexists. split; [reflexivity|]. split; [|done].
    right. simpl. rewrite length_app, length_insert. simpl.
    split; [lia|]. split; [lia|]. right. split; [done|lia]. }
  unfold store_char. destruct (Ascii.eqb c ",").
  - unfold __update_segment. cbn [active_segment gps_segments set_char_count s0].
    rewrite bool_decide_eq_true_2 by lia.
    unfold finish, char_limit. simpl.
    destruct (process_crc s) eqn:Hp; simpl;
      destruct (SENTENCE_LIMIT <? char_count s + 1) eqn:E;
      (eexists; split; [reflexivity|]; split; [|done]);
      try (by left); unfold SENTENCE_LIMIT in E; apply Z.ltb_ge in E.
    + right. simpl. rewrite length_app, length_insert. simpl.
      split; [lia|]. split; [lia|]. left. done.
    + destruct Hcrc as [?|[_ ?]]; [done|lia].
  - cbn [process_crc set_buf set_char_count s0 __buf].
    destruct (process_crc s) eqn:Hp; cbn [negb].
    + unfold finish, char_limit. simpl. rewrite Hp. simpl.
      destruct (SENTENCE_LIMIT <? char_count s + 1) eqn:E;
        (eexists; split; [reflexivity|]; split; [|done]);
        try (by left); unfold SENTENCE_LIMIT in E; apply Z.ltb_ge in E.
      right. simpl. split; [lia|]. split; [done|]. by left.
    + destruct Hcrc as [?|[Hbuf Hn']]; [done|]. rewrite Hbuf. simpl.
      rewrite Hp. unfold finish, char_limit. simpl.
      destruct (SENTENCE_LIMIT <? char_count s + 1) eqn:E;
        (eexists; split; [reflexivity|]; split; [|done]);
        try (by left); unfold SENTENCE_LIMIT in E; apply Z.ltb_ge in E.
      lia.
Qed.

Lemma feed_overlong chars : ∀ clock s,
  overlong s → Forall (λ c, c ≠ "$"%char) chars →
  ∃ s', feed clock chars s = (Ret (replicate (length chars) None), s') ∧
        navigation s' = navigation s ∧ statistics s' = statistics s.
Proof.
  induction chars as [|c rest IH]; intros clock s Hov Hall.
  { by exists s. }
  apply Forall_cons in Hall as [Hc Hall]. cbn [feed].
  destruct (update_overlong (clock 0%nat) c s Hov Hc) as (s1 & -> & Hov1 & Hn & Hst).
  destruct (IH (λ i, clock (S i)) s1 Hov1 Hall) as (s2 & -> & Hn2 & Hst2).
  exists s2. split; [done|]. split; congruence.
Qed.

(** X21. A sentence with a body of 89 characters or more is never
    parsed, whatever follows it up to the next [$], a correct checksum
    included: every call returns [None], and the navigation data and
    the counters are as before. *)
Theorem overlong_sentence_dropped clock body rest self :
  Forall (λ c, accepted c = true ∧ body_char c = true) body →
  (89 ≤ length body)%nat →
  Forall (λ c, c ≠ "$"%char) rest →
  let r := feed clock ("$"%char :: body ++ rest) self in
  fst r = Ret (replicate (S (length body + length rest)) None) ∧
  navigation (snd r) = navigation self ∧
  statistics (snd r) = statistics self.
Proof.
  intros Hall Hlen Hrest.
  rewrite <- (take_drop 89 body), <- app_assoc.
  set (b1 := take 89 body). set (tail := drop 89 body ++ rest).
  assert (Hb1 : length b1 = 89%nat) by (unfold b1; rewrite length_take; lia).
  assert (Hall1 : Forall (λ c, accepted c = true ∧ body_char c = true) b1)
    by (by apply Forall_take).
  assert (Htail : Forall (λ c, c ≠ "$"%char) tail).
  { apply Forall_app. split; [|done]. apply Forall_drop.
    eapply Forall_impl; [exact Hall|]. intros c [_ Hc].
    apply body_char_spec in Hc as [Hc _]. by apply Ascii.eqb_neq. }
  assert (Hlens : (S (length (b1 ++ drop 89 body) + length rest)
                   = 1 + (length b1 + length tail))%nat)
    by (unfold tail; rewrite !length_app; lia).
  rewrite Hlens. cbv zeta. cbn [feed]. rewrite update_dollar.
  set (s0 := new_sentence _).
  destruct (feed_body_fields b1 (λ i, clock (S i)) s0
              (new_sentence_collecting _) Hall1)
    as (s1 & Hf1 & Hcol & _ & Hcount & Hn1 & Hst1 & _).
  { rewrite Hb1. unfold s0, SENTENCE_LIMIT. simpl. lia. }
  assert (Hov : overlong s1).
  { destruct Hcol as (Ha & Hp & Hidx). right.
    rewrite Hcount, Hb1. unfold s0. simpl. split; [lia|]. split; [done|by left]. }
  rewrite feed_app, Hf1.
  destruct (feed_overlong tail (λ i, clock (S (length b1 + i))) s1 Hov Htail)
    as (s2 & -> & Hn2 & Hst2).
  cbn [fst snd]. split.
  - simpl. by rewrite replicate_add.
  - split; [rewrite Hn2, Hn1|rewrite Hst2, Hst1]; reflexivity.
Qed.

(** ** Instances for the date and for a long sentence *)

Lemma rmc_date_round_trip_witness :
  let self := all_but_last rmc_sentence in
  let self' := snd (update 7 (final_char rmc_sentence) self) in
  update 7 (final_char rmc_sentence) self = (Ret (Some "GPRMC"), self') ∧
  "GPRMC" ∈ RMC ∧
  (2 < 10 ∧ 3 < 10 ∧ 0 < 10 ∧ 3 < 10 ∧ 9 < 10 ∧ 4 < 10)%nat ∧
  gps_segments self' !! 9%nat = Some "230394" ∧
  date_string "s_dmy" "19" self' = Ret "23/03/1994" ∧
  date_string "s_mdy" "19" self' = Ret "03/23/1994".
Proof.
  intros self self'.
  assert (H : update 7 (final_char rmc_sentence) self
              = (Ret (Some "GPRMC"), self'))
    by (vm_compute; reflexivity).
  assert (Hin : "GPRMC" ∈ RMC) by constructor.
  assert (Hd : (2 < 10 ∧ 3 < 10 ∧ 0 < 10 ∧ 3 < 10 ∧ 9 < 10 ∧ 4 < 10)%nat)
    by lia.
  assert (Hds : gps_segments self' !! 9%nat
                = Some (two_digits 2 3 +:+ two_digits 0 3 +:+ two_digits 9 4))
    by (vm_compute; reflexivity).
  split; [exact H|]. split; [exact Hin|]. split; [exact Hd|].
  split; [exact Hds|].
  exact (rmc_date_round_trip 7 (final_char rmc_sentence) self self' "GPRMC"
           "19" 2 3 0 3 9 4 H Hin Hd Hds).
Defined.

Lemma overlong_sentence_dropped_witness :
  let rest := stream "*48" ++ [CR; LF] in
  let r := feed (at_tick 0) ("$"%char :: long_body ++ rest) (__init__ 0) in
  Forall (λ c, accepted c = true ∧ body_char c = true) long_body ∧
  (89 ≤ length long_body)%nat ∧
  Forall (λ c, c ≠ "$"%char) rest ∧
  fst r = Ret (replicate (S (length long_body + length rest)) None) ∧
  navigation (snd r) = navigation (__init__ 0) ∧
  statistics (snd r) = statistics (__init__ 0).
Proof.
  intros rest r.
  assert (Hall : Forall (λ c, accepted c = true ∧ body_char c = true) long_body)
    by (unfold long_body, vtg_body, stream; simpl; repeat constructor).
  assert (Hlen : (89 ≤ length long_body)%nat) by (vm_compute; lia).
  assert (Hrest : Forall (λ c, c ≠ "$"%char) rest)
    by (unfold rest, stream; simpl; repeat (constructor; [discriminate|]);
        constructor).
  split; [exact Hall|]. split; [exact Hlen|]. split; [exact Hrest|].
  exact (overlong_sentence_dropped (at_tick 0) long_body rest (__init__ 0)
           Hall Hlen Hrest).
Defined.
